(** * SIMV traffic core: counting, analytics and colour smoothing

    A shallow embedding of the algorithmic core of the repository
    ([src/counter.py], [src/analytics.py], [src/color_classifier.py]) and the
    properties its specification states about it.

    Python [float] values are IEEE 754 binary64 numbers and are modelled by
    Rocq's primitive floats, so that comparisons with NaN, overflow to
    infinity and rounding behave as they do in CPython.  Python [int] values
    are unbounded and are modelled by [Z].  Dictionaries keyed by track id
    are finite maps, the set of counted ids is a finite set. *)

From Stdlib Require Import ZArith Floats String DecimalString List Lia.
From stdpp Require Import base option list gmap strings.
Set Warnings "-inexact-float".

Open Scope string_scope.
Open Scope Z_scope.
Open Scope list_scope.

(** ** Python primitives used by the three modules *)

Module Py.

(** The exceptions of the modelled code: [int(nan)] raises [ValueError],
    [int(inf)] raises [OverflowError], indexing an empty list raises
    [IndexError]. *)
Inductive exn : Type := ValueError | OverflowError | IndexError.

Inductive result (A : Type) : Type :=
  | Ok (a : A)
  | Raise (e : exn).
Arguments Ok {A} a.
Arguments Raise {A} e.

(** Sequencing: an exception raised by the first computation propagates. *)
#[export] Instance result_bind : MBind result := fun A B k r =>
  match r with
  | Ok a => k a
  | Raise e => Raise e
  end.

(** Conversion of an [int] operand in mixed [int]/[float] arithmetic: the
    nearest binary64 value, ties to even; it is exact below 2^53.  CPython
    raises [OverflowError] for integers beyond the binary64 range, from
    2^1024 on, where the model yields an infinity; no frame height, pixel
    count or line coordinate reaches it.  A comparison of a float with an
    [int] is exact in CPython, and is the comparison with the converted
    integer whenever the conversion is exact. *)
Definition float_of_Z (n : Z) : float :=
  SF2Prim (binary_normalize prec emax n 0 false).

(** [int(x)] on a float: truncation toward zero of the exact value
    [m * 2^e]; NaN and the infinities raise. *)
Definition py_int (x : float) : result Z :=
  match Prim2SF x with
  | S754_nan => Raise ValueError
  | S754_infinity _ => Raise OverflowError
  | S754_zero _ => Ok 0
  | S754_finite s m e =>
      let a := if 0 <=? e then Z.pos m * 2 ^ e else Z.pos m / 2 ^ (- e) in
      Ok (if s then - a else a)
  end.

(** [z] is the integer part of the finite float [x = ± m * 2^e]: it has the
    sign of [x] and a magnitude [a] with [a ≤ m * 2^e < a + 1]. *)
Definition is_truncation (x : float) (z : Z) : Prop :=
  match Prim2SF x with
  | S754_finite s m e =>
      exists a, z = (if s then - a else a) /\ 0 <= a
           /\ a * 2 ^ Z.max 0 (- e) <= Z.pos m * 2 ^ Z.max 0 e
              < (a + 1) * 2 ^ Z.max 0 (- e)
  | S754_zero _ => z = 0
  | _ => False
  end.

(** The built-in [round(x)] on a float, which the specification names where
    the source calls [int]: the nearest integer to the exact value, a value
    half-way between two integers going to the even one. *)
Definition py_round (x : float) : result Z :=
  match Prim2SF x with
  | S754_nan => Raise ValueError
  | S754_infinity _ => Raise OverflowError
  | S754_zero _ => Ok 0
  | S754_finite s m e =>
      let a :=
        if 0 <=? e then Z.pos m * 2 ^ e
        else
          let q := Z.pos m / 2 ^ (- e) in
          let r := Z.pos m mod 2 ^ (- e) in
          let half := 2 ^ (- e - 1) in
          if r <? half then q
          else if half <? r then q + 1
          else if Z.even q then q else q + 1 in
      Ok (if s then - a else a)
  end.

(** A positive float of magnitude at most 1 (exponent of the mantissa at
    most 0 and at least -1000), such as the constants 0.2 and 0.15. *)
Definition is_fraction (c : float) : bool :=
  match Prim2SF c with
  | S754_finite false m e =>
      (Z.pos (digits2_pos m) <=? 53) && (-1000 <=? e) && (e <=? 0)
  | _ => false
  end.

(** [max(a, b)] and [min(a, b)] on two arguments as CPython evaluates them:
    the first argument is kept unless the second compares strictly greater
    (resp. smaller), so a NaN in first position is returned. *)
Definition py_max (a b : float) : float := if (a <? b)%float then b else a.
Definition py_min (a b : float) : float := if (b <? a)%float then b else a.

(** [errno] value of a result out of range. *)
Definition ERANGE : Z := 34.

Section WithLibm.

(** [pow(x, 2.0)] of the platform's C library: the value returned and the
    value of [errno] after the call, 0 when the library set none.  The value
    need not be the correctly rounded square. *)
Variable c_pow2 : float -> float * Z.

(** [x ** 2] on a float, as [float_pow] of CPython evaluates it.  NaN gives
    NaN, an infinity the positive infinity, a zero 0.0 and a base of 1 or -1
    gives 1.0, all without a call of the library.  Any other base is replaced
    by its absolute value and handed to [pow]; an infinite result with
    [errno] unset counts as [ERANGE], [ERANGE] with a zero result is
    ignored, and a remaining [errno] raises [OverflowError] for [ERANGE] and
    [ValueError] otherwise. *)
Definition float_pow2 (x : float) : result float :=
  if is_nan x then Ok x
  else if is_infinity x then Ok (abs x)
  else if (x =? 0)%float then Ok 0%float
  else
    let iv := if (x <? 0)%float then (- x)%float else x in
    if (iv =? 1)%float then Ok 1%float
    else
      let '(ix, errno) := c_pow2 iv in
      let errno :=
        if errno =? 0 then (if is_infinity ix then ERANGE else 0)
        else if (errno =? ERANGE) && (ix =? 0)%float then 0
        else errno in
      if errno =? 0 then Ok ix
      else if errno =? ERANGE then Raise OverflowError
      else Raise ValueError.

End WithLibm.

(** A C library whose [pow] gives the correctly rounded square and leaves
    [errno] alone, the instance used to evaluate the functions that are
    parameterised by the library. *)
Definition pow2_rounded (x : float) : float * Z := ((x * x)%float, 0).

(** [l[-n:]] for a positive [n]. *)
Definition last_n {A : Type} (n : nat) (l : list A) : list A :=
  drop (length l - n) l.

(** Left-to-right summation of floats starting from the integer 0, the
    behaviour of the built-in [sum] up to CPython 3.11 (later versions use a
    compensated summation, which agrees with it whenever every partial sum is
    exact).  The functions of the model that call [sum] take the summation as
    a parameter; this is the instance used to evaluate them. *)
Definition sum_left (xs : list float) : float :=
  fold_left (fun acc x => (acc + x)%float) xs 0%float.

(** Arithmetic mean by the same summation, the instance used to evaluate
    functions that are parameterised by [numpy.mean]. *)
Definition mean_left (xs : list float) : float :=
  (sum_left xs / float_of_Z (Z.of_nat (length xs)))%float.

(** [l[start:]]: a negative [start] counts from the end, and the bound is
    clipped to the list. *)
Definition slice_from {A : Type} (start : Z) (l : list A) : list A :=
  let n := Z.of_nat (length l) in
  let start := if start <? 0 then Z.max 0 (start + n) else Z.min start n in
  drop (Z.to_nat start) l.

End Py.

Import Py.

(** ** [src/counter.py] *)

Module Counter.

Record VehicleRecord : Type := {
  track_id : Z;
  direction : string;
  color : string;
  vehicle_type : string;
  timestamp : float
}.

(** The per-colour and per-type breakdowns are dictionaries whose values are
    the two-key dictionaries [{'entrada': n, 'saida': m}]. *)
Record Breakdown : Type := { entrada : Z; saida : Z }.

Record CountingStats : Type := {
  total_entrada : Z;
  total_saida : Z;
  por_cor : gmap string Breakdown;
  por_tipo : gmap string Breakdown;
  registros : list VehicleRecord
}.

Definition CountingStats_new : CountingStats :=
  {| total_entrada := 0; total_saida := 0;
     por_cor := ∅; por_tipo := ∅; registros := [] |}.

Record VehicleCounter : Type := {
  frame_height : Z;
  line_y : Z;
  zone_margin : Z;
  counted_vehicles : gset Z;
  position_history : gmap Z (list float);
  stats : CountingStats
}.

(** One element of [tracked_vehicles]: the keys ['track_id'] and
    ['class_name'] are read with [dict.get] and may be absent, ['bbox'] is
    read by index and holds the four corner coordinates. *)
Record Vehicle : Type := {
  v_track_id : option Z;
  v_bbox : float * float * float * float;
  v_class_name : option string
}.

(** [VehicleCounter.__init__] *)
Definition init (frame_height : Z) (line_position : float)
  : result VehicleCounter :=
  ly ← py_int (float_of_Z frame_height * line_position)%float;
  zm ← py_int (float_of_Z frame_height * 0.05)%float;
  Ok {| frame_height := frame_height;
        line_y := ly;
        zone_margin := zm;
        counted_vehicles := ∅;
        position_history := ∅;
        stats := CountingStats_new |}.

(** [VehicleCounter._crossed_line]; the two integers of the comparison are
    converted to floats. *)
Definition crossed_line (self : VehicleCounter) (track_id : Z)
    (current_y : float) : bool :=
  (abs (current_y - float_of_Z (line_y self)) <? float_of_Z (zone_margin self))%float.

Section WithSum.

(** The built-in [sum] on a list of floats. *)
Variable py_sum : list float -> float.

Definition average (xs : list float) : float :=
  (py_sum xs / float_of_Z (Z.of_nat (length xs)))%float.

(** The value [movement] of [_get_direction] for a history [positions]. *)
Definition movement (positions : list float) : float :=
  let half := (length positions / 2)%nat in
  let start_positions := take half positions in
  let end_positions := drop half positions in
  (average end_positions - average start_positions)%float.

(** [VehicleCounter._get_direction] *)
Definition get_direction (self : VehicleCounter) (track_id : Z)
  : option string :=
  let positions := default [] (position_history self !! track_id) in
  if (length positions <? 5)%nat then None
  else
    let movement := movement positions in
    if (20 <? movement)%float then Some "entrada"
    else if (movement <? -20)%float then Some "saida"
    else None.

Definition bump (direction : string) (b : Breakdown) : Breakdown :=
  if String.eqb direction "entrada"
  then {| entrada := entrada b + 1; saida := saida b |}
  else {| entrada := entrada b; saida := saida b + 1 |}.

(** [d[key][direction] += 1] on a [defaultdict] of zeroed breakdowns. *)
Definition bump_at (key direction : string) (d : gmap string Breakdown)
  : gmap string Breakdown :=
  <[key := bump direction (default {| entrada := 0; saida := 0 |} (d !! key))]> d.

(** The statistics after one more counted vehicle. *)
Definition record_count (s : CountingStats) (r : VehicleRecord) : CountingStats :=
  {| total_entrada :=
       if String.eqb (direction r) "entrada"
       then total_entrada s + 1 else total_entrada s;
     total_saida :=
       if String.eqb (direction r) "entrada"
       then total_saida s else total_saida s + 1;
     por_cor := bump_at (color r) (direction r) (por_cor s);
     por_tipo := bump_at (vehicle_type r) (direction r) (por_tipo s);
     registros := registros s ++ [r] |}.

(** The history of a track after appending [center_y], kept to the 30 most
    recent positions. *)
Definition push_position (history : list float) (center_y : float) : list float :=
  let history := history ++ [center_y] in
  if (30 <? length history)%nat then last_n 30 history else history.

(** One iteration of the loop of [update]: the counter and the list
    [newly_counted] before and after the vehicle. *)
Definition update_body (colors : gmap Z string) (timestamp : float)
    (st : VehicleCounter * list (Z * string)) (vehicle : Vehicle)
  : VehicleCounter * list (Z * string) :=
  let '(self, newly_counted) := st in
  let track_id := default (-1) (v_track_id vehicle) in
  if track_id <? 0 then st
  else
    let '(_, y1, _, y2) := v_bbox vehicle in
    let center_y := ((y1 + y2) / 2)%float in
    let history :=
      push_position (default [] (position_history self !! track_id)) center_y in
    let self :=
      {| frame_height := frame_height self;
         line_y := line_y self;
         zone_margin := zone_margin self;
         counted_vehicles := counted_vehicles self;
         position_history := <[track_id := history]> (position_history self);
         stats := stats self |} in
    if decide (track_id ∈ counted_vehicles self) then (self, newly_counted)
    else if crossed_line self track_id center_y then
      match get_direction self track_id with
      | Some direction =>
          let record :=
            {| track_id := track_id;
               direction := direction;
               color := default "indefinido" (colors !! track_id);
               vehicle_type := default "car" (v_class_name vehicle);
               timestamp := timestamp |} in
          ({| frame_height := frame_height self;
              line_y := line_y self;
              zone_margin := zone_margin self;
              counted_vehicles := {[track_id]} ∪ counted_vehicles self;
              position_history := position_history self;
              stats := record_count (stats self) record |},
           newly_counted ++ [(track_id, direction)])
      | None => (self, newly_counted)
      end
    else (self, newly_counted).

(** [VehicleCounter.update]: the counter after the call and the returned
    list of newly counted [(track_id, direction)] pairs. *)
Definition update (self : VehicleCounter) (tracked_vehicles : list Vehicle)
    (colors : gmap Z string) (timestamp : float)
  : VehicleCounter * list (Z * string) :=
  fold_left (update_body colors timestamp) tracked_vehicles (self, []).

(** A sequence of calls of [update] on one counter instance: the final
    counter and every pair emitted, in order of emission. *)
Definition call : Type := list Vehicle * gmap Z string * float.

Fixpoint run (self : VehicleCounter) (calls : list call)
  : VehicleCounter * list (Z * string) :=
  match calls with
  | [] => (self, [])
  | (tracked_vehicles, colors, timestamp) :: rest =>
      let '(self, emitted) := update self tracked_vehicles colors timestamp in
      let '(self, later) := run self rest in
      (self, emitted ++ later)
  end.

(** What relates a counter to the pairs [emitted] by the calls of [update]
    made on it so far: the records are the emitted pairs in order, no id was
    emitted twice, every emitted id is in [counted_vehicles], and the two
    totals add up to the number of emitted pairs. *)
Definition pair_of_record (r : VehicleRecord) : Z * string :=
  (track_id r, direction r).

Record consistent (self : VehicleCounter) (emitted : list (Z * string))
  : Prop := {
  consistent_registros :
    pair_of_record <$> registros (stats self) = emitted;
  consistent_NoDup : NoDup emitted.*1;
  consistent_counted :
    ∀ id, id ∈ emitted.*1 → id ∈ counted_vehicles self;
  consistent_total :
    total_entrada (stats self) + total_saida (stats self)
    = Z.of_nat (length emitted)
}.

End WithSum.

(** The scenario of the specification: frame height 600 and line position
    0.5; track 7, classified [azul], has its centre at 100, 150, 200, 250,
    310, 330 and 350 in seven successive frames. *)
Definition scenario_counter : VehicleCounter :=
  {| frame_height := 600; line_y := 300; zone_margin := 30;
     counted_vehicles := ∅; position_history := ∅;
     stats := CountingStats_new |}.

Definition scenario_vehicle (center_y : float) : Vehicle :=
  {| v_track_id := Some 7;
     v_bbox := (100, center_y - 20, 180, center_y + 20)%float;
     v_class_name := Some "car" |}.

Definition scenario_calls : list call :=
  imap (fun i center_y =>
          ([scenario_vehicle center_y], ({[ 7 := "azul" ]} : gmap Z string),
           (float_of_Z (Z.of_nat (S i)) / 30)%float))
       [100; 150; 200; 250; 310; 330; 350]%float.

(** A counter in which track 7 has the history [positions]. *)
Definition with_history (positions : list float) : VehicleCounter :=
  {| frame_height := 600; line_y := 300; zone_margin := 30;
     counted_vehicles := ∅; position_history := {[ 7 := positions ]};
     stats := CountingStats_new |}.

(** [VehicleCounter.get_stats]: the snapshot dictionary. *)
Record StatsSnapshot : Type := {
  snapshot_total_entrada : Z;
  snapshot_total_saida : Z;
  snapshot_total_geral : Z;
  snapshot_por_cor : gmap string Breakdown;
  snapshot_por_tipo : gmap string Breakdown;
  snapshot_registros : Z
}.

Definition get_stats (self : VehicleCounter) : StatsSnapshot :=
  {| snapshot_total_entrada := total_entrada (stats self);
     snapshot_total_saida := total_saida (stats self);
     snapshot_total_geral := total_entrada (stats self) + total_saida (stats self);
     snapshot_por_cor := por_cor (stats self);
     snapshot_por_tipo := por_tipo (stats self);
     snapshot_registros := Z.of_nat (length (registros (stats self))) |}.

(** [VehicleCounter.get_color_distribution] *)
Definition get_color_distribution (self : VehicleCounter) : gmap string Z :=
  (fun counts => entrada counts + saida counts) <$> por_cor (stats self).

(** [VehicleCounter.reset] *)
Definition reset (self : VehicleCounter) : VehicleCounter :=
  {| frame_height := frame_height self;
     line_y := line_y self;
     zone_margin := zone_margin self;
     counted_vehicles := ∅;
     position_history := ∅;
     stats := CountingStats_new |}.

(** The centre [center_y] that [update] computes for a vehicle. *)
Definition center_y_of (vehicle : Vehicle) : float :=
  let '(_, y1, _, y2) := v_bbox vehicle in ((y1 + y2) / 2)%float.

(** The number of records of a list that satisfy a test. *)
Definition count_records (test : VehicleRecord -> bool)
    (records : list VehicleRecord) : Z :=
  Z.of_nat (length (List.filter test records)).

(** The breakdown that the records give for one key: the records with that
    key going in, and those going out. *)
Definition breakdown_of (key_of : VehicleRecord -> string) (key : string)
    (records : list VehicleRecord) : Breakdown :=
  {| entrada :=
       count_records
         (fun r => String.eqb (key_of r) key && String.eqb (direction r) "entrada")
         records;
     saida :=
       count_records
         (fun r => String.eqb (key_of r) key
                   && negb (String.eqb (direction r) "entrada"))
         records |}.

(** A breakdown dictionary agrees with a list of records: a key is present
    exactly when some record has it, with the counts of these records. *)
Definition breakdown_matches (key_of : VehicleRecord -> string)
    (d : gmap string Breakdown) (records : list VehicleRecord) : Prop :=
  ∀ key,
    (d !! key = None ∧ ∀ r, r ∈ records → key_of r ≠ key)
    ∨ (d !! key = Some (breakdown_of key_of key records)
       ∧ ∃ r, r ∈ records ∧ key_of r = key).

(** A record as a call [update(tracked_vehicles, colors, timestamp)] on the
    counter [self] can append it. *)
Definition appended_by (self : VehicleCounter) (tracked_vehicles : list Vehicle)
    (colors : gmap Z string) (timestamp : float) (r : VehicleRecord) : Prop :=
  0 <= track_id r
  ∧ (direction r = "entrada" ∨ direction r = "saida")
  ∧ (track_id r ∉ counted_vehicles self)
  ∧ color r = default "indefinido" (colors !! track_id r)
  ∧ Counter.timestamp r = timestamp
  ∧ ∃ vehicle, vehicle ∈ tracked_vehicles
      ∧ v_track_id vehicle = Some (track_id r)
      ∧ vehicle_type r = default "car" (v_class_name vehicle)
      ∧ crossed_line self (track_id r) (center_y_of vehicle) = true.

End Counter.

(** ** [src/analytics.py] *)

Module Analytics.

Record VehicleMetrics : Type := {
  track_id : Z;
  entry_time : float;
  exit_time : float;
  entry_position : float * float;
  exit_position : float * float;
  positions : list (float * float * float);
  color : string;
  vehicle_type : string;
  speed_estimates : list float;
  direction : string;
  counted : bool
}.

(** [VehicleMetrics(track_id=..., entry_time=..., entry_position=...)] with
    the dataclass defaults for the other fields. *)
Definition VehicleMetrics_new (track_id : Z) (entry_time : float)
    (entry_position : float * float) : VehicleMetrics :=
  {| track_id := track_id;
     entry_time := entry_time;
     exit_time := 0;
     entry_position := entry_position;
     exit_position := (0, 0)%float;
     positions := [];
     color := "indefinido";
     vehicle_type := "car";
     speed_estimates := [];
     direction := "";
     counted := false |}.

(** An alert is a dictionary with the five keys ['type'], ['track_id'],
    ['message'], ['timestamp'] and ['severity']. *)
Record Alert : Type := {
  alert_type : string;
  alert_track_id : Z;
  alert_message : string;
  alert_timestamp : float;
  alert_severity : string
}.

Record AdvancedAnalytics : Type := {
  fps : Z;
  pixels_per_meter : float;
  vehicles : gmap Z VehicleMetrics;
  total_vehicles : Z;
  vehicles_in_scene : Z;
  flow_per_minute : list (float * Z);
  speed_history : list float;
  dwell_times : list float;
  density_history : list (float * Z);
  alerts : list Alert;
  hourly_flow : gmap Z Z;
  start_time : float
}.

(** [AdvancedAnalytics.__init__]; [now] is the value of [time.time()]. *)
Definition init (fps : Z) (pixels_per_meter : float) (now : float)
  : AdvancedAnalytics :=
  {| fps := fps;
     pixels_per_meter := pixels_per_meter;
     vehicles := ∅;
     total_vehicles := 0;
     vehicles_in_scene := 0;
     flow_per_minute := [];
     speed_history := [];
     dwell_times := [];
     density_history := [];
     alerts := [];
     hourly_flow := ∅;
     start_time := now |}.

Section WithLibm.

(** [pow(x, 2.0)] of the C library, see [float_pow2]. *)
Variable c_pow2 : float -> float * Z.

(** [AdvancedAnalytics._calculate_speed].  The two squares [d**2] are float
    powers, evaluated from left to right, and either may raise; [np.sqrt] is
    the IEEE square root, and the divisions that follow it are NumPy's,
    which do not raise. *)
Definition calculate_speed (self : AdvancedAnalytics)
    (pos1 pos2 : float * float * float) : result float :=
  let '(x1, y1, t1) := pos1 in
  let '(x2, y2, t2) := pos2 in
  let dt := (t2 - t1)%float in
  if (dt <=? 0)%float then Ok 0%float
  else
    dx2 ← float_pow2 c_pow2 (x2 - x1)%float;
    dy2 ← float_pow2 c_pow2 (y2 - y1)%float;
    let distance_pixels := sqrt (dx2 + dy2)%float in
    let distance_meters := (distance_pixels / pixels_per_meter self)%float in
    let speed_ms := (distance_meters / dt)%float in
    let speed_kmh := (speed_ms * 3.6)%float in
    Ok (py_min (py_max speed_kmh 0) 200).

End WithLibm.

(** Truth value of an optional string argument: [None] and the empty string
    are false. *)
Definition truthy (s : option string) : bool :=
  match s with
  | Some s => negb (String.eqb s "")
  | None => false
  end.

(** The last two elements [l[-2]] and [l[-1]] of a list with at least two
    elements. *)
Definition last_two {A : Type} (l : list A) : option (A * A) :=
  match last_n 2 l with
  | [a; b] => Some (a, b)
  | _ => None
  end.

Section WithLibmUpdate.

Variable c_pow2 : float -> float * Z.

(** [AdvancedAnalytics.update_vehicle]: the engine after the call, and what
    the call returned or raised.  The record stored in [vehicles] is mutated
    in place by the source; the model writes the mutated record back under
    the same key.  The source calls [_calculate_speed] last: when it raises,
    the record, the two counts, the position, the colour and the type are
    already written, and no speed is appended. *)
Definition update_vehicle (self : AdvancedAnalytics) (track_id : Z)
    (bbox : float * float * float * float) (timestamp : float)
    (color vehicle_type : option string) : AdvancedAnalytics * result unit :=
  let '(bx1, by1, bx2, by2) := bbox in
  let center_x := ((bx1 + bx2) / 2)%float in
  let center_y := ((by1 + by2) / 2)%float in
  let is_new := bool_decide (vehicles self !! track_id = None) in
  let vehicle :=
    default (VehicleMetrics_new track_id timestamp (center_x, center_y))
            (vehicles self !! track_id) in
  let positions := positions vehicle ++ [(center_x, center_y, timestamp)] in
  let speed : result (option float) :=
    if (2 <=? length positions)%nat then
      match last_two positions with
      | Some (p1, p2) =>
          speed ← calculate_speed c_pow2 self p1 p2;
          Ok (if (0 <? speed)%float then Some speed else None)
      | None => Ok None
      end
    else Ok None in
  let appended : list float :=
    match speed with
    | Ok (Some speed) => [speed]
    | _ => []
    end in
  let vehicle :=
    {| track_id := Analytics.track_id vehicle;
       entry_time := entry_time vehicle;
       exit_time := exit_time vehicle;
       entry_position := entry_position vehicle;
       exit_position := exit_position vehicle;
       positions := positions;
       color := if truthy color then default "" color
                else Analytics.color vehicle;
       vehicle_type := if truthy vehicle_type then default "" vehicle_type
                       else Analytics.vehicle_type vehicle;
       speed_estimates := speed_estimates vehicle ++ appended;
       direction := direction vehicle;
       counted := counted vehicle |} in
  ({| fps := fps self;
     pixels_per_meter := pixels_per_meter self;
     vehicles := <[track_id := vehicle]> (vehicles self);
     total_vehicles :=
       if is_new then total_vehicles self + 1 else total_vehicles self;
     vehicles_in_scene :=
       if is_new then vehicles_in_scene self + 1 else vehicles_in_scene self;
     flow_per_minute := flow_per_minute self;
     speed_history := speed_history self ++ appended;
     dwell_times := dwell_times self;
     density_history := density_history self;
     alerts := alerts self;
     hourly_flow := hourly_flow self;
     start_time := start_time self |},
   _ ← speed; Ok tt).

End WithLibmUpdate.

Section WithRuntime.

(** [numpy.mean] on a non-empty list of floats, and the format
    specification [:.1f] of f-strings. *)
Variable np_mean : list float -> float.
Variable format_1f : float -> string.

(** [str(n)] for an integer. *)
Definition str_of_int (n : Z) : string := NilZero.string_of_int (Z.to_int n).

(** The two alert dictionaries built by [_check_alerts]. *)
Definition long_dwell_alert (vehicle : VehicleMetrics) (dwell_time now : float)
  : Alert :=
  {| alert_type := "PERMANENCIA_LONGA";
     alert_track_id := track_id vehicle;
     alert_message :=
       "Veículo #" +:+ str_of_int (track_id vehicle) +:+ " permaneceu "
       +:+ format_1f dwell_time +:+ "s na área";
     alert_timestamp := now;
     alert_severity := "warning" |}.

Definition high_speed_alert (vehicle : VehicleMetrics) (avg_speed now : float)
  : Alert :=
  {| alert_type := "ALTA_VELOCIDADE";
     alert_track_id := track_id vehicle;
     alert_message :=
       "Veículo #" +:+ str_of_int (track_id vehicle)
       +:+ " com velocidade média de " +:+ format_1f avg_speed +:+ " km/h";
     alert_timestamp := now;
     alert_severity := "danger" |}.

(** The alerts appended by the first and by the second check of
    [_check_alerts]; [now1] and [now2] are the values [time.time()] has when
    the respective dictionary is built. *)
Definition dwell_check (vehicle : VehicleMetrics) (dwell_time now1 : float)
  : list Alert :=
  if (60 <? dwell_time)%float
  then [long_dwell_alert vehicle dwell_time now1] else [].

Definition speed_check (vehicle : VehicleMetrics) (now2 : float) : list Alert :=
  match speed_estimates vehicle with
  | [] => []
  | _ :: _ =>
      let avg_speed := np_mean (speed_estimates vehicle) in
      if (80 <? avg_speed)%float
      then [high_speed_alert vehicle avg_speed now2] else []
  end.

(** [AdvancedAnalytics._check_alerts]: the list [self.alerts] after the call. *)
Definition check_alerts (alerts : list Alert) (vehicle : VehicleMetrics)
    (dwell_time now1 now2 : float) : list Alert :=
  (alerts ++ dwell_check vehicle dwell_time now1) ++ speed_check vehicle now2.

(** The record of a vehicle after the assignments of [vehicle_exited]. *)
Definition finalize (vehicle : VehicleMetrics) (timestamp : float)
    (direction : string) : VehicleMetrics :=
  {| track_id := track_id vehicle;
     entry_time := entry_time vehicle;
     exit_time := timestamp;
     entry_position := entry_position vehicle;
     exit_position :=
       match last (positions vehicle) with
       | Some (x, y, _) => (x, y)
       | None => exit_position vehicle
       end;
     positions := positions vehicle;
     color := color vehicle;
     vehicle_type := vehicle_type vehicle;
     speed_estimates := speed_estimates vehicle;
     direction := direction;
     counted := true |}.

(** [AdvancedAnalytics.vehicle_exited] *)
Definition vehicle_exited (self : AdvancedAnalytics) (track_id : Z)
    (timestamp : float) (direction : string) (now1 now2 : float)
  : AdvancedAnalytics :=
  match vehicles self !! track_id with
  | None => self
  | Some vehicle =>
      let vehicle := finalize vehicle timestamp direction in
      let dwell_time := (timestamp - entry_time vehicle)%float in
      {| fps := fps self;
         pixels_per_meter := pixels_per_meter self;
         vehicles := <[track_id := vehicle]> (vehicles self);
         total_vehicles := total_vehicles self;
         vehicles_in_scene := Z.max 0 (vehicles_in_scene self - 1);
         flow_per_minute := flow_per_minute self;
         speed_history := speed_history self;
         dwell_times := dwell_times self ++ [dwell_time];
         density_history := density_history self;
         alerts := check_alerts (alerts self) vehicle dwell_time now1 now2;
         hourly_flow := hourly_flow self;
         start_time := start_time self |}
  end.

End WithRuntime.

(** [AdvancedAnalytics.update_density] *)
Definition update_density (self : AdvancedAnalytics) (timestamp : float)
    (vehicle_count : Z) : AdvancedAnalytics :=
  let history := density_history self ++ [(timestamp, vehicle_count)] in
  let cutoff := (timestamp - 300)%float in
  {| fps := fps self;
     pixels_per_meter := pixels_per_meter self;
     vehicles := vehicles self;
     total_vehicles := total_vehicles self;
     vehicles_in_scene := vehicles_in_scene self;
     flow_per_minute := flow_per_minute self;
     speed_history := speed_history self;
     dwell_times := dwell_times self;
     density_history :=
       List.filter (fun '(t, c) => (cutoff <? t)%float) history;
     alerts := alerts self;
     hourly_flow := hourly_flow self;
     start_time := start_time self |}.

(** [AdvancedAnalytics.reset]; [now] is the value of [time.time()]. *)
Definition reset (self : AdvancedAnalytics) (now : float) : AdvancedAnalytics :=
  {| fps := fps self;
     pixels_per_meter := pixels_per_meter self;
     vehicles := ∅;
     total_vehicles := 0;
     vehicles_in_scene := 0;
     flow_per_minute := [];
     speed_history := [];
     dwell_times := [];
     density_history := [];
     alerts := [];
     hourly_flow := ∅;
     start_time := now |}.

(** [AdvancedAnalytics.get_traffic_density] *)
Definition get_traffic_density (self : AdvancedAnalytics) : string :=
  if vehicles_in_scene self <=? 2 then "BAIXO"
  else if vehicles_in_scene self <=? 5 then "MODERADO"
  else if vehicles_in_scene self <=? 10 then "ALTO"
  else "CONGESTIONADO".

(** [AdvancedAnalytics.get_traffic_density_color]: the dictionary [colors]
    and its lookup with a default. *)
Definition density_colors : gmap string string :=
  {[ "BAIXO" := "#27ae60"; "MODERADO" := "#f39c12";
     "ALTO" := "#e67e22"; "CONGESTIONADO" := "#e74c3c" ]}.

Definition get_traffic_density_color (self : AdvancedAnalytics) : string :=
  default "#95a5a6" (density_colors !! get_traffic_density self).

(** [AdvancedAnalytics.get_recent_alerts] *)
Definition get_recent_alerts (self : AdvancedAnalytics) (count : Z)
  : list Alert :=
  slice_from (- count) (alerts self).

Section WithSorted.

(** [sorted(d.items(), key=lambda x: -x[1])] on the dictionary
    [hourly_flow]. *)
Variable sorted_by_flow : gmap Z Z -> list (Z * Z).

(** [AdvancedAnalytics.get_peak_hours] *)
Definition get_peak_hours (self : AdvancedAnalytics) : list (Z * Z) :=
  if bool_decide (hourly_flow self = ∅) then []
  else take 3 (sorted_by_flow (hourly_flow self)).

End WithSorted.

(** The calls that change an engine. *)
Inductive operation : Type :=
  | UpdateVehicle (track_id : Z) (bbox : float * float * float * float)
      (timestamp : float) (color vehicle_type : option string)
  | VehicleExited (track_id : Z) (timestamp : float) (direction : string)
      (now1 now2 : float)
  | UpdateDensity (timestamp : float) (vehicle_count : Z)
  | Reset (now : float).

Section WithRuntimeOps.

Variable c_pow2 : float -> float * Z.
Variable np_mean : list float -> float.
Variable format_1f : float -> string.

(** The engine after one call; a call of [update_vehicle] that raises
    leaves the engine as it was when the exception was raised. *)
Definition apply (self : AdvancedAnalytics) (o : operation)
  : AdvancedAnalytics :=
  match o with
  | UpdateVehicle track_id bbox timestamp color vehicle_type =>
      (update_vehicle c_pow2 self track_id bbox timestamp color vehicle_type).1
  | VehicleExited track_id timestamp direction now1 now2 =>
      vehicle_exited np_mean format_1f self track_id timestamp direction
        now1 now2
  | UpdateDensity timestamp vehicle_count =>
      update_density self timestamp vehicle_count
  | Reset now => reset self now
  end.

(** An engine after a sequence of calls. *)
Definition run (self : AdvancedAnalytics) (calls : list operation)
  : AdvancedAnalytics :=
  fold_left apply calls self.

End WithRuntimeOps.

(** What every call keeps true of an engine. *)
Record well_formed (self : AdvancedAnalytics) : Prop := {
  wf_total : total_vehicles self = Z.of_nat (size (vehicles self));
  wf_scene : 0 <= vehicles_in_scene self <= total_vehicles self;
  wf_vehicle :
    ∀ k v, vehicles self !! k = Some v →
      track_id v = k
      ∧ head (positions v)
        = Some (fst (entry_position v), snd (entry_position v), entry_time v)
      ∧ (length (speed_estimates v) < length (positions v))%nat
      ∧ ∀ s, s ∈ speed_estimates v →
             (0 <? s)%float = true ∧ (s <=? 200)%float = true;
  wf_speeds :
    ∀ s, s ∈ speed_history self →
         (0 <? s)%float = true ∧ (s <=? 200)%float = true;
  wf_unused : hourly_flow self = ∅ ∧ flow_per_minute self = []
}.

(** An instance of the number formatting used to evaluate the functions
    that build alert messages; no stated property reads the digits. *)
Definition format_hidden (x : float) : string := "_".

(** Selects the alerts of type [PERMANENCIA_LONGA] raised for a track. *)
Definition is_long_dwell (track_id : Z) (a : Alert) : bool :=
  (alert_track_id a =? track_id) && String.eqb (alert_type a) "PERMANENCIA_LONGA".

(** Selects the alerts of type [ALTA_VELOCIDADE] raised for a track. *)
Definition is_high_speed (track_id : Z) (a : Alert) : bool :=
  (alert_track_id a =? track_id) && String.eqb (alert_type a) "ALTA_VELOCIDADE".

(** An engine with the default scale of 20 pixels per metre that has seen
    track 1 once, at time 0 and centred at (5, 5). *)
Definition example_engine : AdvancedAnalytics :=
  (update_vehicle pow2_rounded (init 30 20 0) 1 (0, 0, 10, 10)%float 0
     None None).1.

(** The same engine after track 1 was seen 9 seconds later, 25000 pixels to
    the right: a displacement of 500 km/h. *)
Definition example_fast : AdvancedAnalytics :=
  (update_vehicle pow2_rounded example_engine 1 (25000, 0, 25010, 10)%float 9
     None None).1.

(** The calls that lead a new engine to [example_fast], followed by the
    exit of track 1 at time 100 and a density sample. *)
Definition example_calls : list operation :=
  [ UpdateVehicle 1 (0, 0, 10, 10)%float 0 None None;
    UpdateVehicle 1 (25000, 0, 25010, 10)%float 9 None None;
    VehicleExited 1 100 "entrada" 101 102;
    UpdateDensity 100 1 ].

End Analytics.

(** ** [src/color_classifier.py] *)

Module Color.

(** [COLOR_RANGES], in the insertion order of the dictionary; a range is
    [(H_min, H_max, S_min, S_max, V_min, V_max)]. *)
Definition COLOR_RANGES : list (string * list (Z * Z * Z * Z * Z * Z)) :=
  [ ("vermelho", [(0, 10, 70, 255, 50, 255); (170, 180, 70, 255, 50, 255)]);
    ("laranja", [(10, 25, 70, 255, 50, 255)]);
    ("amarelo", [(25, 35, 70, 255, 50, 255)]);
    ("verde", [(35, 85, 70, 255, 50, 255)]);
    ("azul", [(85, 130, 70, 255, 50, 255)]);
    ("roxo", [(130, 160, 70, 255, 50, 255)]);
    ("rosa", [(160, 170, 70, 255, 50, 255)]);
    ("branco", [(0, 180, 0, 30, 200, 255)]);
    ("preto", [(0, 180, 0, 255, 0, 50)]);
    ("cinza", [(0, 180, 0, 30, 50, 200)]);
    ("prata", [(0, 180, 0, 40, 150, 220)]) ].

(** A BGR frame: an array of shape [(shape0, shape1, 3)]; [bgr r c] is the
    pixel of row [r] and column [c]. *)
Record Frame : Type := {
  shape0 : nat;
  shape1 : nat;
  bgr : Z -> Z -> Z * Z * Z
}.

(** The bounds selected by a slice [i:j] on an axis of length [n]: negative
    indices count from the end, and both ends are clipped to the axis. *)
Definition slice (n i j : Z) : Z * Z :=
  let clip k := if k <? 0 then Z.max 0 (k + n) else Z.min k n in
  (clip i, clip j).

Definition slice_len (s : Z * Z) : Z := Z.max 0 (snd s - fst s).

(** A rectangular view of the frame: the selected rows and columns, as
    offsets from the origin of the frame. *)
Definition View : Type := (Z * Z) * (Z * Z).

Definition view_rows (v : View) : Z := slice_len (fst v).
Definition view_cols (v : View) : Z := slice_len (snd v).

(** [roi.size] of a three-channel view. *)
Definition view_size (v : View) : Z := view_rows v * view_cols v * 3.

(** [roi[i1:j1, i2:j2]] *)
Definition subview (v : View) (i1 j1 i2 j2 : Z) : View :=
  let '(a1, b1) := slice (view_rows v) i1 j1 in
  let '(a2, b2) := slice (view_cols v) i2 j2 in
  ((fst (fst v) + a1, fst (fst v) + b1), (fst (snd v) + a2, fst (snd v) + b2)).

(** The pixels of a view, row by row. *)
Definition view_pixels (frame : Frame) (v : View) : list (Z * Z * Z) :=
  r ← seqZ (fst (fst v)) (view_rows v);
  c ← seqZ (fst (snd v)) (view_cols v);
  [bgr frame r c].

(** [cv2.inRange] on one pixel: every channel within its inclusive bounds. *)
Definition in_range (px : Z * Z * Z) (range_values : Z * Z * Z * Z * Z * Z)
  : bool :=
  let '(h, s, v) := px in
  let '(h_min, h_max, s_min, s_max, v_min, v_max) := range_values in
  (h_min <=? h) && (h <=? h_max) && (s_min <=? s) && (s <=? s_max)
  && (v_min <=? v) && (v <=? v_max).

(** [np.sum(mask > 0)] for the union of the masks of [ranges]. *)
Definition count_matching (ranges : list (Z * Z * Z * Z * Z * Z))
    (hsv : list (Z * Z * Z)) : nat :=
  length (filter (fun px => existsb (in_range px) ranges) hsv).

(** [max(items, key=lambda x: x[1])]: the first item, in iteration order,
    whose count is maximal. *)
Definition max_item (items : list (string * nat)) : option (string * nat) :=
  match items with
  | [] => None
  | x :: rest =>
      Some (fold_left
              (fun best y => if (snd best <? snd y)%nat then y else best)
              rest x)
  end.

(** [Counter(history)]: the labels with their numbers of occurrences, in the
    order in which each label first occurs. *)
Fixpoint count_elem (x : string) (counter : list (string * nat))
  : list (string * nat) :=
  match counter with
  | [] => [(x, 1%nat)]
  | (y, n) :: rest =>
      if String.eqb x y then (y, S n) :: rest
      else (y, n) :: count_elem x rest
  end.

Definition Counter (history : list string) : list (string * nat) :=
  fold_left (fun counter x => count_elem x counter) history [].

(** The history of a track after appending [current_color], kept to the 10
    most recent classifications. *)
Definition push_color (history : list string) (current_color : string)
  : list string :=
  let history := history ++ [current_color] in
  if (10 <? length history)%nat then last_n 10 history else history.

(** [counter.most_common(1)[0][0]]: [most_common(1)] is the one-element list
    of the first item with the maximal count, or the empty list. *)
Definition most_common (history : list string) : result string :=
  match max_item (Counter history) with
  | Some item => Ok (fst item)
  | None => Raise IndexError
  end.

(** The part of [classify_with_smoothing] that follows the call of
    [classify]: the updated [color_history] and the returned label. *)
Definition smooth (color_history : gmap Z (list string)) (track_id : Z)
    (current_color : string) : result (gmap Z (list string) * string) :=
  let history :=
    push_color (default [] (color_history !! track_id)) current_color in
  most_common ← most_common history;
  Ok (<[track_id := history]> color_history, most_common).

(** Successive calls of the smoothing for one track, one per label of
    [colors]: the final [color_history] and the labels returned, in order. *)
Fixpoint feed (color_history : gmap Z (list string)) (track_id : Z)
    (colors : list string) : result (gmap Z (list string) * list string) :=
  match colors with
  | [] => Ok (color_history, [])
  | current_color :: rest =>
      r ← smooth color_history track_id current_color;
      rs ← feed r.1 track_id rest;
      Ok (rs.1, r.2 :: rs.2)
  end.

(** The number of occurrences of a label in a window, and the distinct
    labels of a window in the order in which they first occur. *)
Definition occurrences (x : string) (history : list string) : nat :=
  length (List.filter (String.eqb x) history).

Definition first_seen (history : list string) : list string :=
  fold_left
    (fun seen x => if bool_decide (x ∈ seen) then seen else seen ++ [x])
    history [].

(** The tie-break as the specification words it, most recently inserted
    first: the window is scanned from its newest entry to its oldest, and the
    first label found with the maximal count wins. *)
Definition mode_recent_first (history : list string) : result string :=
  most_common (rev history).

(** The dictionary [color_counts] for the analysed region. *)
Definition color_counts (hsv : list (Z * Z * Z)) : list (string * nat) :=
  map (fun '(color_name, ranges) => (color_name, count_matching ranges hsv))
      COLOR_RANGES.

(** The decision taken on the analysed region: its HSV pixels and its
    number of pixels. *)
Definition predominant (hsv : list (Z * Z * Z)) (total_pixels : Z) : string :=
  match max_item (color_counts hsv) with
  | Some max_color =>
      if (float_of_Z total_pixels * 0.1 <? float_of_Z (Z.of_nat (snd max_color)))%float
      then fst max_color else "indefinido"
  | None => "indefinido"
  end.

(** The bounding box after conversion to integers and clipping to the
    frame: [(x1, y1, x2, y2)]. *)
Definition clip_bbox (frame : Frame) (x1 y1 x2 y2 : Z) : Z * Z * Z * Z :=
  (Z.max 0 x1, Z.max 0 y1,
   Z.min (Z.of_nat (shape1 frame)) x2, Z.min (Z.of_nat (shape0 frame)) y2).

(** The central region analysed for a non-empty vehicle region. *)
Definition center_of (vehicle_roi : View) (margin_h margin_w : Z) : View :=
  let h := view_rows vehicle_roi in
  let w := view_cols vehicle_roi in
  let center_roi :=
    subview vehicle_roi margin_h (h - margin_h) margin_w (w - margin_w) in
  if view_size center_roi =? 0 then vehicle_roi else center_roi.

Section WithOpenCV.

(** The conversion [cv2.cvtColor(_, cv2.COLOR_BGR2HSV)] of one pixel. *)
Variable bgr2hsv : Z * Z * Z -> Z * Z * Z.

(** [ColorClassifier.classify] *)
Definition classify (frame : Frame) (bbox : float * float * float * float)
  : result string :=
  let '(b0, b1, b2, b3) := bbox in
  x1 ← py_int b0;
  y1 ← py_int b1;
  x2 ← py_int b2;
  y2 ← py_int b3;
  let '(x1, y1, x2, y2) := clip_bbox frame x1 y1 x2 y2 in
  if (x2 <=? x1) || (y2 <=? y1) then Ok "indefinido"
  else
    let vehicle_roi : View :=
      (slice (Z.of_nat (shape0 frame)) y1 y2,
       slice (Z.of_nat (shape1 frame)) x1 x2) in
    if view_size vehicle_roi =? 0 then Ok "indefinido"
    else
      let h := view_rows vehicle_roi in
      let w := view_cols vehicle_roi in
      margin_h ← py_int (float_of_Z h * 0.2)%float;
      margin_w ← py_int (float_of_Z w * 0.15)%float;
      let center_roi := center_of vehicle_roi margin_h margin_w in
      let hsv := map bgr2hsv (view_pixels frame center_roi) in
      let total_pixels := view_rows center_roi * view_cols center_roi in
      Ok (predominant hsv total_pixels).

(** [ColorClassifier.classify_with_smoothing] *)
Definition classify_with_smoothing (color_history : gmap Z (list string))
    (track_id : Z) (frame : Frame) (bbox : float * float * float * float)
  : result (gmap Z (list string) * string) :=
  current_color ← classify frame bbox;
  smooth color_history track_id current_color.

End WithOpenCV.

(** A frame of 10 by 10 pixels, all of the same colour, and a conversion
    that sends that colour into the band of [azul] and anything else to
    black. *)
Definition blue_frame : Frame :=
  {| shape0 := 10; shape1 := 10; bgr := fun _ _ => (255, 0, 0) |}.

Definition blue_to_hsv (px : Z * Z * Z) : Z * Z * Z :=
  let '(b, g, r) := px in
  if (b =? 255) && (g =? 0) && (r =? 0) then (120, 255, 255) else (0, 0, 0).

(** The labels [classify] chooses from: those of [COLOR_RANGES] and
    [indefinido]. *)
Definition vocabulary : list string := COLOR_RANGES.*1 ++ ["indefinido"].

(** What the smoothing keeps true of [color_history]: the window of a track
    holds between 1 and 10 labels, all of the vocabulary. *)
Definition bounded_windows (color_history : gmap Z (list string)) : Prop :=
  ∀ track_id history,
    color_history !! track_id = Some history →
    (1 <= length history <= 10)%nat ∧ ∀ label, label ∈ history → label ∈ vocabulary.

(** The blue frame with one red pixel, in its corner. *)
Definition blue_frame_marked : Frame :=
  {| shape0 := 10; shape1 := 10;
     bgr := fun r c => if (r =? 0) && (c =? 0) then (0, 0, 255) else (255, 0, 0) |}.

End Color.

(** ** [src/tracker.py] *)

Module Tracker.

Section WithPositions.

(** The centres stored by [update] are NumPy scalars; the two functions
    below do not read them. *)
Variable position : Type.

(** The dictionary stored for a track in [tracked_vehicles]. *)
Record TrackInfo : Type := {
  first_seen : bool;
  positions : list position;
  color : option string
}.

(** [VehicleTracker.set_vehicle_color] *)
Definition set_vehicle_color (tracked_vehicles : gmap Z TrackInfo)
    (track_id : Z) (color : string) : gmap Z TrackInfo :=
  match tracked_vehicles !! track_id with
  | Some info =>
      <[track_id := {| first_seen := first_seen info;
                       positions := positions info;
                       color := Some color |}]> tracked_vehicles
  | None => tracked_vehicles
  end.

(** [VehicleTracker.get_vehicle_color] *)
Definition get_vehicle_color (tracked_vehicles : gmap Z TrackInfo)
    (track_id : Z) : option string :=
  match tracked_vehicles !! track_id with
  | Some info => color info
  | None => None
  end.

End WithPositions.

Arguments first_seen {position} _.
Arguments positions {position} _.
Arguments color {position} _.
Arguments set_vehicle_color {position} _ _ _.
Arguments get_vehicle_color {position} _ _.

End Tracker.

(** ** The frame loop of [validacao.py], [dashboard.py] and
    [dashboard_v2.py] *)

Module Pipeline.

Section WithLibraries.

Variable bgr2hsv : Z * Z * Z -> Z * Z * Z.
Variable py_sum : list float -> float.

(** One iteration of the colour loop: the classifier's [color_history] and
    the caller's dictionary [vehicle_colors]. *)
Definition classify_vehicle (frame : Color.Frame)
    (st : gmap Z (list string) * gmap Z string) (vehicle : Counter.Vehicle)
  : result (gmap Z (list string) * gmap Z string) :=
  let '(color_history, vehicle_colors) := st in
  let track_id := default (-1) (Counter.v_track_id vehicle) in
  if 0 <=? track_id then
    r ← Color.classify_with_smoothing bgr2hsv color_history track_id frame
          (Counter.v_bbox vehicle);
    Ok (r.1, <[track_id := r.2]> vehicle_colors)
  else Ok st.

(** The colour loop over the tracked vehicles of a frame. *)
Fixpoint classify_vehicles (frame : Color.Frame)
    (st : gmap Z (list string) * gmap Z string)
    (tracked_vehicles : list Counter.Vehicle)
  : result (gmap Z (list string) * gmap Z string) :=
  match tracked_vehicles with
  | [] => Ok st
  | vehicle :: rest =>
      st ← classify_vehicle frame st vehicle;
      classify_vehicles frame st rest
  end.

(** The state kept by the loop across frames. *)
Record State : Type := {
  color_history : gmap Z (list string);
  vehicle_colors : gmap Z string;
  counter : Counter.VehicleCounter
}.

(** One frame: colour classification of every tracked vehicle, then
    [counter.update] with the colours known so far. *)
Definition process_frame (st : State) (frame : Color.Frame)
    (tracked_vehicles : list Counter.Vehicle) (timestamp : float)
  : result (State * list (Z * string)) :=
  colors ← classify_vehicles frame (color_history st, vehicle_colors st)
             tracked_vehicles;
  let updated :=
    Counter.update py_sum (counter st) tracked_vehicles colors.2 timestamp in
  Ok ({| color_history := colors.1;
         vehicle_colors := colors.2;
         counter := updated.1 |}, updated.2).

End WithLibraries.

(** A frame of 600 rows and 200 columns, all blue, and the state of the
    loop on it after the first four frames of the scenario of the counter. *)
Definition blue_road : Color.Frame :=
  {| Color.shape0 := 600; Color.shape1 := 200;
     Color.bgr := fun _ _ => (255, 0, 0) |}.

Definition scenario_state : State :=
  {| color_history := ∅;
     vehicle_colors := ∅;
     counter :=
       (Counter.run sum_left Counter.scenario_counter
          (take 4 Counter.scenario_calls)).1 |}.

End Pipeline.

(** * Properties *)

(** ** Facts on the Python primitives *)

Module PyFacts.

(** *** Order on binary64 numbers

    [<?] and [<=?] are decided on the specification [Prim2SF] of the
    operands; a comparison with NaN is false. *)

Lemma SFcompare_swap (x y : spec_float) :
  SFcompare y x = CompOpp <$> SFcompare x y.
Proof.
  destruct x as [sx|sx| |sx mx ex], y as [sy|sy| |sy my ey]; simpl;
    try (by destruct sx); try (by destruct sy); try (by destruct sx, sy).
  f_equal. rewrite (Z.compare_antisym ex ey).
  pose proof (Pos.compare_cont_antisym mx my Eq) as Hm. simpl in Hm.
  destruct sx, sy; simpl; try done; destruct (ex ?= ey); simpl; try done.
  - by rewrite <- Hm.
  - by rewrite <- Hm.
Qed.

Lemma SFcompare_None (x y : spec_float) :
  SFcompare x y = None -> x = S754_nan \/ y = S754_nan.
Proof.
  destruct x as [sx|sx| |sx mx ex], y as [sy|sy| |sy my ey]; simpl; auto;
    discriminate.
Qed.

Lemma SFcompare_Lt_trans (x y z : spec_float) :
  SFcompare x y = Some Lt -> SFcompare y z = Some Lt -> SFcompare x z = Some Lt.
Proof.
  destruct x as [sx|sx| |sx mx ex], y as [sy|sy| |sy my ey],
    z as [sz|sz| |sz mz ez]; simpl; try done;
    try (by destruct sx); try (by destruct sy); try (by destruct sz);
    try (by destruct sx, sy); try (by destruct sy, sz);
    try (by destruct sx, sz); try (by destruct sx, sy, sz).
  change (Pos.compare_cont Eq) with Pos.compare.
  destruct sx, sy, sz; try done; intros Hxy Hyz; f_equal;
    destruct (Z.compare_spec ex ey), (Z.compare_spec ey ez),
      (Z.compare_spec ex ez);
    simplify_eq; try lia; try done;
    destruct (Pos.compare_spec mx my), (Pos.compare_spec my mz),
      (Pos.compare_spec mx mz);
    simplify_eq; simpl in *; try lia; try done.
Qed.

Lemma is_nan_spec (x : float) : is_nan x = true <-> Prim2SF x = S754_nan.
Proof.
  unfold is_nan. rewrite FloatAxioms.eqb_spec. unfold SFeqb.
  destruct (Prim2SF x) as [s|s| |s m e]; simpl.
  - split; discriminate.
  - destruct s; split; discriminate.
  - done.
  - destruct s; rewrite Z.compare_refl, Pos.compare_cont_refl; simpl;
      split; discriminate.
Qed.

Lemma ltb_trans (x y z : float) :
  (x <? y)%float = true -> (y <? z)%float = true -> (x <? z)%float = true.
Proof.
  rewrite !FloatAxioms.ltb_spec. unfold SFltb.
  destruct (SFcompare (Prim2SF x) (Prim2SF y)) as [[]|] eqn:Hxy; try done.
  destruct (SFcompare (Prim2SF y) (Prim2SF z)) as [[]|] eqn:Hyz; try done.
  by rewrite (SFcompare_Lt_trans _ _ _ Hxy Hyz).
Qed.

Lemma leb_not_ltb (x y : float) :
  (x <=? y)%float = true -> (y <? x)%float = false.
Proof.
  rewrite FloatAxioms.leb_spec, FloatAxioms.ltb_spec. unfold SFleb, SFltb.
  rewrite (SFcompare_swap (Prim2SF x) (Prim2SF y)).
  by destruct (SFcompare (Prim2SF x) (Prim2SF y)) as [[]|].
Qed.

Lemma eqb_not_ltb (x y : float) :
  (x =? y)%float = true -> (x <? y)%float = false.
Proof.
  rewrite FloatAxioms.eqb_spec, FloatAxioms.ltb_spec. unfold SFeqb, SFltb.
  by destruct (SFcompare (Prim2SF x) (Prim2SF y)) as [[]|].
Qed.

Lemma not_ltb_leb (x y : float) :
  is_nan x = false -> is_nan y = false ->
  (y <? x)%float = false -> (x <=? y)%float = true.
Proof.
  intros Hx Hy. rewrite FloatAxioms.leb_spec, FloatAxioms.ltb_spec.
  unfold SFleb, SFltb. rewrite (SFcompare_swap (Prim2SF x) (Prim2SF y)).
  destruct (SFcompare (Prim2SF x) (Prim2SF y)) as [[]|] eqn:Hc; try done.
  apply SFcompare_None in Hc as [Hc|Hc]; apply is_nan_spec in Hc; congruence.
Qed.

Lemma ltb_not_nan (x y : float) :
  (x <? y)%float = true -> is_nan x = false /\ is_nan y = false.
Proof.
  rewrite FloatAxioms.ltb_spec. unfold SFltb. intros H.
  split; apply not_true_is_false; intros Hn%is_nan_spec; rewrite Hn in H.
  - done.
  - by destruct (Prim2SF x).
Qed.

(** *** Exceptions *)

(** Sequencing returns exactly when both computations return. *)
Lemma bind_Ok {A B : Type} (r : result A) (k : A -> result B) (b : B) :
  r ≫= k = Ok b <-> exists a, r = Ok a /\ k a = Ok b.
Proof.
  unfold mbind, result_bind. destruct r as [a|e].
  - split; [by exists a|]. by intros (? & [= ->] & ?).
  - split; [done|]. by intros (? & ? & ?).
Qed.

Lemma bind_Raise {A B : Type} (r : result A) (k : A -> result B) (e : exn) :
  r ≫= k = Raise e <-> r = Raise e \/ exists a, r = Ok a /\ k a = Raise e.
Proof.
  unfold mbind, result_bind. destruct r as [a|e'].
  - split; [right; by exists a|]. intros [H|(a' & H & Hk)]; congruence.
  - split; [intros [= ->]; by left|]. intros [H|(a' & H & Hk)]; congruence.
Qed.

(** *** Conversions between integers and floats *)

Lemma is_infinity_spec (x : float) :
  is_infinity x = true <-> exists s, Prim2SF x = S754_infinity s.
Proof.
  unfold is_infinity. rewrite FloatAxioms.eqb_spec, FloatAxioms.abs_spec.
  change (Prim2SF infinity) with (S754_infinity false).
  destruct (Prim2SF x) as [s|s| |s m e]; simpl; split;
    try done; try (by intros [? ?]); by eexists.
Qed.

(** [int(x)] returns exactly on the finite floats. *)
Lemma py_int_finite (x : float) :
  is_finite x = true -> exists z, py_int x = Ok z.
Proof.
  unfold is_finite, py_int. intros [Hnan Hinf]%negb_true_iff%orb_false_elim.
  destruct (Prim2SF x) as [s|s| |s m e] eqn:Hx; try by eexists.
  - assert (is_infinity x = true) by (apply is_infinity_spec; by eexists).
    congruence.
  - apply is_nan_spec in Hx. congruence.
Qed.

Lemma py_int_Raise (x : float) (e : exn) :
  py_int x = Raise e -> is_finite x = false.
Proof.
  intros H. destruct (is_finite x) eqn:Hfin; [|done].
  apply py_int_finite in Hfin as [z Hz]. congruence.
Qed.

(** [int(x)] truncates toward zero. *)
Lemma py_int_truncates (x : float) (z : Z) :
  py_int x = Ok z -> is_truncation x z.
Proof.
  unfold py_int, is_truncation.
  destruct (Prim2SF x) as [s|s| |s m e]; try done; [by intros [= <-]|].
  intros [= <-]. destruct (Z.leb_spec 0 e) as [He|He].
  - exists (Z.pos m * 2 ^ e). rewrite Z.max_l, Z.max_r by lia.
    split; [done|]. split; [|lia].
    pose proof (Z.pow_pos_nonneg 2 e). lia.
  - exists (Z.pos m / 2 ^ (- e)). rewrite Z.max_r, Z.max_l by lia.
    assert (0 < 2 ^ (- e)) as Hpow by (apply Z.pow_pos_nonneg; lia).
    split; [done|]. split; [apply Z.div_pos; lia|].
    rewrite Z.pow_0_r, Z.mul_1_r.
    pose proof (Z.mul_div_le (Z.pos m) (2 ^ (- e)) Hpow).
    pose proof (Z.mul_succ_div_gt (Z.pos m) (2 ^ (- e)) Hpow). lia.
Qed.

Lemma digits2_pos_size (p : positive) : digits2_pos p = Pos.size p.
Proof. induction p; simpl; congruence. Qed.

Lemma Zdigits2_log2 (p : positive) : Z.pos (digits2_pos p) = Z.log2 (Z.pos p) + 1.
Proof.
  rewrite digits2_pos_size. destruct p; simpl; try done; lia.
Qed.

Lemma digits2_pos_iter_xO (k p : positive) :
  Z.pos (digits2_pos (Pos.iter xO p k)) = Z.pos (digits2_pos p) + Z.pos k.
Proof.
  induction k as [|k IH] using Pos.peano_ind.
  - simpl. lia.
  - rewrite Pos.iter_succ. simpl. lia.
Qed.

Lemma digits2_pos_le (p : positive) (k : Z) :
  Z.pos p < 2 ^ k -> 0 <= k -> Z.pos (digits2_pos p) <= k.
Proof.
  intros Hp Hk. rewrite Zdigits2_log2.
  assert (Z.log2 (Z.pos p) < k) by (apply Z.log2_lt_pow2; lia). lia.
Qed.

Lemma binary_round_aux_exact (s : bool) (m : positive) (e : Z) :
  Z.pos (digits2_pos m) = 53 -> (-1074) <= e <= 971 ->
  binary_round_aux prec emax s (Z.pos m) e loc_Exact = S754_finite s m e.
Proof.
  intros Hm He. unfold binary_round_aux, shr_fexp. simpl Zdigits2. rewrite Hm.
  assert (fexp prec emax (53 + e) - e = 0) as Hshift
    by (unfold fexp, emin, prec, emax; lia).
  rewrite Hshift.
  cbn [shr shr_record_of_loc shr_m loc_of_shr_record round_nearest_even].
  simpl Zdigits2. rewrite Hm, Hshift.
  cbn [shr shr_record_of_loc shr_m].
  assert ((e <=? emax - prec) = true) as ->
    by (apply Z.leb_le; unfold emax, prec; lia).
  done.
Qed.

Lemma valid_binary_53 (s : bool) (m : positive) (e : Z) :
  Z.pos (digits2_pos m) = 53 -> (-1074) <= e <= 971 ->
  valid_binary (S754_finite s m e) = true.
Proof.
  intros Hm He. unfold valid_binary, SpecFloat.valid_binary, bounded, canonical_mantissa.
  rewrite Hm. apply andb_true_intro. split.
  - apply Z.eqb_eq. unfold fexp, emin, prec, emax. lia.
  - apply Z.leb_le. unfold emax, prec. lia.
Qed.

(** The conversion of a positive integer below 2^53 is exact: a mantissa of
    53 digits and an exponent between -52 and 0. *)
Lemma Prim2SF_float_of_Z (p : positive) :
  Z.pos p < 2 ^ 53 ->
  exists m e, Prim2SF (float_of_Z (Z.pos p)) = S754_finite false m e
              /\ Z.pos (digits2_pos m) = 53 /\ (-52) <= e <= 0.
Proof.
  intros Hp.
  pose proof (digits2_pos_le p 53 Hp ltac:(lia)) as Hd.
  set (d := Z.pos (digits2_pos p)) in *.
  assert (0 < d) as Hd0 by (unfold d; lia).
  assert (exists m e,
             binary_normalize prec emax (Z.pos p) 0 false = S754_finite false m e
             /\ Z.pos (digits2_pos m) = 53 /\ (-52) <= e <= 0)
    as (m & e & Hn & Hm & He).
  { unfold binary_normalize, binary_round, shl_align.
    rewrite Z.add_0_r, Z.sub_0_r. fold d.
    assert (fexp prec emax d = d - 53) as ->
      by (unfold fexp, emin, prec, emax; lia).
    destruct (d - 53) as [|k|k] eqn:Hk; [|lia|].
    - exists p, 0.
      rewrite binary_round_aux_exact; [split; [done|]; fold d; lia|fold d; lia|lia].
    - exists (Pos.iter xO p k), (Z.neg k).
      pose proof (digits2_pos_iter_xO k p) as Hdig. fold d in Hdig.
      rewrite binary_round_aux_exact; [split; [done|]; lia|lia|lia]. }
  exists m, e. split; [|done]. unfold float_of_Z. rewrite Hn.
  apply Prim2SF_SF2Prim, valid_binary_53; [done|lia].
Qed.

Lemma shr_1_bounds (mrs : shr_record) :
  0 <= shr_m mrs -> 0 <= shr_m (shr_1 mrs) <= shr_m mrs.
Proof. destruct mrs as [[|[p|p|]|p] r s]; simpl; lia. Qed.

Lemma iter_shr_1_bounds (p : positive) (mrs : shr_record) :
  0 <= shr_m mrs -> 0 <= shr_m (SpecFloat.iter_pos shr_1 p mrs) <= shr_m mrs.
Proof.
  revert mrs. induction p as [p IH|p IH|]; intros mrs Hm; simpl.
  - pose proof (shr_1_bounds mrs Hm) as H1.
    pose proof (IH _ (proj1 H1)) as H2.
    pose proof (IH _ (proj1 H2)). lia.
  - pose proof (IH _ Hm) as H1.
    pose proof (IH _ (proj1 H1)). lia.
  - by apply shr_1_bounds.
Qed.

Lemma shr_bounds (mrs : shr_record) (e n : Z) :
  0 <= shr_m mrs ->
  0 <= shr_m (shr mrs e n).1 <= shr_m mrs
  /\ ((shr mrs e n).2 = e \/ (0 < n /\ (shr mrs e n).2 = e + n)).
Proof.
  intros Hm. destruct n as [|p|p]; simpl; try lia.
  split; [by apply iter_shr_1_bounds|]. right. lia.
Qed.

Lemma round_nearest_even_bounds (m : Z) (l : location) :
  m <= round_nearest_even m l <= m + 1.
Proof. destruct l as [|[]]; simpl; try lia. destruct (Z.even m); lia. Qed.

Lemma Zdigits2_le (m k : Z) : 0 <= m < 2 ^ k -> 0 <= k -> Zdigits2 m <= k.
Proof.
  intros Hm Hk. destruct m as [|p|p]; simpl; [lia| |lia].
  apply digits2_pos_le; lia.
Qed.

Lemma digits2_pos_gt (p : positive) : Z.pos p < 2 ^ Z.pos (digits2_pos p).
Proof.
  rewrite digits2_pos_size. pose proof (Pos.size_gt p) as H.
  apply Pos2Z.pos_lt_pos in H. by rewrite Pos2Z.inj_pow in H.
Qed.

(** Rounding a small mantissa never overflows. *)
Lemma binary_round_aux_small (s : bool) (m : positive) (e : Z) :
  Z.pos (digits2_pos m) <= 200 -> (-2000) <= e <= 0 ->
  binary_round_aux prec emax s (Z.pos m) e loc_Exact = S754_zero s
  \/ exists m' e', binary_round_aux prec emax s (Z.pos m) e loc_Exact
                   = S754_finite s m' e'.
Proof.
  intros Hd He. unfold binary_round_aux, shr_fexp.
  set (mrs0 := shr_record_of_loc (Z.pos m) loc_Exact).
  set (n1 := fexp prec emax (Zdigits2 (Z.pos m) + e) - e).
  pose proof (shr_bounds mrs0 e n1 ltac:(simpl; lia)) as [Hm1 He1].
  destruct (shr mrs0 e n1) as [mrs1 e1]. simpl in Hm1, He1.
  set (m1 := round_nearest_even (shr_m mrs1) (loc_of_shr_record mrs1)).
  pose proof (round_nearest_even_bounds (shr_m mrs1) (loc_of_shr_record mrs1))
    as Hr. fold m1 in Hr.
  set (mrs2 := shr_record_of_loc m1 loc_Exact).
  set (n2 := fexp prec emax (Zdigits2 m1 + e1) - e1).
  pose proof (shr_bounds mrs2 e1 n2 ltac:(simpl; lia)) as [Hm2 He2].
  destruct (shr mrs2 e1 n2) as [mrs3 e3]. simpl in Hm2, He2.
  pose proof (digits2_pos_gt m) as Hgt.
  assert (2 ^ Z.pos (digits2_pos m) <= 2 ^ 200) as Hpow
    by (apply Z.pow_le_mono_r; lia).
  assert (Zdigits2 m1 <= 201) as Hd1.
  { apply Zdigits2_le; [|lia]. split; [lia|].
    replace (2 ^ 201) with (2 * 2 ^ 200) by (by rewrite <- Z.pow_succ_r). lia. }
  assert (e3 <= 971) as He3.
  { unfold n1, n2, fexp, emin, prec, emax in *. simpl Zdigits2 in *. lia. }
  destruct (shr_m mrs3) as [|m3|m3] eqn:Hm3; [by left| |lia].
  right. exists m3, e3.
  by assert ((e3 <=? emax - prec) = true) as ->
    by (apply Z.leb_le; unfold emax, prec; lia).
Qed.

Lemma digits2_pos_mul (p q : positive) :
  Z.pos (digits2_pos (p * q)) <= Z.pos (digits2_pos p) + Z.pos (digits2_pos q).
Proof.
  rewrite !Zdigits2_log2, Pos2Z.inj_mul.
  pose proof (Z.log2_mul_above (Z.pos p) (Z.pos q)). lia.
Qed.

(** [int(h * c)] for a positive integer [h] below 2^53 and a positive
    constant [c] below 1 never raises, and is not negative. *)
Lemma py_int_scaled (h : Z) (c : float) :
  0 < h < 2 ^ 53 -> is_fraction c = true ->
  exists z, py_int (float_of_Z h * c)%float = Ok z /\ 0 <= z.
Proof.
  unfold is_fraction. intros Hh Hfrac.
  destruct (Prim2SF c) as [| | |[] mc ec] eqn:Hc; try done.
  apply andb_prop in Hfrac as [[Hmc%Z.leb_le Hlow%Z.leb_le]%andb_prop Hup%Z.leb_le].
  destruct h as [|p|p]; try lia.
  destruct (Prim2SF_float_of_Z p) as (m & e & Hx & Hm & He); [lia|].
  unfold py_int. rewrite mul_spec, Hx, Hc. unfold SF64mul, SFmul. simpl xorb.
  pose proof (digits2_pos_mul m mc) as Hd.
  destruct (binary_round_aux_small false (m * mc) (e + ec)) as [->|(m' & e' & ->)];
    [lia|lia| |].
  - by exists 0.
  - eexists. split; [done|].
    destruct (Z.leb_spec 0 e').
    + apply Z.mul_nonneg_nonneg; [lia|]. apply Z.pow_nonneg. lia.
    + apply Z.div_pos; [lia|]. apply Z.pow_pos_nonneg; lia.
Qed.

End PyFacts.
Import PyFacts.

(** ** The crossing counter *)

Module CounterProps.
Import Counter.

Section WithSum.

Variable py_sum : list float -> float.

(** *** At-most-once counting *)

Lemma consistent_init (frame_height : Z) (line_position : float)
    (self : VehicleCounter) :
  init frame_height line_position = Ok self -> consistent self [].
Proof.
  unfold init. intros (ly & _ & (zm & _ & [= <-])%bind_Ok)%bind_Ok.
  split; simpl; try done.
  - constructor.
  - intros id Hid. by apply elem_of_nil in Hid.
Qed.

Lemma record_count_total (s : CountingStats) (r : VehicleRecord) :
  total_entrada (record_count s r) + total_saida (record_count s r)
  = total_entrada s + total_saida s + 1.
Proof. unfold record_count; simpl. destruct (String.eqb _ _); lia. Qed.

(** One iteration of the loop keeps the counter consistent with the pairs
    emitted before the call followed by those of the call so far. *)
Lemma update_body_consistent (colors : gmap Z string) (timestamp : float)
    (before : list (Z * string)) (self : VehicleCounter)
    (newly_counted : list (Z * string)) (vehicle : Vehicle) :
  consistent self (before ++ newly_counted) ->
  consistent (update_body py_sum colors timestamp (self, newly_counted) vehicle).1
             (before ++ (update_body py_sum colors timestamp
                           (self, newly_counted) vehicle).2).
Proof.
  intros [Hreg Hnd Hcnt Htot]. unfold update_body.
  destruct (default (-1) (v_track_id vehicle) <? 0) eqn:Hid; [by split|].
  set (track_id := default (-1) (v_track_id vehicle)) in *.
  destruct (v_bbox vehicle) as [[[bx1 by1] bx2] by2]. simpl.
  destruct (decide (track_id ∈ counted_vehicles self)) as [Hin|Hnotin];
    [by split|].
  destruct (crossed_line _ _ _); [|by split].
  destruct (get_direction _ _ _) as [direction|]; [|by split].
  split; cbn [fst snd stats counted_vehicles].
  - unfold record_count. cbn [registros]. rewrite fmap_app, Hreg.
    by rewrite app_assoc.
  - rewrite app_assoc, fmap_app. simpl. apply NoDup_app. split; [done|].
    split; [|apply NoDup_singleton].
    intros id Hin ->%list_elem_of_singleton. by apply Hnotin, Hcnt.
  - intros id. rewrite app_assoc, fmap_app. simpl.
    rewrite elem_of_app, list_elem_of_singleton.
    intros [Hin| ->]; apply elem_of_union.
    + right. apply Hcnt. by rewrite fmap_app, elem_of_app in Hin |- *.
    + left. by apply elem_of_singleton.
  - rewrite record_count_total, Htot, !length_app. simpl. lia.
Qed.

Lemma update_loop_consistent (colors : gmap Z string) (timestamp : float)
    (before : list (Z * string)) (tracked_vehicles : list Vehicle)
    (st : VehicleCounter * list (Z * string)) :
  consistent st.1 (before ++ st.2) ->
  consistent
    (fold_left (update_body py_sum colors timestamp) tracked_vehicles st).1
    (before ++
     (fold_left (update_body py_sum colors timestamp) tracked_vehicles st).2).
Proof.
  revert st. induction tracked_vehicles as [|vehicle rest IH]; intros st Hst.
  - done.
  - simpl. apply IH. destruct st as [self newly_counted].
    by apply update_body_consistent.
Qed.

Lemma update_consistent (self : VehicleCounter) (before : list (Z * string))
    (tracked_vehicles : list Vehicle) (colors : gmap Z string)
    (timestamp : float) :
  consistent self before ->
  consistent (update py_sum self tracked_vehicles colors timestamp).1
             (before ++ (update py_sum self tracked_vehicles colors timestamp).2).
Proof.
  intros H. unfold update.
  apply (update_loop_consistent colors timestamp before tracked_vehicles (self, [])).
  simpl. by rewrite app_nil_r.
Qed.

Lemma run_consistent (calls : list call) (self : VehicleCounter)
    (before : list (Z * string)) :
  consistent self before ->
  consistent (run py_sum self calls).1 (before ++ (run py_sum self calls).2).
Proof.
  revert self before.
  induction calls as [|[[tracked_vehicles colors] timestamp] rest IH];
    intros self before H; simpl.
  - by rewrite app_nil_r.
  - pose proof (update_consistent self before tracked_vehicles colors timestamp H)
      as Hu.
    destruct (update py_sum self tracked_vehicles colors timestamp)
      as [self1 emitted].
    specialize (IH self1 (before ++ emitted) Hu).
    destruct (run py_sum self1 rest) as [self2 later]. simpl in *.
    by rewrite app_assoc.
Qed.

(** C1. Whatever calls of [update] are made on a counter after its
    construction: no track id occurs in two of the emitted pairs, the two
    totals add up to the number of emitted pairs, which is the number of
    records, and no track id occurs in two records (the records are the
    emitted pairs, in order). *)
Theorem at_most_once_counting (frame_height : Z) (line_position : float)
    (self : VehicleCounter) (calls : list call) :
  init frame_height line_position = Ok self ->
  let final := (run py_sum self calls).1 in
  let emitted := (run py_sum self calls).2 in
  NoDup emitted.*1
  ∧ total_entrada (stats final) + total_saida (stats final)
    = Z.of_nat (length emitted)
  ∧ length emitted = length (registros (stats final))
  ∧ NoDup (track_id <$> registros (stats final))
  ∧ pair_of_record <$> registros (stats final) = emitted.
Proof.
  intros Hinit final emitted.
  pose proof (run_consistent calls self [] (consistent_init _ _ _ Hinit))
    as [Hreg Hnd Hcnt Htot].
  fold final emitted in Hreg, Hnd, Hcnt, Htot. simpl in *.
  split_and!; try done.
  - by rewrite <- Hreg, length_fmap.
  - rewrite <- Hreg, <- list_fmap_compose in Hnd. done.
Qed.

(** *** Construction and counting zone *)

(** C2, as the code has it. The constructor derives [line_y] and
    [zone_margin] with [int], which truncates toward zero, from
    [frame_height * line_position] and [frame_height * 0.05]; a centre is in
    the counting zone exactly when its distance to the line is strictly
    below the margin, so not when it is equal to it. *)
Theorem line_and_zone_by_truncation (frame_height : Z) (line_position : float)
    (self : VehicleCounter) :
  init frame_height line_position = Ok self ->
  py_int (float_of_Z frame_height * line_position)%float = Ok (line_y self)
  ∧ py_int (float_of_Z frame_height * 0.05)%float = Ok (zone_margin self)
  ∧ is_truncation (float_of_Z frame_height * line_position)%float (line_y self)
  ∧ is_truncation (float_of_Z frame_height * 0.05)%float (zone_margin self)
  ∧ ∀ (track_id : Z) (center_y : float),
      let distance := abs (center_y - float_of_Z (line_y self))%float in
      (crossed_line self track_id center_y = true
       <-> (distance <? float_of_Z (zone_margin self))%float = true)
      ∧ ((distance =? float_of_Z (zone_margin self))%float = true
         -> crossed_line self track_id center_y = false).
Proof.
  unfold init.
  intros (ly & Hly & (zm & Hzm & [= <-])%bind_Ok)%bind_Ok. cbn [line_y zone_margin].
  split_and!; try done; try by apply py_int_truncates.
  intros track_id center_y. unfold crossed_line. cbn [line_y zone_margin].
  split; [done|]. apply eqb_not_ltb.
Qed.

(** C3, as the code has it. The constructor checks no range: it returns a
    counter for every frame height and line position, non-positive heights
    and positions outside the frame included, as long as the two products
    are finite numbers, and it stores the height as given; it raises only
    when [int] does, on a product that is NaN or infinite. *)
Theorem init_checks_no_range (frame_height : Z) (line_position : float) :
  let y := (float_of_Z frame_height * line_position)%float in
  let margin := (float_of_Z frame_height * 0.05)%float in
  (is_finite y = true -> is_finite margin = true ->
   ∃ self, init frame_height line_position = Ok self
           ∧ Counter.frame_height self = frame_height
           ∧ py_int y = Ok (line_y self)
           ∧ py_int margin = Ok (zone_margin self))
  ∧ (∀ e, init frame_height line_position = Raise e ->
          is_finite y = false \/ is_finite margin = false).
Proof.
  intros y margin. unfold init. fold y margin. split.
  - intros [ly Hly]%py_int_finite [zm Hzm]%py_int_finite.
    rewrite Hly, Hzm. by eexists.
  - intros e [Hy|(ly & Hly & [Hm|(zm & Hzm & [=])]%bind_Raise)]%bind_Raise.
    + left. by eapply py_int_Raise.
    + right. by eapply py_int_Raise.
Qed.

(** *** Direction inference *)

(** C4. A direction is produced only from a history of at least 5 samples.
    For such a history, split at [len // 2] into two non-empty halves, the
    mean of the second half minus the mean of the first decides: strictly
    above 20 gives [entrada], strictly below -20 gives [saida], and a
    difference within [-20, 20], bounds included, gives no direction (nor
    does a difference that is not a number). *)
Theorem direction_inference (self : VehicleCounter) (track_id : Z) :
  let positions := default [] (position_history self !! track_id) in
  let half := (length positions / 2)%nat in
  let mean xs := (py_sum xs / float_of_Z (Z.of_nat (length xs)))%float in
  let difference := (mean (drop half positions) - mean (take half positions))%float in
  (get_direction py_sum self track_id ≠ None -> (5 <= length positions)%nat)
  ∧ ((5 <= length positions)%nat ->
     take half positions ≠ [] ∧ drop half positions ≠ []
     ∧ ((20 <? difference)%float = true ->
        get_direction py_sum self track_id = Some "entrada")
     ∧ ((difference <? -20)%float = true ->
        get_direction py_sum self track_id = Some "saida")
     ∧ ((-20 <=? difference)%float = true -> (difference <=? 20)%float = true ->
        get_direction py_sum self track_id = None)
     ∧ (is_nan difference = true ->
        get_direction py_sum self track_id = None)).
Proof.
  intros positions half mean difference. unfold get_direction.
  fold positions. unfold movement, average. fold half. fold (mean (drop half positions)).
  fold (mean (take half positions)). fold difference.
  destruct (Nat.ltb_spec (length positions) 5) as [Hlt|Hge].
  - split; [done|lia].
  - split; [done|]. intros _. split_and!.
    + intros Hnil%(f_equal length). rewrite length_take in Hnil. simpl in Hnil.
      subst half.
      pose proof (Nat.div_str_pos (length positions) 2). lia.
    + intros Hnil%(f_equal length). rewrite length_drop in Hnil. simpl in Hnil.
      subst half.
      pose proof (Nat.div_lt (length positions) 2). lia.
    + by intros ->.
    + intros Hlow.
      destruct (20 <? difference)%float eqn:Hhigh; [|by rewrite Hlow].
      by pose proof (ltb_trans _ _ _ Hhigh Hlow).
    + intros Hlow%leb_not_ltb Hhigh%leb_not_ltb. by rewrite Hhigh, Hlow.
    + intros Hnan.
      destruct (20 <? difference)%float eqn:Hhigh.
      { apply ltb_not_nan in Hhigh as [_ ?]. congruence. }
      destruct (difference <? -20)%float eqn:Hlow; [|done].
      apply ltb_not_nan in Hlow as [? _]. congruence.
Qed.

End WithSum.

(** The constructor of the scenario, and the behaviour of C1 on it. *)
Lemma at_most_once_counting_witness :
  init 600 0.5 = Ok scenario_counter
  ∧ let final := (run sum_left scenario_counter scenario_calls).1 in
    let emitted := (run sum_left scenario_counter scenario_calls).2 in
    NoDup emitted.*1
    ∧ total_entrada (stats final) + total_saida (stats final)
      = Z.of_nat (length emitted)
    ∧ length emitted = length (registros (stats final))
    ∧ NoDup (track_id <$> registros (stats final))
    ∧ pair_of_record <$> registros (stats final) = emitted.
Proof.
  split; [by vm_compute|].
  apply (at_most_once_counting sum_left 600 0.5 scenario_counter scenario_calls).
  by vm_compute.
Defined.

(** On the scenario exactly one pair is emitted, at the fifth frame, and one
    record is appended, with colour [azul] and direction [entrada]. *)
Example scenario_result :
  (run sum_left scenario_counter (take 4 scenario_calls)).2 = []
  ∧ (run sum_left scenario_counter (take 5 scenario_calls)).2 = [(7, "entrada")]
  ∧ let final := (run sum_left scenario_counter scenario_calls).1 in
    (run sum_left scenario_counter scenario_calls).2 = [(7, "entrada")]
    ∧ (color <$> registros (stats final)) = ["azul"]
    ∧ total_entrada (stats final) = 1 ∧ total_saida (stats final) = 0.
Proof. by vm_compute. Qed.

Lemma line_and_zone_by_truncation_witness :
  init 600 0.5 = Ok scenario_counter
  ∧ py_int (float_of_Z 600 * 0.5)%float = Ok (line_y scenario_counter)
  ∧ py_int (float_of_Z 600 * 0.05)%float = Ok (zone_margin scenario_counter)
  ∧ is_truncation (float_of_Z 600 * 0.5)%float (line_y scenario_counter)
  ∧ is_truncation (float_of_Z 600 * 0.05)%float (zone_margin scenario_counter)
  ∧ ∀ (track_id : Z) (center_y : float),
      let distance :=
        abs (center_y - float_of_Z (line_y scenario_counter))%float in
      (crossed_line scenario_counter track_id center_y = true
       <-> (distance <? float_of_Z (zone_margin scenario_counter))%float = true)
      ∧ ((distance =? float_of_Z (zone_margin scenario_counter))%float = true
         -> crossed_line scenario_counter track_id center_y = false).
Proof.
  split; [by vm_compute|].
  apply (line_and_zone_by_truncation 600 0.5 scenario_counter).
  by vm_compute.
Defined.

(** C2 as stated fails: for a frame height of 270 and a line position of
    0.38 the products are 102.6 and 13.5; the constructor stores 102 and 13
    where rounding gives 103 and 14. *)
Lemma line_and_zone_not_rounded :
  ∃ self, init 270 0.38 = Ok self
          ∧ line_y self = 102
          ∧ py_round (float_of_Z 270 * 0.38)%float = Ok 103
          ∧ zone_margin self = 13
          ∧ py_round (float_of_Z 270 * 0.05)%float = Ok 14.
Proof. eexists. split; [by vm_compute|]. by vm_compute. Qed.

Lemma init_checks_no_range_witness :
  ∃ self, init (-720) 1.5 = Ok self
          ∧ frame_height self = -720
          ∧ py_int (float_of_Z (-720) * 1.5)%float = Ok (line_y self)
          ∧ py_int (float_of_Z (-720) * 0.05)%float = Ok (zone_margin self).
Proof.
  apply (proj1 (init_checks_no_range (-720) 1.5)); by vm_compute.
Defined.

(** C3 as stated fails: a line position of 1.5, a negative frame height and
    a frame height of zero are all accepted, and give a line below the
    frame, a negative line and margin, and an empty zone. *)
Lemma init_accepts_out_of_range :
  (∃ self, init 720 1.5 = Ok self ∧ line_y self = 1080 ∧ zone_margin self = 36)
  ∧ (∃ self, init (-720) 0.5 = Ok self
             ∧ line_y self = -360 ∧ zone_margin self = -36)
  ∧ (∃ self, init 0 0.5 = Ok self ∧ line_y self = 0 ∧ zone_margin self = 0).
Proof. split_and!; eexists; (split; [by vm_compute|]); by vm_compute. Qed.

(** Mean differences of exactly 21, -21, 20 and -20. *)
Lemma direction_inference_witness :
  get_direction sum_left (with_history [0; 0; 0; 21; 21; 21]%float) 7
  = Some "entrada"
  ∧ get_direction sum_left (with_history [21; 21; 21; 0; 0; 0]%float) 7
    = Some "saida"
  ∧ get_direction sum_left (with_history [0; 0; 20; 20; 20]%float) 7 = None
  ∧ get_direction sum_left (with_history [20; 20; 20; 0; 0; 0]%float) 7 = None.
Proof.
  split_and!.
  - destruct (direction_inference sum_left
                (with_history [0; 0; 0; 21; 21; 21]%float) 7) as [_ H].
    destruct H as (_ & _ & H & _); [vm_compute; lia|]. apply H. by vm_compute.
  - destruct (direction_inference sum_left
                (with_history [21; 21; 21; 0; 0; 0]%float) 7) as [_ H].
    destruct H as (_ & _ & _ & H & _); [vm_compute; lia|]. apply H.
    by vm_compute.
  - destruct (direction_inference sum_left
                (with_history [0; 0; 20; 20; 20]%float) 7) as [_ H].
    destruct H as (_ & _ & _ & _ & H & _); [vm_compute; lia|].
    apply H; by vm_compute.
  - destruct (direction_inference sum_left
                (with_history [20; 20; 20; 0; 0; 0]%float) 7) as [_ H].
    destruct H as (_ & _ & _ & _ & H & _); [vm_compute; lia|].
    apply H; by vm_compute.
Defined.

End CounterProps.

(** ** The analytics engine *)

Module AnalyticsProps.
Import Analytics.








Section WithLibm.

Variable c_pow2 : float -> float * Z.




End WithLibm.

Section WithRuntime.

Variable np_mean : list float -> float.
Variable format_1f : float -> string.

(** C7. When [vehicle_exited] finalises a vehicle, the alerts it appends
    are those of a dwell check followed by those of a speed check.  The dwell
    check appends one [PERMANENCIA_LONGA] alert of severity [warning] when
    the dwell time is strictly above 60, and nothing when it is at most 60.
    The speed check appends one [ALTA_VELOCIDADE] alert of severity [danger]
    when the vehicle has speed samples whose mean is strictly above 80, and
    nothing otherwise.  Neither check looks at what the other one tests. *)
Theorem alert_rules (self : AdvancedAnalytics) (track_id : Z)
    (timestamp : float) (direction : string) (now1 now2 : float)
    (vehicle : VehicleMetrics) :
  vehicles self !! track_id = Some vehicle ->
  let dwell_time := (timestamp - entry_time vehicle)%float in
  let samples := speed_estimates vehicle in
  let after :=
    vehicle_exited np_mean format_1f self track_id timestamp direction
      now1 now2 in
  ∃ dwell speed : list Alert,
    alerts after = alerts self ++ dwell ++ speed
    ∧ ((60 <? dwell_time)%float = true ->
       ∃ a, dwell = [a] ∧ alert_type a = "PERMANENCIA_LONGA"
            ∧ alert_severity a = "warning"
            ∧ alert_track_id a = Analytics.track_id vehicle)
    ∧ ((dwell_time <=? 60)%float = true -> dwell = [])
    ∧ ((60 <? dwell_time)%float = false -> dwell = [])
    ∧ (samples ≠ [] -> (80 <? np_mean samples)%float = true ->
       ∃ a, speed = [a] ∧ alert_type a = "ALTA_VELOCIDADE"
            ∧ alert_severity a = "danger"
            ∧ alert_track_id a = Analytics.track_id vehicle)
    ∧ ((np_mean samples <=? 80)%float = true -> speed = [])
    ∧ ((80 <? np_mean samples)%float = false -> speed = [])
    ∧ (samples = [] -> speed = []).
Proof.
  intros Hvehicle dwell_time samples after.
  exists (dwell_check format_1f (finalize vehicle timestamp direction)
            dwell_time now1),
         (speed_check np_mean format_1f
            (finalize vehicle timestamp direction) now2).
  split.
  { unfold after, vehicle_exited. rewrite Hvehicle. cbn [alerts].
    unfold check_alerts. by rewrite app_assoc. }
  unfold dwell_check, speed_check. cbn [finalize speed_estimates]. fold samples.
  split_and!.
  - intros ->. by eexists.
  - by intros ->%leb_not_ltb.
  - by intros ->.
  - intros Hne Hmean. destruct samples as [|x xs] eqn:Hs; [done|].
    rewrite Hmean. by eexists.
  - intros Hmean%leb_not_ltb. destruct samples; [done|]. by rewrite Hmean.
  - intros Hmean. destruct samples; [done|]. by rewrite Hmean.
  - by intros ->.
Qed.

(** C9. [vehicle_exited] on a track id that has no record returns without
    changing anything: the whole state of the engine is the one before the
    call. *)
Theorem vehicle_exited_unknown (self : AdvancedAnalytics) (track_id : Z)
    (timestamp : float) (direction : string) (now1 now2 : float) :
  vehicles self !! track_id = None ->
  vehicle_exited np_mean format_1f self track_id timestamp direction now1 now2
  = self.
Proof. intros H. unfold vehicle_exited. by rewrite H. Qed.

Lemma vehicle_exited_known (self : AdvancedAnalytics) (track_id : Z)
    (timestamp : float) (direction : string) (now1 now2 : float)
    (vehicle : VehicleMetrics) :
  vehicles self !! track_id = Some vehicle ->
  let after :=
    vehicle_exited np_mean format_1f self track_id timestamp direction
      now1 now2 in
  let dwell_time := (timestamp - entry_time vehicle)%float in
  vehicles after !! track_id = Some (finalize vehicle timestamp direction)
  ∧ dwell_times after = dwell_times self ++ [dwell_time]
  ∧ vehicles_in_scene after = Z.max 0 (vehicles_in_scene self - 1)
  ∧ alerts after
    = alerts self
      ++ dwell_check format_1f (finalize vehicle timestamp direction)
           dwell_time now1
      ++ speed_check np_mean format_1f
           (finalize vehicle timestamp direction) now2.
Proof.
  intros H after dwell_time. unfold after, vehicle_exited. rewrite H.
  cbn [vehicles dwell_times vehicles_in_scene alerts].
  rewrite lookup_insert_eq. unfold check_alerts. by rewrite app_assoc.
Qed.

(** The alerts of each kind that the two checks append for a track. *)
Lemma dwell_check_counts (vehicle : VehicleMetrics) (dwell_time now : float) :
  length (List.filter (is_long_dwell (Analytics.track_id vehicle))
            (dwell_check format_1f vehicle dwell_time now))
  = (if (60 <? dwell_time)%float then 1 else 0)%nat
  ∧ length (List.filter (is_high_speed (Analytics.track_id vehicle))
              (dwell_check format_1f vehicle dwell_time now))
    = 0%nat.
Proof.
  unfold dwell_check. destruct (60 <? dwell_time)%float; [|done].
  cbn [List.filter]. unfold is_long_dwell, is_high_speed.
  cbn [long_dwell_alert alert_track_id alert_type]. rewrite Z.eqb_refl.
  by cbn.
Qed.

Lemma speed_check_counts (vehicle : VehicleMetrics) (now : float) :
  length (List.filter (is_high_speed (Analytics.track_id vehicle))
            (speed_check np_mean format_1f vehicle now))
  = (if match speed_estimates vehicle with
        | [] => false
        | _ :: _ => (80 <? np_mean (speed_estimates vehicle))%float
        end
     then 1 else 0)%nat
  ∧ length (List.filter (is_long_dwell (Analytics.track_id vehicle))
              (speed_check np_mean format_1f vehicle now))
    = 0%nat.
Proof.
  unfold speed_check. destruct (speed_estimates vehicle) as [|x xs]; [done|].
  destruct (80 <? np_mean (x :: xs))%float; [|done].
  cbn [List.filter]. unfold is_long_dwell, is_high_speed.
  cbn [high_speed_alert alert_track_id alert_type]. rewrite Z.eqb_refl.
  by cbn.
Qed.

(** C10. [vehicle_exited] acts on every call for a track that has a
    record, whether or not the track was finalised before.  Two calls in a
    row leave the exit time and direction of the second call, append two
    dwell times, decrement [vehicles_in_scene] twice, stopping at 0, and run
    both alert checks twice, each call only appending alerts: each call adds
    one [PERMANENCIA_LONGA] alert for the track when its own dwell time is
    above 60, and one [ALTA_VELOCIDADE] alert for the track when the track
    has speed samples of mean above 80, and nothing else.  So when both dwell
    times are above 60 the track gets two more [PERMANENCIA_LONGA] alerts,
    and a fast track gets two more [ALTA_VELOCIDADE] alerts. *)
Theorem vehicle_exited_not_once (self : AdvancedAnalytics) (track_id : Z)
    (vehicle : VehicleMetrics) (timestamp1 timestamp2 : float)
    (direction1 direction2 : string) (now1 now2 now3 now4 : float) :
  vehicles self !! track_id = Some vehicle ->
  let once :=
    vehicle_exited np_mean format_1f self track_id timestamp1 direction1
      now1 now2 in
  let twice :=
    vehicle_exited np_mean format_1f once track_id timestamp2 direction2
      now3 now4 in
  let dwell1 := (timestamp1 - entry_time vehicle)%float in
  let dwell2 := (timestamp2 - entry_time vehicle)%float in
  let long_dwell alerts :=
    length (List.filter (is_long_dwell (Analytics.track_id vehicle)) alerts) in
  let high_speed alerts :=
    length (List.filter (is_high_speed (Analytics.track_id vehicle)) alerts) in
  let slow (dwell_time : float) : nat :=
    if (60 <? dwell_time)%float then 1%nat else 0%nat in
  let fast : nat :=
    match speed_estimates vehicle with
    | [] => 0%nat
    | _ :: _ =>
        if (80 <? np_mean (speed_estimates vehicle))%float
        then 1%nat else 0%nat
    end in
  (∃ vehicle1, vehicles once !! track_id = Some vehicle1
     ∧ counted vehicle1 = true
     ∧ exit_time vehicle1 = timestamp1
     ∧ Analytics.direction vehicle1 = direction1)
  ∧ (∃ vehicle2, vehicles twice !! track_id = Some vehicle2
       ∧ counted vehicle2 = true
       ∧ exit_time vehicle2 = timestamp2
       ∧ Analytics.direction vehicle2 = direction2)
  ∧ dwell_times once = dwell_times self ++ [dwell1]
  ∧ dwell_times twice = dwell_times self ++ [dwell1; dwell2]
  ∧ vehicles_in_scene once = Z.max 0 (vehicles_in_scene self - 1)
  ∧ vehicles_in_scene twice = Z.max 0 (vehicles_in_scene once - 1)
  ∧ (∃ first second, alerts once = alerts self ++ first
       ∧ alerts twice = alerts once ++ second
       ∧ long_dwell first = slow dwell1 ∧ high_speed first = fast
       ∧ length first = (slow dwell1 + fast)%nat
       ∧ long_dwell second = slow dwell2 ∧ high_speed second = fast
       ∧ length second = (slow dwell2 + fast)%nat)
  ∧ (long_dwell (alerts twice)
     = long_dwell (alerts self) + slow dwell1 + slow dwell2)%nat
  ∧ (high_speed (alerts twice) = high_speed (alerts self) + fast + fast)%nat
  ∧ ((60 <? dwell1)%float = true -> (60 <? dwell2)%float = true ->
     (long_dwell (alerts twice) = long_dwell (alerts self) + 2)%nat)
  ∧ (speed_estimates vehicle ≠ [] ->
     (80 <? np_mean (speed_estimates vehicle))%float = true ->
     (high_speed (alerts twice) = high_speed (alerts self) + 2)%nat).
Proof.
  intros Hvehicle once twice dwell1 dwell2 long_dwell high_speed slow fast.
  destruct (vehicle_exited_known self track_id timestamp1 direction1 now1 now2
              vehicle Hvehicle) as (Hv1 & Hd1 & Hs1 & Ha1).
  fold once in Hv1, Hd1, Hs1, Ha1.
  destruct (vehicle_exited_known once track_id timestamp2 direction2 now3 now4
              _ Hv1) as (Hv2 & Hd2 & Hs2 & Ha2).
  fold twice in Hv2, Hd2, Hs2, Ha2.
  change (entry_time (finalize vehicle timestamp1 direction1))
    with (entry_time vehicle) in Hd2, Ha2.
  fold dwell1 in Hd1, Ha1. fold dwell2 in Hd2, Ha2.
  set (vehicle1 := finalize vehicle timestamp1 direction1) in *.
  set (vehicle2 := finalize vehicle1 timestamp2 direction2) in *.
  set (first :=
         dwell_check format_1f vehicle1 dwell1 now1
         ++ speed_check np_mean format_1f vehicle1 now2) in *.
  set (second :=
         dwell_check format_1f vehicle2 dwell2 now3
         ++ speed_check np_mean format_1f vehicle2 now4) in *.
  assert (∀ v dwell_time now now',
            Analytics.track_id v = Analytics.track_id vehicle ->
            speed_estimates v = speed_estimates vehicle ->
            let appended :=
              dwell_check format_1f v dwell_time now
              ++ speed_check np_mean format_1f v now' in
            long_dwell appended = slow dwell_time
            ∧ high_speed appended = fast
            ∧ length appended = (slow dwell_time + fast)%nat)
    as Hcounts.
  { intros v dwell_time now now' Hid Hest appended.
    unfold appended, long_dwell, high_speed.
    rewrite !List.filter_app, !length_app, <- Hid.
    destruct (dwell_check_counts v dwell_time now) as [-> ->].
    destruct (speed_check_counts v now') as [-> ->].
    rewrite Hest. fold fast. unfold slow, fast, dwell_check, speed_check.
    rewrite Hest.
    destruct (60 <? dwell_time)%float, (speed_estimates vehicle) as [|x xs];
      try destruct (80 <? np_mean (x :: xs))%float; split_and!; done. }
  destruct (Hcounts vehicle1 dwell1 now1 now2) as (Hl1 & Hh1 & Hn1);
    [done|done|].
  destruct (Hcounts vehicle2 dwell2 now3 now4) as (Hl2 & Hh2 & Hn2);
    [done|done|].
  fold first in Hl1, Hh1, Hn1. fold second in Hl2, Hh2, Hn2.
  assert (long_dwell (alerts twice)
          = long_dwell (alerts self) + slow dwell1 + slow dwell2)%nat
    as Hlong.
  { rewrite Ha2, Ha1. unfold long_dwell in *.
    rewrite !List.filter_app, !length_app. lia. }
  assert (high_speed (alerts twice) = high_speed (alerts self) + fast + fast)%nat
    as Hhigh.
  { rewrite Ha2, Ha1. unfold high_speed in *.
    rewrite !List.filter_app, !length_app. lia. }
  split_and!; try done.
  - by eexists.
  - by eexists.
  - by rewrite Hd2, Hd1, <- app_assoc.
  - by exists first, second.
  - intros Hlong1 Hlong2. rewrite Hlong. unfold slow.
    rewrite Hlong1, Hlong2. lia.
  - intros Hne Hmean. rewrite Hhigh. unfold fast.
    destruct (speed_estimates vehicle); [done|]. rewrite Hmean. lia.
Qed.

End WithRuntime.



(** A vehicle that entered at 0 and exits at 61 with a mean speed of 200
    gets both alerts. *)
Lemma alert_rules_witness :
  is_Some (vehicles example_fast !! 1)
  ∧ ∃ a b,
      alerts (vehicle_exited mean_left format_hidden example_fast 1 61
                "entrada" 0 0)
      = alerts example_fast ++ [a; b]
      ∧ alert_type a = "PERMANENCIA_LONGA" ∧ alert_severity a = "warning"
      ∧ alert_type b = "ALTA_VELOCIDADE" ∧ alert_severity b = "danger".
Proof.
  set (vehicle :=
         default (VehicleMetrics_new 0 0 (0, 0)%float)
                 (vehicles example_fast !! 1)).
  assert (vehicles example_fast !! 1 = Some vehicle) as Hvehicle
    by (by vm_compute).
  split; [by eexists|].
  destruct (alert_rules mean_left format_hidden example_fast 1 61 "entrada"
              0 0 vehicle Hvehicle)
    as (dwell & speed & Halerts & Hdwell & _ & _ & Hspeed & _).
  destruct Hdwell as (a & -> & Hta & Hsa & _); [by vm_compute|].
  destruct Hspeed as (b & -> & Htb & Hsb & _); [by vm_compute|by vm_compute|].
  by exists a, b.
Defined.

(** Zero, one or both alerts, on exits at 60 and at 61 of a vehicle without
    speed samples and of one with a mean speed of 200. *)
Example alert_combinations :
  let types self timestamp :=
    alert_type <$> alerts (vehicle_exited mean_left format_hidden self 1
                             timestamp "entrada" 0 0) in
  types example_engine 60%float = []
  ∧ types example_engine 61%float = ["PERMANENCIA_LONGA"]
  ∧ types example_fast 60%float = ["ALTA_VELOCIDADE"]
  ∧ types example_fast 61%float = ["PERMANENCIA_LONGA"; "ALTA_VELOCIDADE"].
Proof. by vm_compute. Qed.

Lemma vehicle_exited_unknown_witness :
  vehicles example_engine !! 2 = None
  ∧ vehicle_exited mean_left format_hidden example_engine 2 61 "entrada" 0 0
    = example_engine.
Proof.
  assert (vehicles example_engine !! 2 = None) as H by (by vm_compute).
  split; [done|].
  exact (vehicle_exited_unknown mean_left format_hidden example_engine 2 61
           "entrada" 0 0 H).
Defined.

(** Two exits of track 1, at 61 and at 62: two dwell times, and two alerts
    of long dwell for the same track. *)
Lemma vehicle_exited_not_once_witness :
  is_Some (vehicles example_fast !! 1)
  ∧ let once :=
      vehicle_exited mean_left format_hidden example_fast 1 61 "entrada"
        0 0 in
    let twice :=
      vehicle_exited mean_left format_hidden once 1 62 "saida" 0 0 in
    dwell_times twice = [61; 62]%float
    ∧ vehicles_in_scene example_fast = 1
    ∧ vehicles_in_scene once = 0
    ∧ vehicles_in_scene twice = 0
    ∧ alerts example_fast = []
    ∧ length (List.filter (is_long_dwell 1) (alerts twice)) = 2%nat
    ∧ length (List.filter (is_high_speed 1) (alerts twice)) = 2%nat.
Proof.
  set (vehicle :=
         default (VehicleMetrics_new 0 0 (0, 0)%float)
                 (vehicles example_fast !! 1)).
  assert (vehicles example_fast !! 1 = Some vehicle) as Hvehicle
    by (by vm_compute).
  split; [by eexists|].
  destruct (vehicle_exited_not_once mean_left format_hidden example_fast 1
              vehicle 61 62 "entrada" "saida" 0 0 0 0 Hvehicle)
    as (_ & _ & _ & Hdwell & Hscene1 & Hscene2 & _ & _ & _ & Hlong & Hhigh).
  intros once twice. split_and!.
  - exact Hdwell.
  - by vm_compute.
  - exact Hscene1.
  - exact Hscene2.
  - by vm_compute.
  - apply Hlong; by vm_compute.
  - apply Hhigh; by vm_compute.
Defined.

End AnalyticsProps.

(** ** The colour classifier *)

Module ColorProps.
Import Color.

(** *** The window *)

Lemma last_n_short {A : Type} (n : nat) (l : list A) :
  (length l <= n)%nat -> last_n n l = l.
Proof.
  intros H. unfold last_n.
  by replace (length l - n)%nat with 0%nat by lia.
Qed.

Lemma last_n_length {A : Type} (n : nat) (l : list A) :
  length (last_n n l) = (length l `min` n)%nat.
Proof. unfold last_n. rewrite length_drop. lia. Qed.

Lemma last_n_app {A : Type} (n : nat) (l k : list A) :
  last_n n (last_n n l ++ k) = last_n n (l ++ k).
Proof.
  unfold last_n. set (a := (length l - n)%nat).
  rewrite <- (drop_app_le l k a) by lia.
  rewrite drop_drop. f_equal. rewrite length_drop, !length_app. lia.
Qed.

Lemma push_color_last_n (history : list string) (current_color : string) :
  push_color history current_color = last_n 10 (history ++ [current_color]).
Proof.
  unfold push_color.
  destruct (Nat.ltb_spec 10 (length (history ++ [current_color]))); [done|].
  by rewrite last_n_short.
Qed.

(** *** The counter *)

Lemma first_seen_snoc (history : list string) (x : string) :
  first_seen (history ++ [x])
  = if bool_decide (x ∈ first_seen history) then first_seen history
    else first_seen history ++ [x].
Proof. unfold first_seen. by rewrite fold_left_app. Qed.

Lemma first_seen_elem (history : list string) (x : string) :
  x ∈ first_seen history <-> x ∈ history.
Proof.
  induction history as [|y history IH] using rev_ind.
  - done.
  - rewrite first_seen_snoc, elem_of_app, list_elem_of_singleton.
    case_bool_decide as Hy.
    + rewrite IH. split; [by left|]. intros [?| ->]; [done|]. by apply IH.
    + by rewrite elem_of_app, list_elem_of_singleton, IH.
Qed.

Lemma first_seen_NoDup (history : list string) : NoDup (first_seen history).
Proof.
  induction history as [|y history IH] using rev_ind.
  - constructor.
  - rewrite first_seen_snoc. case_bool_decide as Hy; [done|].
    apply NoDup_app. split_and!; [done| |apply NoDup_singleton].
    by intros z Hz ->%list_elem_of_singleton.
Qed.

Lemma occurrences_snoc (l x : string) (history : list string) :
  occurrences l (history ++ [x])
  = (occurrences l history + if String.eqb l x then 1 else 0)%nat.
Proof.
  unfold occurrences. rewrite List.filter_app, length_app. simpl.
  by destruct (String.eqb l x).
Qed.

Lemma occurrences_zero (l : string) (history : list string) :
  l ∉ history -> occurrences l history = 0%nat.
Proof.
  unfold occurrences. induction history as [|y history IH]; [done|].
  intros Hl. apply not_elem_of_cons in Hl as [Hne Hl]. simpl.
  destruct (String.eqb_spec l y); [done|]. by apply IH.
Qed.

(** Counting one more label in a counter whose keys are distinct. *)
Lemma count_elem_known (x : string) (g : string -> nat) (keys : list string) :
  NoDup keys -> x ∈ keys ->
  count_elem x ((fun l => (l, g l)) <$> keys)
  = (fun l => (l, (g l + if String.eqb l x then 1 else 0)%nat)) <$> keys.
Proof.
  induction keys as [|y keys IH]; intros Hnd Hx.
  - by apply elem_of_nil in Hx.
  - apply NoDup_cons in Hnd as [Hy Hnd]. simpl.
    destruct (String.eqb_spec x y) as [->|Hne].
    + rewrite String.eqb_refl. f_equal; [f_equal; lia|].
      apply list_fmap_ext. intros i l Hl. f_equal.
      destruct (String.eqb_spec l y) as [->|]; [|lia].
      by apply list_elem_of_lookup_2 in Hl.
    + apply elem_of_cons in Hx as [?|Hx]; [done|].
      destruct (String.eqb_spec y x) as [->|]; [done|].
      f_equal; [f_equal; lia|]. by apply IH.
Qed.

Lemma count_elem_new (x : string) (g : string -> nat) (keys : list string) :
  x ∉ keys ->
  count_elem x ((fun l => (l, g l)) <$> keys)
  = ((fun l => (l, g l)) <$> keys) ++ [(x, 1%nat)].
Proof.
  induction keys as [|y keys IH]; intros Hx; [done|].
  apply not_elem_of_cons in Hx as [Hne Hx]. simpl.
  destruct (String.eqb_spec x y); [done|]. f_equal. by apply IH.
Qed.

(** The counter of a window: its distinct labels in order of first
    occurrence, each with its number of occurrences. *)
Lemma Counter_spec (history : list string) :
  Counter history
  = (fun l => (l, occurrences l history)) <$> first_seen history.
Proof.
  induction history as [|x history IH] using rev_ind; [done|].
  unfold Counter in *. rewrite fold_left_app. simpl. rewrite IH.
  rewrite first_seen_snoc. case_bool_decide as Hx.
  - rewrite count_elem_known by (done || apply first_seen_NoDup).
    apply list_fmap_ext. intros i l _. by rewrite occurrences_snoc.
  - rewrite count_elem_new by done. rewrite fmap_app. simpl.
    rewrite occurrences_snoc, String.eqb_refl.
    rewrite occurrences_zero by (by rewrite <- first_seen_elem).
    f_equal. apply list_fmap_ext. intros i l Hl. rewrite occurrences_snoc.
    destruct (String.eqb_spec l x) as [->|]; [|f_equal; lia].
    by apply list_elem_of_lookup_2 in Hl.
Qed.

(** The first label of a window that is seen at a given place among the
    distinct labels: what precedes it in the window was seen earlier. *)
Lemma first_seen_split (history earlier later : list string) (label : string) :
  first_seen history = earlier ++ label :: later ->
  exists before after,
    history = before ++ label :: after
    /\ (label ∉ before) /\ (forall l, l ∈ before -> l ∈ earlier).
Proof.
  revert later. induction history as [|x history IH] using rev_ind;
    intros later Hfs.
  - by destruct earlier.
  - rewrite first_seen_snoc in Hfs. case_bool_decide as Hx.
    + destruct (IH later Hfs) as (before & after & -> & Hnot & Hin).
      exists before, (after ++ [x]). by rewrite <- app_assoc.
    + destruct later as [|z later _] using rev_ind.
      * apply app_inj_tail in Hfs as [Hfs ->].
        exists history, []. split; [done|]. split.
        -- by rewrite <- first_seen_elem.
        -- intros l Hl. by rewrite <- Hfs, first_seen_elem.
      * rewrite app_comm_cons, app_assoc in Hfs.
        apply app_inj_tail in Hfs as [Hfs <-].
        destruct (IH later Hfs) as (before & after & -> & Hnot & Hin).
        exists before, (after ++ [x]). by rewrite <- app_assoc.
Qed.

(** *** The most frequent label *)

Lemma fold_max_spec (rest before between : list (string * nat))
    (best : string * nat) :
  (forall y, y ∈ before -> (snd y < snd best)%nat) ->
  (forall y, y ∈ between -> (snd y <= snd best)%nat) ->
  let m :=
    fold_left (fun best y => if (snd best <? snd y)%nat then y else best)
      rest best in
  exists before' after',
    before ++ best :: between ++ rest = before' ++ m :: after'
    /\ (forall y, y ∈ before' -> (snd y < snd m)%nat)
    /\ (forall y, y ∈ after' -> (snd y <= snd m)%nat).
Proof.
  revert before between best.
  induction rest as [|y rest IH]; intros before between best Hlt Hle; simpl.
  - exists before, between. by rewrite app_nil_r.
  - destruct (Nat.ltb_spec (snd best) (snd y)) as [Hy|Hy].
    + destruct (IH (before ++ best :: between) [] y) as (b & a & Heq & Hb & Ha).
      * intros z [Hz|[->|Hz]%elem_of_cons]%elem_of_app.
        -- specialize (Hlt z Hz). lia.
        -- done.
        -- specialize (Hle z Hz). lia.
      * by intros z ?%elem_of_nil.
      * exists b, a. split; [|done]. rewrite <- Heq. simpl.
        by rewrite <- app_assoc.
    + destruct (IH before (between ++ [y]) best) as (b & a & Heq & Hb & Ha).
      * done.
      * intros z [Hz| ->%list_elem_of_singleton]%elem_of_app; [by apply Hle|done].
      * exists b, a. split; [|done]. rewrite <- Heq.
        by rewrite <- app_assoc.
Qed.

(** [max_item] returns the first item whose count is maximal. *)
Lemma max_item_spec (items : list (string * nat)) (m : string * nat) :
  max_item items = Some m ->
  exists before after,
    items = before ++ m :: after
    /\ (forall y, y ∈ before -> (snd y < snd m)%nat)
    /\ (forall y, y ∈ after -> (snd y <= snd m)%nat).
Proof.
  destruct items as [|x rest]; [done|]. intros [= <-].
  destruct (fold_max_spec rest [] [] x) as (b & a & Heq & Hb & Ha);
    [by intros z ?%elem_of_nil..|].
  by exists b, a.
Qed.

(** The label returned for a non-empty window. *)
Lemma most_common_spec (window : list string) :
  window ≠ [] ->
  exists label,
    most_common window = Ok label
    /\ label ∈ window
    /\ (forall l, (occurrences l window <= occurrences label window)%nat)
    /\ exists before after,
         window = before ++ label :: after
         /\ (label ∉ before)
         /\ (forall l, l ∈ before ->
                       (occurrences l window < occurrences label window)%nat).
Proof.
  intros Hne. unfold most_common. rewrite Counter_spec.
  set (item := fun l => (l, occurrences l window)).
  destruct (max_item (item <$> first_seen window)) as [m|] eqn:Hmax.
  - apply max_item_spec in Hmax as (cb & ca & Heq & Hb & Ha).
    apply fmap_app_inv in Heq as (earlier & rest & -> & Hrest & Hfs).
    symmetry in Hrest.
    apply fmap_cons_inv in Hrest as (label & later & -> & -> & ->).
    exists label. cbn [fst].
    assert (label ∈ window) as Hlabel.
    { apply first_seen_elem. rewrite Hfs. set_solver. }
    split_and!; [done|done| |].
    + intros l. destruct (decide (l ∈ window)) as [Hl|Hl];
        [|rewrite occurrences_zero by done; lia].
      apply first_seen_elem in Hl. rewrite Hfs in Hl.
      apply elem_of_app in Hl as [Hl|[->|Hl]%elem_of_cons].
      * apply (list_elem_of_fmap_2 item) in Hl. apply Hb in Hl. simpl in Hl. lia.
      * done.
      * apply (list_elem_of_fmap_2 item) in Hl. by apply Ha in Hl.
    + destruct (first_seen_split _ _ _ _ Hfs) as (before & after & Hw & Hnot & Hin).
      exists before, after. split_and!; [done|done|].
      intros l Hl%Hin. apply (list_elem_of_fmap_2 item) in Hl.
      by apply Hb in Hl.
  - destruct window as [|x window]; [done|].
    assert (x ∈ first_seen (x :: window)) as Hx
      by (apply first_seen_elem; set_solver).
    destruct (first_seen (x :: window)); [by apply elem_of_nil in Hx|done].
Qed.

Lemma last_n_nonempty {A : Type} (n : nat) (l : list A) :
  l ≠ [] -> (0 < n)%nat -> last_n n l ≠ [].
Proof.
  intros Hl Hn Hnil%(f_equal length). rewrite last_n_length in Hnil.
  assert (0 < length l)%nat by (destruct l; [done|simpl; lia]).
  change (length (@nil A)) with 0%nat in Hnil. lia.
Qed.

(** A sequence of calls: it returns one label per call, and the last label
    is the one of the window made of the 10 last classifications. *)
Lemma feed_spec (track_id : Z) (colors : list string)
    (color_history : gmap Z (list string)) :
  exists final labels,
    feed color_history track_id colors = Ok (final, labels)
    /\ length labels = length colors
    /\ (colors ≠ [] ->
        exists label,
          last labels = Some label
          /\ most_common
               (last_n 10 (default [] (color_history !! track_id) ++ colors))
             = Ok label).
Proof.
  revert color_history. induction colors as [|c rest IH]; intros color_history.
  - by exists color_history, [].
  - set (old := default [] (color_history !! track_id)).
    destruct (most_common_spec (last_n 10 (old ++ [c]))) as (l1 & Hl1 & _).
    { apply last_n_nonempty; [by destruct old|lia]. }
    simpl. unfold smooth at 1. fold old. rewrite push_color_last_n, Hl1.
    cbn [mbind result_bind fst snd].
    destruct (IH (<[track_id := last_n 10 (old ++ [c])]> color_history))
      as (final & labels & -> & Hlen & Hlast).
    cbn [mbind result_bind fst snd].
    exists final, (l1 :: labels). split_and!; [done|simpl; lia|].
    intros _. destruct rest as [|c' rest'].
    + destruct labels; [|done]. by exists l1.
    + destruct Hlast as (label & Hlast & Hmost); [done|].
      exists label. split.
      * destruct labels; [done|]. by rewrite last_cons, Hlast.
      * rewrite lookup_insert_eq in Hmost. cbn [from_option id] in Hmost.
        rewrite last_n_app, <- app_assoc in Hmost. done.
Qed.

Lemma last_n_app_exact {A : Type} (n : nat) (l k : list A) :
  length k = n -> last_n n (l ++ k) = k.
Proof.
  intros <-. unfold last_n. rewrite length_app.
  replace (length l + length k - length k)%nat with (length l) by lia.
  apply drop_app_length.
Qed.

(** C6, as the code has it. [classify_with_smoothing] appends the
    classification to the window of the track, keeps the 10 most recent
    entries, and returns a label of the window that no label outnumbers.
    Among the labels with the maximal count it returns the one that occurs
    first in the window, the oldest one: every entry before the first
    occurrence of the returned label has strictly fewer occurrences.
    Whatever the window was, the same classification fed 10 times in a row
    yields that label, and 6 times [azul] followed by 4 times [vermelho]
    yields [azul]. *)
Theorem color_smoothing (color_history : gmap Z (list string)) (track_id : Z)
    (current_color : string) :
  let old := default [] (color_history !! track_id) in
  let window := last_n 10 (old ++ [current_color]) in
  (exists label,
     smooth color_history track_id current_color
     = Ok (<[track_id := window]> color_history, label)
     /\ length window = ((length old + 1) `min` 10)%nat
     /\ label ∈ window
     /\ (forall l, (occurrences l window <= occurrences label window)%nat)
     /\ exists before after,
          window = before ++ label :: after
          /\ (label ∉ before)
          /\ (forall l, l ∈ before ->
                (occurrences l window < occurrences label window)%nat))
  /\ (exists final labels,
        feed color_history track_id (replicate 10 current_color)
        = Ok (final, labels)
        /\ last labels = Some current_color)
  /\ (exists final labels,
        feed color_history track_id
          (replicate 6 "azul" ++ replicate 4 "vermelho")
        = Ok (final, labels)
        /\ last labels = Some "azul").
Proof.
  intros old window. split_and!.
  - destruct (most_common_spec window) as (label & Hmost & Hin & Hmax & Htie).
    { apply last_n_nonempty; [by destruct old|lia]. }
    exists label. split_and!; try done.
    + unfold smooth. fold old. rewrite push_color_last_n. fold window.
      by rewrite Hmost.
    + unfold window. by rewrite last_n_length, length_app.
  - destruct (feed_spec track_id (replicate 10 current_color) color_history)
      as (final & labels & Hfeed & _ & Hlast).
    destruct Hlast as (label & Hlast & Hmost); [done|].
    exists final, labels. split; [done|].
    rewrite last_n_app_exact in Hmost by done.
    destruct (most_common_spec (replicate 10 current_color))
      as (label' & Hmost' & Hin & _); [done|].
    rewrite Hmost in Hmost'. injection Hmost' as <-.
    apply elem_of_replicate in Hin as [-> _]. done.
  - destruct (feed_spec track_id (replicate 6 "azul" ++ replicate 4 "vermelho")
                color_history)
      as (final & labels & Hfeed & _ & Hlast).
    destruct Hlast as (label & Hlast & Hmost); [done|].
    exists final, labels. split; [done|].
    rewrite last_n_app_exact in Hmost by done.
    vm_compute in Hmost. by injection Hmost as <-.
Qed.

(** C6 as stated fails on a tie: after [azul] then [vermelho] the window
    holds one of each, and the code returns [azul], the label inserted
    first, where a scan from the most recently inserted entry returns
    [vermelho]. *)
Lemma tie_goes_to_first_seen :
  exists final,
    feed ∅ 7 ["azul"; "vermelho"] = Ok (final, ["azul"; "azul"])
    /\ final !! 7 = Some ["azul"; "vermelho"]
    /\ mode_recent_first ["azul"; "vermelho"] = Ok "vermelho".
Proof. eexists. split; [by vm_compute|]. by vm_compute. Qed.

(** *** The single-frame classification *)

Lemma slice_inside (n i j : Z) :
  0 <= i -> i <= j -> j <= n -> slice n i j = (i, j).
Proof.
  intros Hi Hij Hj. unfold slice.
  destruct (Z.ltb_spec i 0), (Z.ltb_spec j 0); try lia.
  f_equal; lia.
Qed.

Lemma slice_bounds (n i j : Z) :
  0 <= n -> 0 <= (slice n i j).1 <= n /\ 0 <= (slice n i j).2 <= n.
Proof.
  intros Hn. unfold slice. simpl.
  destruct (Z.ltb_spec i 0), (Z.ltb_spec j 0); lia.
Qed.

(** The central region is a non-empty part of a non-empty vehicle region. *)
Lemma center_of_inside (vehicle_roi : View) (margin_h margin_w : Z) :
  0 < view_rows vehicle_roi -> 0 < view_cols vehicle_roi ->
  let center_roi := center_of vehicle_roi margin_h margin_w in
  0 < view_rows center_roi /\ 0 < view_cols center_roi
  /\ fst (fst vehicle_roi) <= fst (fst center_roi)
  /\ snd (fst center_roi) <= snd (fst vehicle_roi)
  /\ fst (snd vehicle_roi) <= fst (snd center_roi)
  /\ snd (snd center_roi) <= snd (snd vehicle_roi).
Proof.
  intros Hrows Hcols. unfold center_of. cbn zeta.
  set (center_roi := subview vehicle_roi _ _ _ _).
  destruct (Z.eqb_spec (view_size center_roi) 0) as [Hz|Hnz].
  - unfold view_rows, view_cols, slice_len in *. lia.
  - revert Hnz. unfold center_roi, subview.
    pose proof (slice_bounds (view_rows vehicle_roi) margin_h
                  (view_rows vehicle_roi - margin_h) ltac:(lia)) as Hr.
    pose proof (slice_bounds (view_cols vehicle_roi) margin_w
                  (view_cols vehicle_roi - margin_w) ltac:(lia)) as Hc.
    destruct (slice (view_rows vehicle_roi) _ _) as [a1 b1].
    destruct (slice (view_cols vehicle_roi) _ _) as [a2 b2].
    destruct vehicle_roi as [[r0 r1] [c0 c1]].
    unfold view_size, view_rows, view_cols, slice_len in *. simpl in *.
    intros Hnz. nia.
Qed.

Lemma length_bind_const {A B : Type} (f : A -> list B) (l : list A) (n : nat) :
  (forall a, length (f a) = n) -> length (l ≫= f) = (length l * n)%nat.
Proof.
  intros Hf. induction l as [|a l IH]; [done|].
  rewrite bind_cons, length_app, Hf, IH. simpl. lia.
Qed.

Lemma view_pixels_length (frame : Frame) (v : View) :
  Z.of_nat (length (view_pixels frame v)) = view_rows v * view_cols v.
Proof.
  unfold view_pixels.
  rewrite (length_bind_const _ _ (Z.to_nat (view_cols v))).
  - rewrite length_seqZ. unfold view_rows, view_cols, slice_len. lia.
  - intros r. rewrite (length_bind_const _ _ 1%nat) by done.
    rewrite length_seqZ. lia.
Qed.

Section WithOpenCV.

Variable bgr2hsv : Z * Z * Z -> Z * Z * Z.

(** The label chosen on the analysed pixels: the first label of the
    taxonomy with the maximal count when that count exceeds a tenth of the
    number of pixels, [indefinido] otherwise. *)
Lemma predominant_spec (hsv : list (Z * Z * Z)) (total_pixels : Z) :
  exists best ranges,
    (best, ranges) ∈ COLOR_RANGES
    /\ (forall name ranges', (name, ranges') ∈ COLOR_RANGES ->
          (count_matching ranges' hsv <= count_matching ranges hsv)%nat)
    /\ predominant hsv total_pixels
       = if (float_of_Z total_pixels * 0.1
             <? float_of_Z (Z.of_nat (count_matching ranges hsv)))%float
         then best else "indefinido".
Proof.
  unfold predominant, color_counts.
  set (item := fun '(color_name, ranges) =>
                 (color_name : string, count_matching ranges hsv)).
  change (map item COLOR_RANGES) with (item <$> COLOR_RANGES).
  destruct (max_item (item <$> COLOR_RANGES)) as [m|] eqn:Hmax; [|done].
  apply max_item_spec in Hmax as (cb & ca & Heq & Hb & Ha).
  apply fmap_app_inv in Heq as (earlier & rest & -> & Hrest & Hall).
  symmetry in Hrest.
  apply fmap_cons_inv in Hrest as ([best ranges] & later & -> & -> & ->).
  exists best, ranges. split_and!.
  - rewrite Hall. set_solver.
  - intros name ranges' Hin. rewrite Hall in Hin.
    apply elem_of_app in Hin as [Hin|[[= -> ->]|Hin]%elem_of_cons].
    + apply (list_elem_of_fmap_2 item) in Hin. apply Hb in Hin.
      simpl in Hin. lia.
    + done.
    + apply (list_elem_of_fmap_2 item) in Hin. by apply Ha in Hin.
  - done.
Qed.

(** C8, as the code has it. On every frame with dimensions below 2^53
    and every bounding box whose four coordinates are finite numbers,
    [classify] returns a label without raising.  The label is [indefinido]
    when the box clipped to the frame has a width or a height of 0 or less.
    Otherwise a non-empty region inside the clipped box is analysed, and the
    label is the one of the taxonomy with the maximal count of matching
    pixels when that count is strictly above a tenth of the pixels of the
    region, and [indefinido] when it is not. *)
Theorem classify_on_finite_bbox (frame : Frame) (b0 b1 b2 b3 : float) :
  is_finite b0 = true -> is_finite b1 = true ->
  is_finite b2 = true -> is_finite b3 = true ->
  Z.of_nat (shape0 frame) < 2 ^ 53 -> Z.of_nat (shape1 frame) < 2 ^ 53 ->
  exists (x1 y1 x2 y2 : Z) (label : string),
    py_int b0 = Ok x1 /\ py_int b1 = Ok y1
    /\ py_int b2 = Ok x2 /\ py_int b3 = Ok y2
    /\ classify bgr2hsv frame (b0, b1, b2, b3) = Ok label
    /\ let left := Z.max 0 x1 in
       let top := Z.max 0 y1 in
       let right := Z.min (Z.of_nat (shape1 frame)) x2 in
       let bottom := Z.min (Z.of_nat (shape0 frame)) y2 in
       (right - left <= 0 \/ bottom - top <= 0 -> label = "indefinido")
       /\ (0 < right - left -> 0 < bottom - top ->
           exists (region : View) (best : string) ranges,
             top <= fst (fst region) /\ snd (fst region) <= bottom
             /\ left <= fst (snd region) /\ snd (snd region) <= right
             /\ 0 < view_rows region /\ 0 < view_cols region
             /\ let hsv := map bgr2hsv (view_pixels frame region) in
                let total := view_rows region * view_cols region in
                Z.of_nat (length hsv) = total
                /\ (best, ranges) ∈ COLOR_RANGES
                /\ (forall name ranges', (name, ranges') ∈ COLOR_RANGES ->
                      (count_matching ranges' hsv
                       <= count_matching ranges hsv)%nat)
                /\ label
                   = if (float_of_Z total * 0.1
                         <? float_of_Z
                              (Z.of_nat (count_matching ranges hsv)))%float
                     then best else "indefinido").
Proof.
  intros [x1 Hx1]%py_int_finite [y1 Hy1]%py_int_finite
         [x2 Hx2]%py_int_finite [y2 Hy2]%py_int_finite Hrows Hcols.
  exists x1, y1, x2, y2. unfold classify. rewrite Hx1, Hy1, Hx2, Hy2.
  cbn [mbind result_bind]. unfold clip_bbox.
  set (left := Z.max 0 x1). set (top := Z.max 0 y1).
  set (right := Z.min (Z.of_nat (shape1 frame)) x2).
  set (bottom := Z.min (Z.of_nat (shape0 frame)) y2).
  destruct (Z.leb_spec right left) as [Hw|Hw]; cbn [orb].
  { exists "indefinido". split_and!; try done. lia. }
  destruct (Z.leb_spec bottom top) as [Hh|Hh].
  { exists "indefinido". split_and!; try done. lia. }
  rewrite !slice_inside by (unfold left, top, right, bottom; lia).
  set (vehicle_roi := ((top, bottom), (left, right)) : View).
  assert (view_rows vehicle_roi = bottom - top) as Hvr
    by (unfold view_rows, slice_len; simpl; lia).
  assert (view_cols vehicle_roi = right - left) as Hvc
    by (unfold view_cols, slice_len; simpl; lia).
  assert ((view_size vehicle_roi =? 0) = false) as ->.
  { apply Z.eqb_neq. unfold view_size. rewrite Hvr, Hvc. nia. }
  destruct (py_int_scaled (view_rows vehicle_roi) 0.2)
    as (margin_h & -> & _);
    [rewrite Hvr; unfold top, bottom; lia|by vm_compute|].
  destruct (py_int_scaled (view_cols vehicle_roi) 0.15)
    as (margin_w & -> & _);
    [rewrite Hvc; unfold left, right; lia|by vm_compute|].
  cbn [mbind result_bind].
  eexists. split_and!; try done; [lia|].
  intros _ _.
  destruct (center_of_inside vehicle_roi margin_h margin_w)
    as (Hcr & Hcc & H1 & H2 & H3 & H4); [lia|lia|].
  set (center_roi := center_of vehicle_roi margin_h margin_w) in *.
  destruct (predominant_spec (map bgr2hsv (view_pixels frame center_roi))
              (view_rows center_roi * view_cols center_roi))
    as (best & ranges & Hin & Hmax & Hlabel).
  exists center_roi, best, ranges. split_and!; try done.
  by rewrite length_map, view_pixels_length.
Qed.

End WithOpenCV.

(** A box covering the blue frame of 10 by 10 pixels. *)
Lemma classify_on_finite_bbox_witness :
  exists (x1 y1 x2 y2 : Z) (label : string),
    py_int 0 = Ok x1 /\ py_int 0 = Ok y1
    /\ py_int 10 = Ok x2 /\ py_int 10 = Ok y2
    /\ classify blue_to_hsv blue_frame (0, 0, 10, 10)%float = Ok label
    /\ let left := Z.max 0 x1 in
       let top := Z.max 0 y1 in
       let right := Z.min (Z.of_nat (shape1 blue_frame)) x2 in
       let bottom := Z.min (Z.of_nat (shape0 blue_frame)) y2 in
       (right - left <= 0 \/ bottom - top <= 0 -> label = "indefinido")
       /\ (0 < right - left -> 0 < bottom - top ->
           exists (region : View) (best : string) ranges,
             top <= fst (fst region) /\ snd (fst region) <= bottom
             /\ left <= fst (snd region) /\ snd (snd region) <= right
             /\ 0 < view_rows region /\ 0 < view_cols region
             /\ let hsv := map blue_to_hsv (view_pixels blue_frame region) in
                let total := view_rows region * view_cols region in
                Z.of_nat (length hsv) = total
                /\ (best, ranges) ∈ COLOR_RANGES
                /\ (forall name ranges', (name, ranges') ∈ COLOR_RANGES ->
                      (count_matching ranges' hsv
                       <= count_matching ranges hsv)%nat)
                /\ label
                   = if (float_of_Z total * 0.1
                         <? float_of_Z
                              (Z.of_nat (count_matching ranges hsv)))%float
                     then best else "indefinido").
Proof.
  apply (classify_on_finite_bbox blue_to_hsv blue_frame 0 0 10 10);
    by vm_compute.
Defined.

(** On the blue frame: a box covering the frame, a box reaching beyond it,
    and a box that is empty once clipped. *)
Example classify_blue_frame :
  classify blue_to_hsv blue_frame (0, 0, 10, 10)%float = Ok "azul"
  /\ classify blue_to_hsv blue_frame (-5, -5, 100.7, 3)%float = Ok "azul"
  /\ classify blue_to_hsv blue_frame (5, 5, 5, 3)%float = Ok "indefinido"
  /\ classify blue_to_hsv blue_frame (12, 0, 20, 10)%float = Ok "indefinido".
Proof. split_and!; by vm_compute. Qed.

(** C8 as stated fails on a box with a coordinate that is not a finite
    number: the conversion [int] of the coordinate raises. *)
Lemma classify_raises_on_nan :
  classify blue_to_hsv blue_frame (nan, 0, 10, 10)%float = Raise ValueError
  /\ classify blue_to_hsv blue_frame (0, 0, infinity, 10)%float
     = Raise OverflowError.
Proof. split; by vm_compute. Qed.

End ColorProps.

(** ** More on the crossing counter *)

Module CounterMore.
Import Counter.

Section WithSum.

Variable py_sum : list float -> float.

Lemma push_position_length (history : list float) (center_y : float) :
  (1 <= length (push_position history center_y) <= 30)%nat
  /\ (length history `min` 30 <= length (push_position history center_y))%nat.
Proof.
  unfold push_position.
  destruct (Nat.ltb_spec 30 (length (history ++ [center_y]))) as [H|H];
    rewrite length_app in H; simpl in H.
  - unfold last_n. rewrite length_drop, length_app. simpl. lia.
  - rewrite length_app. simpl. lia.
Qed.

(** A direction is one of the two counted ones, and needs 5 samples. *)
Lemma get_direction_Some (self : VehicleCounter) (track_id : Z) (d : string) :
  get_direction py_sum self track_id = Some d ->
  (d = "entrada" \/ d = "saida")
  /\ (5 <= length (default [] (position_history self !! track_id)))%nat.
Proof.
  unfold get_direction.
  destruct (Nat.ltb_spec (length (default [] (position_history self !! track_id))) 5);
    [done|].
  destruct (20 <? _)%float; [intros [= <-]; auto|].
  destruct (_ <? -20)%float; [intros [= <-]; auto|done].
Qed.

(** What one iteration of the loop of [update] does: it skips a vehicle
    without a valid id; otherwise it records the position and either leaves
    the counts alone or counts the vehicle. *)
Lemma update_body_outcome (colors : gmap Z string) (timestamp : float)
    (self : VehicleCounter) (newly_counted : list (Z * string))
    (vehicle : Vehicle) :
  let track_id := default (-1) (v_track_id vehicle) in
  let history :=
    push_position (default [] (position_history self !! track_id))
      (center_y_of vehicle) in
  let after :=
    update_body py_sum colors timestamp (self, newly_counted) vehicle in
  frame_height after.1 = frame_height self
  /\ line_y after.1 = line_y self
  /\ zone_margin after.1 = zone_margin self
  /\ ((track_id < 0 /\ after = (self, newly_counted))
      \/ (0 <= track_id
          /\ position_history after.1
             = <[track_id := history]> (position_history self)
          /\ ((after.2 = newly_counted
               /\ counted_vehicles after.1 = counted_vehicles self
               /\ stats after.1 = stats self)
              \/ exists d,
                  (d = "entrada" \/ d = "saida")
                  /\ (track_id ∉ counted_vehicles self)
                  /\ crossed_line self track_id (center_y_of vehicle) = true
                  /\ (5 <= length history)%nat
                  /\ after.2 = newly_counted ++ [(track_id, d)]
                  /\ counted_vehicles after.1
                     = {[track_id]} ∪ counted_vehicles self
                  /\ stats after.1
                     = record_count (stats self)
                         {| track_id := track_id;
                            direction := d;
                            color := default "indefinido" (colors !! track_id);
                            vehicle_type := default "car" (v_class_name vehicle);
                            timestamp := timestamp |}))).
Proof.
  intros track_id history after. unfold after, update_body.
  fold track_id. unfold history, center_y_of.
  destruct (Z.ltb_spec track_id 0) as [Hneg|Hpos].
  { split_and!; try done. apply or_introl. done. }
  destruct (v_bbox vehicle) as [[[bx1 by1] bx2] by2].
  set (center_y := ((by1 + by2) / 2)%float).
  set (h := push_position _ center_y).
  set (pushed := Build_VehicleCounter _ _ _ _ (<[_ := _]> _) _).
  change (counted_vehicles pushed) with (counted_vehicles self).
  change (crossed_line pushed track_id center_y)
    with (crossed_line self track_id center_y).
  destruct (decide (track_id ∈ counted_vehicles self)) as [Hin|Hnotin].
  { split_and!; try done. right. split_and!; try done. by left. }
  destruct (crossed_line self track_id center_y) eqn:Hzone.
  2:{ split_and!; try done. right. split_and!; try done. by left. }
  destruct (get_direction _ _ _) as [d|] eqn:Hd.
  2:{ split_and!; try done. right. split_and!; try done. by left. }
  apply get_direction_Some in Hd as [Hd Hlen].
  unfold pushed in Hlen.
  cbn [position_history] in Hlen. rewrite lookup_insert_eq in Hlen.
  cbn [from_option id] in Hlen.
  split_and!; try done. right. split_and!; try done. right.
  exists d. split_and!; done.
Qed.

(** A property of counters that every iteration keeps is kept by [update]
    and by any sequence of calls. *)
Lemma update_keeps (P : VehicleCounter -> Prop) :
  (forall colors timestamp self newly_counted vehicle,
      P self ->
      P (update_body py_sum colors timestamp (self, newly_counted) vehicle).1) ->
  forall self tracked_vehicles colors timestamp,
    P self -> P (update py_sum self tracked_vehicles colors timestamp).1.
Proof.
  intros Hstep self tracked_vehicles colors timestamp. unfold update.
  generalize (@nil (Z * string)). revert self.
  induction tracked_vehicles as [|vehicle rest IH]; intros self newly HP; [done|].
  cbn [fold_left].
  specialize (Hstep colors timestamp self newly vehicle HP).
  destruct (update_body py_sum colors timestamp (self, newly) vehicle)
    as [self' newly'].
  by apply IH.
Qed.

Lemma run_keeps (P : VehicleCounter -> Prop) :
  (forall colors timestamp self newly_counted vehicle,
      P self ->
      P (update_body py_sum colors timestamp (self, newly_counted) vehicle).1) ->
  forall calls self, P self -> P (run py_sum self calls).1.
Proof.
  intros Hstep calls.
  induction calls as [|[[tracked_vehicles colors] timestamp] rest IH];
    intros self HP; [done|].
  cbn [run].
  pose proof (update_keeps P Hstep self tracked_vehicles colors timestamp HP)
    as Hu.
  destruct (update py_sum self tracked_vehicles colors timestamp)
    as [self1 emitted].
  specialize (IH self1 Hu). by destruct (run py_sum self1 rest).
Qed.

Lemma init_fields (frame_height : Z) (line_position : float)
    (self : VehicleCounter) :
  init frame_height line_position = Ok self ->
  counted_vehicles self = ∅ /\ position_history self = ∅
  /\ stats self = CountingStats_new.
Proof.
  unfold init. by intros (ly & _ & (zm & _ & [= <-])%bind_Ok)%bind_Ok.
Qed.

(** X1. After any calls of [update] on a constructed counter, every
    position history belongs to a track id that is not negative and holds
    between 1 and 30 positions. *)
Theorem position_histories_bounded (frame_height : Z) (line_position : float)
    (self : VehicleCounter) (calls : list call) (track_id : Z)
    (history : list float) :
  init frame_height line_position = Ok self ->
  position_history (run py_sum self calls).1 !! track_id = Some history ->
  0 <= track_id /\ (1 <= length history <= 30)%nat.
Proof.
  intros Hinit.
  revert track_id history.
  apply (run_keeps
           (fun c => forall track_id history,
                position_history c !! track_id = Some history ->
                0 <= track_id /\ (1 <= length history <= 30)%nat)).
  - intros colors timestamp c newly vehicle IH track_id history.
    destruct (update_body_outcome colors timestamp c newly vehicle)
      as (_ & _ & _ & [[_ ->]|(Hid & -> & _)]); [by apply IH|].
    destruct (decide (track_id = default (-1) (v_track_id vehicle))) as [->|Hne].
    + rewrite lookup_insert_eq. intros [= <-]. split; [done|].
      apply push_position_length.
    + rewrite lookup_insert_ne by done. apply IH.
  - apply init_fields in Hinit as (_ & -> & _). intros track_id history.
    by rewrite lookup_empty.
Qed.

(** *** The breakdowns *)

Lemma count_records_snoc (test : VehicleRecord -> bool)
    (records : list VehicleRecord) (r : VehicleRecord) :
  count_records test (records ++ [r])
  = count_records test records + if test r then 1 else 0.
Proof.
  unfold count_records. rewrite List.filter_app, length_app. simpl.
  destruct (test r); simpl; lia.
Qed.

Lemma breakdown_of_snoc (key_of : VehicleRecord -> string) (key : string)
    (records : list VehicleRecord) (r : VehicleRecord) :
  breakdown_of key_of key (records ++ [r])
  = if String.eqb (key_of r) key
    then bump (direction r) (breakdown_of key_of key records)
    else breakdown_of key_of key records.
Proof.
  unfold breakdown_of, bump. rewrite !count_records_snoc. simpl.
  destruct (String.eqb (key_of r) key), (String.eqb (direction r) "entrada");
    simpl; f_equal; lia.
Qed.

Lemma breakdown_of_none (key_of : VehicleRecord -> string) (key : string)
    (records : list VehicleRecord) :
  (forall r, r ∈ records -> key_of r ≠ key) ->
  breakdown_of key_of key records = {| entrada := 0; saida := 0 |}.
Proof.
  intros Hnone. induction records as [|r records IH] using rev_ind; [done|].
  rewrite breakdown_of_snoc.
  destruct (String.eqb_spec (key_of r) key) as [Heq|_].
  - exfalso. apply (Hnone r); [|done]. apply elem_of_app. right.
    by apply list_elem_of_singleton.
  - apply IH. intros r' Hr'. apply Hnone, elem_of_app. by left.
Qed.

(** Counting one more record keeps a breakdown in agreement. *)
Lemma bump_at_matches (key_of : VehicleRecord -> string)
    (d : gmap string Breakdown) (records : list VehicleRecord)
    (r : VehicleRecord) :
  breakdown_matches key_of d records ->
  breakdown_matches key_of (bump_at (key_of r) (direction r) d) (records ++ [r]).
Proof.
  intros Hd key. unfold bump_at.
  assert (r ∈ records ++ [r]) as Hr
    by (apply elem_of_app; right; by apply list_elem_of_singleton).
  destruct (decide (key = key_of r)) as [->|Hne].
  - right. rewrite lookup_insert_eq. split; [|by exists r].
    rewrite breakdown_of_snoc, String.eqb_refl. do 2 f_equal.
    destruct (Hd (key_of r)) as [[-> Hnone]|[-> _]]; [|done].
    symmetry. by apply breakdown_of_none.
  - rewrite lookup_insert_ne by done. rewrite breakdown_of_snoc.
    destruct (String.eqb_spec (key_of r) key) as [Heq|_]; [by subst|].
    destruct (Hd key) as [[Hnone Hall]|[Hsome (r' & Hr' & Hk)]].
    + left. split; [done|].
      intros r'' [H| ->%list_elem_of_singleton]%elem_of_app; [by apply Hall|].
      congruence.
    + right. split; [done|]. exists r'. split; [|done].
      apply elem_of_app. by left.
Qed.

Lemma record_count_matches (s : CountingStats) (r : VehicleRecord) :
  breakdown_matches color (por_cor s) (registros s) ->
  breakdown_matches vehicle_type (por_tipo s) (registros s) ->
  breakdown_matches color (por_cor (record_count s r))
    (registros (record_count s r))
  /\ breakdown_matches vehicle_type (por_tipo (record_count s r))
       (registros (record_count s r)).
Proof.
  intros Hcor Htipo. unfold record_count. cbn [por_cor por_tipo registros].
  split; by apply bump_at_matches.
Qed.

Lemma run_breakdowns (frame_height : Z) (line_position : float)
    (self : VehicleCounter) (calls : list call) :
  init frame_height line_position = Ok self ->
  let final := (run py_sum self calls).1 in
  breakdown_matches color (por_cor (stats final)) (registros (stats final))
  /\ breakdown_matches vehicle_type (por_tipo (stats final))
       (registros (stats final)).
Proof.
  intros Hinit.
  apply (run_keeps
           (fun c =>
              breakdown_matches color (por_cor (stats c)) (registros (stats c))
              /\ breakdown_matches vehicle_type (por_tipo (stats c))
                   (registros (stats c)))).
  - intros colors timestamp c newly vehicle [Hcor Htipo].
    destruct (update_body_outcome colors timestamp c newly vehicle)
      as (_ & _ & _ & [[_ ->]|(_ & _ & [(_ & _ & ->)|(d & _ & _ & _ & _ & _ & _ & ->)])]);
      try done.
    by apply record_count_matches.
  - apply init_fields in Hinit as (_ & _ & ->).
    split; intros key; left; (split; [done|]); by intros r ?%elem_of_nil.
Qed.

(** X2. After any calls of [update] on a constructed counter, the
    breakdowns by colour and by type are those of the records: a colour (a
    type) is a key exactly when some record has it, and its two counts are
    the numbers of records with that colour (that type) going in and going
    out. *)
Theorem breakdowns_match_records (frame_height : Z) (line_position : float)
    (self : VehicleCounter) (calls : list call) :
  init frame_height line_position = Ok self ->
  let final := (run py_sum self calls).1 in
  breakdown_matches color (por_cor (stats final)) (registros (stats final))
  /\ breakdown_matches vehicle_type (por_tipo (stats final))
       (registros (stats final)).
Proof. apply run_breakdowns. Qed.

Lemma count_records_split (p q : VehicleRecord -> bool)
    (records : list VehicleRecord) :
  count_records (fun r => p r && q r) records
  + count_records (fun r => p r && negb (q r)) records
  = count_records p records.
Proof.
  induction records as [|r records IH] using rev_ind; [done|].
  rewrite !count_records_snoc, <- IH.
  destruct (p r), (q r); simpl; lia.
Qed.

Lemma count_records_zero (p : VehicleRecord -> bool)
    (records : list VehicleRecord) :
  (forall r, r ∈ records -> p r = false) -> count_records p records = 0.
Proof.
  intros Hnone. induction records as [|r records IH] using rev_ind; [done|].
  rewrite count_records_snoc, IH, Hnone; [done| |].
  - apply elem_of_app. right. by apply list_elem_of_singleton.
  - intros r' Hr'. apply Hnone, elem_of_app. by left.
Qed.

Lemma count_records_pos (p : VehicleRecord -> bool)
    (records : list VehicleRecord) (r : VehicleRecord) :
  r ∈ records -> p r = true -> 0 < count_records p records.
Proof.
  intros Hr Hp. induction records as [|r' records IH] using rev_ind.
  - by apply elem_of_nil in Hr.
  - rewrite count_records_snoc.
    assert (0 <= count_records p records) by (unfold count_records; lia).
    apply elem_of_app in Hr as [Hr| ->%list_elem_of_singleton].
    + specialize (IH Hr). destruct (p r'); lia.
    + rewrite Hp. lia.
Qed.

(** X3. After any calls of [update] on a constructed counter,
    [get_color_distribution] gives for each colour the number of records of
    that colour, and has no entry for a colour that no record has. *)
Theorem color_distribution_counts_records (frame_height : Z)
    (line_position : float) (self : VehicleCounter) (calls : list call)
    (key : string) :
  init frame_height line_position = Ok self ->
  let final := (run py_sum self calls).1 in
  let n :=
    count_records (fun r => String.eqb (color r) key)
      (registros (stats final)) in
  get_color_distribution final !! key = if n =? 0 then None else Some n.
Proof.
  intros Hinit final n.
  destruct (run_breakdowns frame_height line_position self calls Hinit)
    as [Hcor _].
  fold final in Hcor. unfold get_color_distribution.
  rewrite lookup_fmap.
  destruct (Hcor key) as [[-> Hnone]|[-> (r & Hr & Hkey)]]; cbn [fmap option_fmap option_map].
  - unfold n. rewrite count_records_zero; [done|].
    intros r Hr. apply String.eqb_neq. by apply Hnone.
  - unfold breakdown_of. cbn [entrada saida].
    rewrite count_records_split. fold n.
    assert (0 < n) as Hn.
    { apply (count_records_pos _ _ r Hr). by apply String.eqb_eq. }
    destruct (Z.eqb_spec n 0); [lia|done].
Qed.

(** *** The totals *)

Lemma run_totals (frame_height : Z) (line_position : float)
    (self : VehicleCounter) (calls : list call) :
  init frame_height line_position = Ok self ->
  let final := (run py_sum self calls).1 in
  (forall r, r ∈ registros (stats final) ->
             direction r = "entrada" \/ direction r = "saida")
  /\ total_entrada (stats final)
     = count_records (fun r => String.eqb (direction r) "entrada")
         (registros (stats final))
  /\ total_saida (stats final)
     = count_records (fun r => String.eqb (direction r) "saida")
         (registros (stats final)).
Proof.
  intros Hinit.
  apply (run_keeps
           (fun c =>
              (forall r, r ∈ registros (stats c) ->
                         direction r = "entrada" \/ direction r = "saida")
              /\ total_entrada (stats c)
                 = count_records (fun r => String.eqb (direction r) "entrada")
                     (registros (stats c))
              /\ total_saida (stats c)
                 = count_records (fun r => String.eqb (direction r) "saida")
                     (registros (stats c)))).
  - intros colors timestamp c newly vehicle (Hdir & Hin & Hout).
    destruct (update_body_outcome colors timestamp c newly vehicle)
      as (_ & _ & _ & [[_ ->]|(_ & _ & [(_ & _ & ->)|(d & Hd & _ & _ & _ & _ & _ & ->)])]);
      try done.
    unfold record_count. cbn [registros total_entrada total_saida direction].
    rewrite !count_records_snoc. cbn [direction]. split_and!.
    + intros r [Hr| ->%list_elem_of_singleton]%elem_of_app; [by apply Hdir|done].
    + rewrite Hin. destruct Hd as [-> | ->]; simpl; lia.
    + rewrite Hout. destruct Hd as [-> | ->]; simpl; lia.
  - apply init_fields in Hinit as (_ & _ & ->).
    split_and!; try done. by intros r ?%elem_of_nil.
Qed.

(** X4. After any calls of [update] on a constructed counter, the snapshot
    of [get_stats] is that of the records: every record goes in or out,
    [total_entrada] and [total_saida] are the numbers of records going in
    and going out, and [total_geral] is the number of records. *)
Theorem get_stats_counts_records (frame_height : Z) (line_position : float)
    (self : VehicleCounter) (calls : list call) :
  init frame_height line_position = Ok self ->
  let final := (run py_sum self calls).1 in
  let snapshot := get_stats final in
  (forall r, r ∈ registros (stats final) ->
             direction r = "entrada" \/ direction r = "saida")
  /\ snapshot_total_entrada snapshot
     = count_records (fun r => String.eqb (direction r) "entrada")
         (registros (stats final))
  /\ snapshot_total_saida snapshot
     = count_records (fun r => String.eqb (direction r) "saida")
         (registros (stats final))
  /\ snapshot_total_geral snapshot = snapshot_registros snapshot.
Proof.
  intros Hinit final snapshot.
  destruct (run_totals frame_height line_position self calls Hinit)
    as (Hdir & Hin & Hout).
  fold final in Hdir, Hin, Hout.
  split_and!; try done.
  unfold snapshot, get_stats.
  cbn [snapshot_total_geral snapshot_registros].
  rewrite Hin, Hout. clear Hin Hout.
  induction (registros (stats final)) as [|r records IH] using rev_ind; [done|].
  rewrite !count_records_snoc, length_app. simpl.
  rewrite Nat2Z.inj_add, <- IH.
  2:{ intros r' Hr'. apply Hdir, elem_of_app. by left. }
  destruct (Hdir r) as [-> | ->]; simpl; try lia.
  apply elem_of_app. right. by apply list_elem_of_singleton.
Qed.

(** *** Construction and [reset] *)

Lemma run_geometry (self : VehicleCounter) (calls : list call) :
  let final := (run py_sum self calls).1 in
  frame_height final = frame_height self
  /\ line_y final = line_y self
  /\ zone_margin final = zone_margin self.
Proof.
  apply (run_keeps
           (fun c => frame_height c = frame_height self
                     /\ line_y c = line_y self
                     /\ zone_margin c = zone_margin self)); [|done].
  intros colors timestamp c newly vehicle (<- & <- & <-).
  destruct (update_body_outcome colors timestamp c newly vehicle)
    as (? & ? & ? & _). done.
Qed.

(** X5. [reset] after any calls of [update] gives back the counter as it
    was constructed: the line and the margin are kept, the counts, the
    histories and the set of counted ids are emptied. *)
Theorem reset_restores_construction (frame_height : Z) (line_position : float)
    (self : VehicleCounter) (calls : list call) :
  init frame_height line_position = Ok self ->
  reset (run py_sum self calls).1 = self.
Proof.
  intros Hinit. apply init_fields in Hinit as (Hc & Hp & Hs).
  destruct (run_geometry self calls) as (Hh & Hl & Hz).
  unfold reset. rewrite Hh, Hl, Hz. destruct self. simpl in *. by subst.
Qed.

(** *** What one call appends *)

Lemma crossed_line_geometry (a b : VehicleCounter) (track_id : Z)
    (center_y : float) :
  line_y a = line_y b -> zone_margin a = zone_margin b ->
  crossed_line a track_id center_y = crossed_line b track_id center_y.
Proof. unfold crossed_line. by intros -> ->. Qed.

Lemma update_loop_appends (colors : gmap Z string) (timestamp : float)
    (self0 : VehicleCounter) (all : list Vehicle) (rest : list Vehicle)
    (self : VehicleCounter) (newly_counted : list (Z * string)) :
  (forall vehicle, vehicle ∈ rest -> vehicle ∈ all) ->
  line_y self = line_y self0 -> zone_margin self = zone_margin self0 ->
  counted_vehicles self0 ⊆ counted_vehicles self ->
  let after :=
    fold_left (update_body py_sum colors timestamp) rest (self, newly_counted) in
  line_y after.1 = line_y self0 /\ zone_margin after.1 = zone_margin self0
  /\ counted_vehicles self ⊆ counted_vehicles after.1
  /\ exists new,
      registros (stats after.1) = registros (stats self) ++ new
      /\ after.2 = newly_counted ++ (pair_of_record <$> new)
      /\ Forall (appended_by self0 all colors timestamp) new.
Proof.
  revert self newly_counted.
  induction rest as [|vehicle rest IH]; intros self newly Hall Hl Hz Hsub.
  { cbn [fold_left fst snd]. split_and!; try done. exists [].
    by rewrite !app_nil_r. }
  cbn [fold_left].
  pose proof (update_body_outcome colors timestamp self newly vehicle) as Hout.
  cbn zeta in Hout.
  destruct (update_body py_sum colors timestamp (self, newly) vehicle)
    as [self1 newly1] eqn:Hbody.
  cbn [fst snd] in Hout.
  destruct Hout as (_ & Hl1 & Hz1 & Hcases).
  assert (forall v, v ∈ rest -> v ∈ all) as Hall'
    by (intros v Hv; apply Hall; by right).
  destruct Hcases as [[_ [= -> ->]]|(Hid & _ & [(-> & Hc & Hs)|Hcount])].
  - by apply IH.
  - destruct (IH self1 newly Hall') as (? & ? & Hsub1 & new & Hreg & ? & ?);
      [congruence|congruence|by rewrite Hc|].
    split_and!; try done; [by rewrite <- Hc|].
    exists new. by rewrite <- Hs.
  - destruct Hcount as (d & Hd & Hnotin & Hzone & _ & -> & Hc & Hs).
    destruct (IH self1 (newly ++ [(default (-1) (v_track_id vehicle), d)]) Hall')
      as (? & ? & Hsub1 & new & Hreg & Hnew & Hfor);
      [congruence|congruence|rewrite Hc; by apply union_subseteq_r'|].
    split_and!; try done;
      [rewrite Hc in Hsub1; etrans; [apply union_subseteq_r|exact Hsub1]|].
    rewrite Hs in Hreg. unfold record_count in Hreg. cbn [registros] in Hreg.
    rewrite <- app_assoc in Hreg.
    eexists. split; [exact Hreg|]. split.
    { rewrite Hnew, <- app_assoc. done. }
    apply Forall_cons. split; [|done].
    unfold appended_by. cbn [track_id direction color vehicle_type Counter.timestamp].
    split_and!; try done.
    + intros Hin. by apply Hnotin, Hsub.
    + exists vehicle. split_and!; try done.
      * apply Hall. by left.
      * destruct (v_track_id vehicle); [done|]. simpl in Hid. lia.
      * rewrite <- Hzone. symmetry. by apply crossed_line_geometry.
Qed.

(** X6. One call of [update], on any counter, only appends records, one
    for each pair it returns and in the same order. Every appended record
    has an id that is not negative and was not counted before the call, a
    direction [entrada] or [saida], the colour of [colors] for its id
    ([indefinido] without an entry), the timestamp of the call and the type
    of a vehicle of the call whose centre is inside the counting zone. *)
Theorem update_appends_records (self : VehicleCounter)
    (tracked_vehicles : list Vehicle) (colors : gmap Z string)
    (timestamp : float) :
  let after := (update py_sum self tracked_vehicles colors timestamp).1 in
  let newly_counted :=
    (update py_sum self tracked_vehicles colors timestamp).2 in
  exists new,
    registros (stats after) = registros (stats self) ++ new
    /\ newly_counted = pair_of_record <$> new
    /\ Forall (appended_by self tracked_vehicles colors timestamp) new.
Proof.
  intros after newly_counted. unfold after, newly_counted, update.
  destruct (update_loop_appends colors timestamp self tracked_vehicles
              tracked_vehicles self [])
    as (_ & _ & _ & new & Hreg & Hnew & Hfor); try done.
  by exists new.
Qed.

(** *** Counted ids and their histories *)

(** X7. After any calls of [update] on a constructed counter, the set of
    counted ids is the set of the ids of the records, and every counted
    track still has a position history, of at least 5 positions. *)
Theorem counted_ids_are_recorded (frame_height : Z) (line_position : float)
    (self : VehicleCounter) (calls : list call) :
  init frame_height line_position = Ok self ->
  let final := (run py_sum self calls).1 in
  counted_vehicles final
  = list_to_set (Counter.track_id <$> registros (stats final))
  /\ forall track_id, track_id ∈ counted_vehicles final ->
       exists history,
         position_history final !! track_id = Some history
         /\ (5 <= length history)%nat.
Proof.
  intros Hinit.
  apply (run_keeps
           (fun c =>
              counted_vehicles c
              = list_to_set (Counter.track_id <$> registros (stats c))
              /\ forall track_id, track_id ∈ counted_vehicles c ->
                   exists history,
                     position_history c !! track_id = Some history
                     /\ (5 <= length history)%nat)).
  - intros colors timestamp c newly vehicle [Hset Hhist].
    destruct (update_body_outcome colors timestamp c newly vehicle)
      as (_ & _ & _ & [[_ ->]|(_ & Hp & Hcases)]); [done|].
    assert (forall track_id, track_id ∈ counted_vehicles c ->
              exists history,
                position_history
                  (update_body py_sum colors timestamp (c, newly) vehicle).1
                  !! track_id = Some history
                /\ (5 <= length history)%nat) as Hold.
    { intros track_id Hin. rewrite Hp.
      destruct (Hhist track_id Hin) as (history & Hlook & Hlen).
      destruct (decide (track_id = default (-1) (v_track_id vehicle)))
        as [->|Hne].
      - rewrite lookup_insert_eq. eexists. split; [done|].
        rewrite Hlook. cbn [default from_option id].
        pose proof (push_position_length history (center_y_of vehicle)). lia.
      - rewrite lookup_insert_ne by done. by exists history. }
    destruct Hcases as [(_ & -> & ->)|(d & _ & _ & _ & Hlen & _ & -> & ->)].
    + done.
    + split.
      * unfold record_count. cbn [registros].
        rewrite fmap_app, list_to_set_app_L, <- Hset. simpl.
        rewrite union_empty_r_L. apply (comm_L _).
      * intros track_id [->%elem_of_singleton|Hin]%elem_of_union;
          [|by apply Hold].
        rewrite Hp, lookup_insert_eq. eexists. by split.
  - apply init_fields in Hinit as (-> & _ & ->). split; [done|].
    intros track_id Hin. by apply elem_of_empty in Hin.
Qed.

(** *** Vehicles without an id *)

(** X8. [update] skips the vehicles that have no track id or a negative
    one: the call gives the same counter and the same pairs as the call on
    the other vehicles alone. *)
Theorem update_skips_untracked (self : VehicleCounter)
    (tracked_vehicles : list Vehicle) (colors : gmap Z string)
    (timestamp : float) :
  update py_sum self tracked_vehicles colors timestamp
  = update py_sum self
      (List.filter (fun vehicle => 0 <=? default (-1) (v_track_id vehicle))
                   tracked_vehicles)
      colors timestamp.
Proof.
  unfold update. generalize (self, @nil (Z * string)).
  induction tracked_vehicles as [|vehicle rest IH]; intros st; [done|].
  cbn [fold_left List.filter].
  destruct (Z.leb_spec 0 (default (-1) (v_track_id vehicle))) as [Hid|Hid].
  - cbn [fold_left]. apply IH.
  - rewrite <- IH. f_equal. unfold update_body. destruct st as [c newly].
    destruct (Z.ltb_spec (default (-1) (v_track_id vehicle)) 0); [done|lia].
Qed.

End WithSum.

Lemma position_histories_bounded_witness :
  init 600 0.5 = Ok scenario_counter
  /\ 0 <= 7
  /\ (1 <= length [100; 150; 200; 250; 310; 330; 350]%float <= 30)%nat.
Proof.
  split; [by vm_compute|].
  apply (position_histories_bounded sum_left 600 0.5 scenario_counter
           scenario_calls 7); by vm_compute.
Defined.

Lemma breakdowns_match_records_witness :
  let final := (run sum_left scenario_counter scenario_calls).1 in
  breakdown_matches color (por_cor (stats final)) (registros (stats final))
  /\ breakdown_matches vehicle_type (por_tipo (stats final))
       (registros (stats final)).
Proof.
  apply (breakdowns_match_records sum_left 600 0.5 scenario_counter
           scenario_calls).
  by vm_compute.
Defined.

Lemma color_distribution_counts_records_witness :
  get_color_distribution (run sum_left scenario_counter scenario_calls).1
    !! "azul" = Some 1
  /\ get_color_distribution (run sum_left scenario_counter scenario_calls).1
       !! "preto" = None.
Proof.
  split.
  - apply (color_distribution_counts_records sum_left 600 0.5 scenario_counter
             scenario_calls "azul").
    by vm_compute.
  - apply (color_distribution_counts_records sum_left 600 0.5 scenario_counter
             scenario_calls "preto").
    by vm_compute.
Defined.

Lemma get_stats_counts_records_witness :
  let final := (run sum_left scenario_counter scenario_calls).1 in
  let snapshot := get_stats final in
  (forall r, r ∈ registros (stats final) ->
             direction r = "entrada" \/ direction r = "saida")
  /\ snapshot_total_entrada snapshot
     = count_records (fun r => String.eqb (direction r) "entrada")
         (registros (stats final))
  /\ snapshot_total_saida snapshot
     = count_records (fun r => String.eqb (direction r) "saida")
         (registros (stats final))
  /\ snapshot_total_geral snapshot = snapshot_registros snapshot.
Proof.
  apply (get_stats_counts_records sum_left 600 0.5 scenario_counter
           scenario_calls).
  by vm_compute.
Defined.

Lemma reset_restores_construction_witness :
  reset (run sum_left scenario_counter scenario_calls).1 = scenario_counter.
Proof.
  apply (reset_restores_construction sum_left 600 0.5). by vm_compute.
Defined.

Lemma counted_ids_are_recorded_witness :
  let final := (run sum_left scenario_counter scenario_calls).1 in
  counted_vehicles final
  = list_to_set (Counter.track_id <$> registros (stats final))
  /\ forall track_id, track_id ∈ counted_vehicles final ->
       exists history,
         position_history final !! track_id = Some history
         /\ (5 <= length history)%nat.
Proof.
  apply (counted_ids_are_recorded sum_left 600 0.5 scenario_counter
           scenario_calls).
  by vm_compute.
Defined.

End CounterMore.

(** ** More on the analytics engine *)

Module AnalyticsMore.
Import Analytics.

(** A speed that [_calculate_speed] reports above 0 is at most 200. *)
Lemma calculate_speed_positive (c_pow2 : float -> float * Z)
    (self : AdvancedAnalytics) (pos1 pos2 : float * float * float)
    (speed : float) :
  calculate_speed c_pow2 self pos1 pos2 = Ok speed ->
  (0 <? speed)%float = true -> (speed <=? 200)%float = true.
Proof.
  destruct pos1 as [[x1 y1] t1], pos2 as [[x2 y2] t2]. unfold calculate_speed.
  destruct (_ <=? 0)%float; [by intros [= <-]|].
  intros (dx2 & _ & (dy2 & _ & [= <-])%bind_Ok)%bind_Ok.
  set (raw := (_ * 3.6)%float). unfold py_min.
  destruct (200 <? py_max raw 0)%float eqn:Hbig; [done|].
  intros [_ Hnan]%ltb_not_nan. by apply not_ltb_leb.
Qed.

Lemma well_formed_init (fps : Z) (pixels_per_meter now : float) :
  well_formed (init fps pixels_per_meter now).
Proof.
  split; cbn [init total_vehicles vehicles vehicles_in_scene speed_history
              hourly_flow flow_per_minute]; try done.
  - intros s Hs. by apply elem_of_nil in Hs.
Qed.

Lemma well_formed_reset (self : AdvancedAnalytics) (now : float) :
  well_formed (reset self now).
Proof.
  split; cbn [reset total_vehicles vehicles vehicles_in_scene speed_history
              hourly_flow flow_per_minute]; try done.
  - intros s Hs. by apply elem_of_nil in Hs.
Qed.

Lemma well_formed_update_density (self : AdvancedAnalytics)
    (timestamp : float) (vehicle_count : Z) :
  well_formed self -> well_formed (update_density self timestamp vehicle_count).
Proof. intros [? ? ? ? ?]. by split. Qed.

Lemma well_formed_update_vehicle (c_pow2 : float -> float * Z)
    (self : AdvancedAnalytics) (track_id : Z)
    (bbox : float * float * float * float) (timestamp : float)
    (color vehicle_type : option string) :
  well_formed self ->
  well_formed
    (update_vehicle c_pow2 self track_id bbox timestamp color vehicle_type).1.
Proof.
  intros [Htotal Hscene Hvehicle Hspeeds Hunused].
  destruct bbox as [[[bx1 by1] bx2] by2]. unfold update_vehicle.
  set (center_x := ((bx1 + bx2) / 2)%float).
  set (center_y := ((by1 + by2) / 2)%float).
  set (vehicle := default _ (vehicles self !! track_id)).
  set (positions' := positions vehicle ++ [(center_x, center_y, timestamp)]).
  set (speed := if (2 <=? length positions')%nat then _ else Ok None).
  set (appended := match speed with Ok (Some s) => [s] | _ => [] end).
  assert ((length appended <= 1)%nat) as Hone.
  { unfold appended. by destruct speed as [[s|]|e]; simpl; lia. }
  assert (forall s, s ∈ appended ->
                    (0 <? s)%float = true /\ (s <=? 200)%float = true)
    as Hspeed.
  { intros s. unfold appended, speed.
    destruct (2 <=? length positions')%nat; [|by intros ?%elem_of_nil].
    destruct (last_two positions') as [[p1 p2]|]; [|by intros ?%elem_of_nil].
    destruct (calculate_speed c_pow2 self p1 p2) as [v|e] eqn:Hcalc;
      cbn [mbind result_bind]; [|by intros ?%elem_of_nil].
    destruct (0 <? v)%float eqn:Hpos; [|by intros ?%elem_of_nil].
    intros ->%list_elem_of_singleton. split; [done|].
    by apply (calculate_speed_positive c_pow2 self p1 p2). }
  assert (Analytics.track_id vehicle = track_id
          /\ head positions'
             = Some (fst (entry_position vehicle),
                     snd (entry_position vehicle), entry_time vehicle)
          /\ (length (speed_estimates vehicle ++ appended)
              < length positions')%nat
          /\ forall s, s ∈ speed_estimates vehicle ->
                       (0 <? s)%float = true /\ (s <=? 200)%float = true)
    as (Hid & Hhead & Hlen & Hest).
  { assert (vehicles self !! track_id = None -> appended = []) as Hnew.
    { intros Hnone. unfold appended, speed, positions', vehicle.
      by rewrite Hnone. }
    revert Hone Hnew. generalize appended. intros l Hone Hnew.
    unfold positions', vehicle.
    destruct (vehicles self !! track_id) as [v|] eqn:Hlook;
      cbn [default from_option id].
    - destruct (Hvehicle _ _ Hlook) as (? & Hh & Hl & ?).
      split_and!; try done.
      + destruct (positions v); [done|]. by simpl in *.
      + rewrite !length_app. simpl. lia.
    - rewrite Hnew by done. split_and!; try done. cbn. lia. }
  clearbody appended.
  cbn [fst].
  split; cbn [total_vehicles vehicles vehicles_in_scene speed_history
              hourly_flow flow_per_minute]; try done.
  - case_bool_decide as Hnew.
    + rewrite map_size_insert_None by done. lia.
    + apply not_eq_None_Some in Hnew as [v Hv].
      by rewrite map_size_insert_Some.
  - case_bool_decide; lia.
  - intros k v. destruct (decide (k = track_id)) as [->|Hne].
    + rewrite lookup_insert_eq. intros [= <-].
      cbn [Analytics.track_id positions entry_position entry_time
           speed_estimates].
      split_and!; try done.
      intros s [Hs|Hs]%elem_of_app; [by apply Hest|by apply Hspeed].
    + rewrite lookup_insert_ne by done. apply Hvehicle.
  - intros s [Hs|Hs]%elem_of_app; [by apply Hspeeds|by apply Hspeed].
Qed.

Section WithRuntime.

Variable c_pow2 : float -> float * Z.
Variable np_mean : list float -> float.
Variable format_1f : float -> string.

Lemma well_formed_vehicle_exited (self : AdvancedAnalytics) (track_id : Z)
    (timestamp : float) (direction : string) (now1 now2 : float) :
  well_formed self ->
  well_formed
    (vehicle_exited np_mean format_1f self track_id timestamp direction
       now1 now2).
Proof.
  intros Hwf. unfold vehicle_exited.
  destruct (vehicles self !! track_id) as [vehicle|] eqn:Hlook; [|done].
  destruct Hwf as [Htotal Hscene Hvehicle Hspeeds Hunused].
  split; cbn [total_vehicles vehicles vehicles_in_scene speed_history
              hourly_flow flow_per_minute]; try done.
  - by rewrite map_size_insert_Some.
  - lia.
  - intros k v. destruct (decide (k = track_id)) as [->|Hne].
    + rewrite lookup_insert_eq. intros [= <-].
      cbn [finalize Analytics.track_id positions entry_position entry_time
           speed_estimates].
      by apply Hvehicle.
    + rewrite lookup_insert_ne by done. apply Hvehicle.
Qed.

Lemma well_formed_apply (self : AdvancedAnalytics) (o : operation) :
  well_formed self -> well_formed (apply c_pow2 np_mean format_1f self o).
Proof.
  destruct o; cbn [apply].
  - apply well_formed_update_vehicle.
  - apply well_formed_vehicle_exited.
  - apply well_formed_update_density.
  - intros _. apply well_formed_reset.
Qed.

Lemma well_formed_run (calls : list operation) (self : AdvancedAnalytics) :
  well_formed self -> well_formed (run c_pow2 np_mean format_1f self calls).
Proof.
  unfold run. revert self.
  induction calls as [|o calls IH]; intros self Hwf; [done|].
  cbn [fold_left]. by apply IH, well_formed_apply.
Qed.

(** X9. After any sequence of calls on a new engine, [total_vehicles] is
    the number of vehicle records, and [vehicles_in_scene] lies between 0
    and [total_vehicles]. *)
Theorem engine_counts_vehicles (fps : Z) (pixels_per_meter now : float)
    (calls : list operation) :
  let final := run c_pow2 np_mean format_1f (init fps pixels_per_meter now) calls in
  total_vehicles final = Z.of_nat (size (vehicles final))
  /\ 0 <= vehicles_in_scene final <= total_vehicles final.
Proof.
  intros final.
  destruct (well_formed_run calls _ (well_formed_init fps pixels_per_meter now)).
  done.
Qed.

(** X10. After any sequence of calls on a new engine, every speed of the
    speed history and of the speed estimates of a vehicle is above 0 and at
    most 200, hence a number; and a vehicle has fewer speed estimates than
    positions. *)
Theorem recorded_speeds_in_range (fps : Z) (pixels_per_meter now : float)
    (calls : list operation) :
  let final := run c_pow2 np_mean format_1f (init fps pixels_per_meter now) calls in
  (forall s, s ∈ speed_history final ->
             (0 <? s)%float = true /\ (s <=? 200)%float = true
             /\ is_nan s = false)
  /\ forall track_id vehicle,
       vehicles final !! track_id = Some vehicle ->
       (length (speed_estimates vehicle) < length (positions vehicle))%nat
       /\ forall s, s ∈ speed_estimates vehicle ->
                    (0 <? s)%float = true /\ (s <=? 200)%float = true
                    /\ is_nan s = false.
Proof.
  intros final.
  destruct (well_formed_run calls _ (well_formed_init fps pixels_per_meter now))
    as [_ _ Hvehicle Hspeeds _].
  fold final in Hvehicle, Hspeeds. split.
  - intros s [Hpos Hle]%Hspeeds. split_and!; try done.
    by apply ltb_not_nan in Hpos as [_ ?].
  - intros track_id vehicle (_ & _ & Hlen & Hest)%Hvehicle. split; [done|].
    intros s [Hpos Hle]%Hest. split_and!; try done.
    by apply ltb_not_nan in Hpos as [_ ?].
Qed.

(** X11. After any sequence of calls on a new engine, a vehicle record is
    stored under its own track id and its first position is its entry
    position at its entry time.  So [vehicle_exited] for a known track
    always finds a position: the exit position becomes the last recorded
    position, and the exit time, the direction and the flag are set. *)
Theorem vehicle_records_keep_entry (fps : Z) (pixels_per_meter now : float)
    (calls : list operation) (track_id : Z) (vehicle : VehicleMetrics)
    (timestamp : float) (direction : string) (now1 now2 : float) :
  let final := run c_pow2 np_mean format_1f (init fps pixels_per_meter now) calls in
  vehicles final !! track_id = Some vehicle ->
  Analytics.track_id vehicle = track_id
  /\ head (positions vehicle)
     = Some (fst (entry_position vehicle), snd (entry_position vehicle),
             entry_time vehicle)
  /\ exists x y t vehicle',
      last (positions vehicle) = Some (x, y, t)
      /\ vehicles
           (vehicle_exited np_mean format_1f final track_id timestamp direction
              now1 now2) !! track_id = Some vehicle'
      /\ exit_position vehicle' = (x, y)
      /\ exit_time vehicle' = timestamp
      /\ Analytics.direction vehicle' = direction
      /\ counted vehicle' = true
      /\ positions vehicle' = positions vehicle.
Proof.
  intros final Hlook.
  destruct (well_formed_run calls _ (well_formed_init fps pixels_per_meter now))
    as [_ _ Hvehicle _ _].
  destruct (Hvehicle _ _ Hlook) as (Hid & Hhead & _ & _).
  split_and!; try done.
  destruct (last (positions vehicle)) as [[[x y] t]|] eqn:Hlast.
  2:{ apply last_None in Hlast. by rewrite Hlast in Hhead. }
  exists x, y, t, (finalize vehicle timestamp direction).
  split; [done|]. unfold vehicle_exited. fold final. rewrite Hlook.
  cbn [vehicles]. rewrite lookup_insert_eq. split; [done|].
  unfold finalize. cbn. by rewrite Hlast.
Qed.

End WithRuntime.

Section WithSorted.

Variable c_pow2 : float -> float * Z.
Variable np_mean : list float -> float.
Variable format_1f : float -> string.
Variable sorted_by_flow : gmap Z Z -> list (Z * Z).

(** X12. No call writes [hourly_flow] or [flow_per_minute]: after any
    sequence of calls on a new engine both are empty, and [get_peak_hours]
    returns the empty list. *)
Theorem peak_hours_always_empty (fps : Z) (pixels_per_meter now : float)
    (calls : list operation) :
  let final := run c_pow2 np_mean format_1f (init fps pixels_per_meter now) calls in
  hourly_flow final = ∅
  /\ flow_per_minute final = []
  /\ get_peak_hours sorted_by_flow final = [].
Proof.
  intros final.
  destruct (well_formed_run c_pow2 np_mean format_1f calls _
              (well_formed_init fps pixels_per_meter now))
    as [_ _ _ _ [Hflow Hminute]].
  fold final in Hflow, Hminute. split_and!; try done.
  unfold get_peak_hours. by rewrite Hflow.
Qed.

End WithSorted.

(** X13. [get_recent_alerts]: a positive [count] gives the last [count]
    alerts, all of them when there are fewer; a [count] of 0 gives all the
    alerts, not none; a negative [count] drops the first [-count] alerts. *)
Theorem recent_alerts_by_count (self : AdvancedAnalytics) (count : Z) :
  (0 < count ->
   get_recent_alerts self count = last_n (Z.to_nat count) (alerts self)
   /\ length (get_recent_alerts self count)
      = (Z.to_nat count `min` length (alerts self))%nat)
  /\ (count = 0 -> get_recent_alerts self count = alerts self)
  /\ (count < 0 ->
      get_recent_alerts self count = drop (Z.to_nat (- count)) (alerts self)).
Proof.
  unfold get_recent_alerts, slice_from, last_n. split_and!.
  - intros Hpos. destruct (Z.ltb_spec (- count) 0); [|lia].
    replace (Z.to_nat (Z.max 0 (- count + Z.of_nat (length (alerts self)))))
      with (length (alerts self) - Z.to_nat count)%nat by lia.
    split; [done|]. rewrite length_drop. lia.
  - intros ->. simpl. by rewrite Z.min_l by lia.
  - intros Hneg. destruct (Z.ltb_spec (- count) 0); [lia|].
    destruct (Z.le_ge_cases (- count) (Z.of_nat (length (alerts self)))).
    + by rewrite Z.min_l.
    + rewrite Z.min_r by done. rewrite Nat2Z.id.
      rewrite !drop_ge; [done|lia|lia].
Qed.

(** X14. [get_traffic_density_color] always finds the density in its
    table: the result is the table's colour for [get_traffic_density], never
    the fallback colour. *)
Theorem density_color_never_fallback (self : AdvancedAnalytics) :
  density_colors !! get_traffic_density self
  = Some (get_traffic_density_color self)
  /\ get_traffic_density_color self ≠ "#95a5a6".
Proof.
  unfold get_traffic_density_color, get_traffic_density.
  destruct (_ <=? 2); [by vm_compute|].
  destruct (_ <=? 5); [by vm_compute|].
  destruct (_ <=? 10); by vm_compute.
Qed.

(** *** The density window *)

Lemma ltb_nan_l (x y : float) : is_nan x = true -> (x <? y)%float = false.
Proof.
  intros Hx%is_nan_spec. rewrite FloatAxioms.ltb_spec. unfold SFltb.
  by rewrite Hx.
Qed.

Lemma sub_nan_l (x y : float) : is_nan x = true -> is_nan (x - y) = true.
Proof.
  intros Hx%is_nan_spec. apply is_nan_spec.
  rewrite FloatAxioms.sub_spec, Hx. done.
Qed.

(** X15. [update_density] keeps, in order, the samples whose time is above
    the time of the new sample minus 300.  The new sample is the last one
    kept when its time is above that bound; when its time is not a number
    the whole history is emptied. *)
Theorem density_window (self : AdvancedAnalytics) (timestamp : float)
    (vehicle_count : Z) :
  let after := update_density self timestamp vehicle_count in
  let cutoff := (timestamp - 300)%float in
  density_history after
  = List.filter (fun sample => (cutoff <? fst sample)%float)
      (density_history self ++ [(timestamp, vehicle_count)])
  /\ ((cutoff <? timestamp)%float = true ->
      last (density_history after) = Some (timestamp, vehicle_count))
  /\ ((cutoff <? timestamp)%float = false ->
      density_history after
      = List.filter (fun sample => (cutoff <? fst sample)%float)
          (density_history self))
  /\ (is_nan timestamp = true -> density_history after = []).
Proof.
  intros after cutoff.
  assert (density_history after
          = List.filter (fun sample => (cutoff <? fst sample)%float)
              (density_history self ++ [(timestamp, vehicle_count)])) as Heq.
  { unfold after, update_density. cbn [density_history]. fold cutoff.
    apply List.filter_ext. by intros [t c]. }
  split; [done|]. rewrite Heq, List.filter_app. cbn [List.filter fst].
  split_and!.
  - intros ->. by rewrite last_snoc.
  - intros ->. by rewrite app_nil_r.
  - intros Hnan. rewrite (ltb_nan_l cutoff) by (by apply sub_nan_l).
    rewrite app_nil_r. clear Heq.
    induction (density_history self) as [|[t c] rest IH]; [done|].
    cbn [List.filter fst].
    by rewrite (ltb_nan_l cutoff t) by (by apply sub_nan_l).
Qed.

Lemma recorded_speeds_in_range_witness :
  (0 <? 200)%float = true /\ (200 <=? 200)%float = true
  /\ is_nan 200 = false.
Proof.
  apply (proj1 (recorded_speeds_in_range pow2_rounded mean_left format_hidden 30 20 0
                  example_calls)).
  vm_compute. by left.
Defined.

Lemma vehicle_records_keep_entry_witness :
  let final := run pow2_rounded mean_left format_hidden (init 30 20 0) example_calls in
  let vehicle := default (VehicleMetrics_new 1 0 (0, 0)%float)
                         (vehicles final !! 1) in
  Analytics.track_id vehicle = 1
  /\ head (positions vehicle)
     = Some (fst (entry_position vehicle), snd (entry_position vehicle),
             entry_time vehicle)
  /\ exists x y t vehicle',
      last (positions vehicle) = Some (x, y, t)
      /\ vehicles
           (vehicle_exited mean_left format_hidden final 1 120 "saida"
              121 122) !! 1 = Some vehicle'
      /\ exit_position vehicle' = (x, y)
      /\ exit_time vehicle' = 120%float
      /\ Analytics.direction vehicle' = "saida"
      /\ counted vehicle' = true
      /\ positions vehicle' = positions vehicle.
Proof.
  intros final vehicle.
  assert (vehicles final !! 1 = Some vehicle) as Hlook by (by vm_compute).
  apply (vehicle_records_keep_entry pow2_rounded mean_left format_hidden 30 20 0
           example_calls 1 vehicle 120 "saida" 121 122 Hlook).
Defined.

Lemma recent_alerts_by_count_witness :
  let self := run pow2_rounded mean_left format_hidden (init 30 20 0) example_calls in
  (get_recent_alerts self 1 = last_n 1 (alerts self)
   /\ length (get_recent_alerts self 1) = (1 `min` length (alerts self))%nat)
  /\ get_recent_alerts self 0 = alerts self
  /\ get_recent_alerts self (-1) = drop 1 (alerts self).
Proof.
  intros self.
  destruct (recent_alerts_by_count self 1) as (Hlast & _ & _).
  destruct (recent_alerts_by_count self 0) as (_ & Hall & _).
  destruct (recent_alerts_by_count self (-1)) as (_ & _ & Hdrop).
  split_and!; [apply Hlast; lia|apply Hlast; lia|by apply Hall|apply Hdrop; lia].
Defined.

Lemma density_window_witness :
  last (density_history (update_density (init 30 20 0) 10 3)) = Some (10%float, 3)
  /\ density_history
       (update_density (update_density (init 30 20 0) 10 3) nan 4) = [].
Proof.
  split.
  - apply (proj1 (proj2 (density_window (init 30 20 0) 10 3))). by vm_compute.
  - apply (proj2 (proj2 (proj2 (density_window
                                  (update_density (init 30 20 0) 10 3) nan 4)))).
    by vm_compute.
Defined.

(** On the example the engine holds one vehicle, out of the scene, one
    speed of 200, the two alerts of its exit and one density sample. *)
Example example_calls_result :
  let final := run pow2_rounded mean_left format_hidden (init 30 20 0) example_calls in
  total_vehicles final = 1 /\ vehicles_in_scene final = 0
  /\ speed_history final = [200%float]
  /\ alert_type <$> alerts final = ["PERMANENCIA_LONGA"; "ALTA_VELOCIDADE"]
  /\ density_history final = [(100%float, 1)].
Proof. by vm_compute. Qed.

End AnalyticsMore.

(** ** More on the colour classifier *)

Module ColorMore.
Import Color.

(** The pixels of a view are read inside its bounds. *)
Lemma view_pixels_ext (frame1 frame2 : Frame) (v : View) :
  (forall r c, fst (fst v) <= r < snd (fst v) ->
               fst (snd v) <= c < snd (snd v) ->
               bgr frame1 r c = bgr frame2 r c) ->
  view_pixels frame1 v = view_pixels frame2 v.
Proof.
  intros Hagree. unfold view_pixels.
  apply Forall_bind_ext, Forall_forall. intros r Hr%elem_of_seqZ.
  apply Forall_bind_ext, Forall_forall. intros c Hc%elem_of_seqZ.
  f_equal. unfold view_rows, view_cols, slice_len in *.
  apply Hagree; lia.
Qed.

Lemma push_color_bounds (history : list string) (current_color : string) :
  (1 <= length (push_color history current_color) <= 10)%nat
  /\ last (push_color history current_color) = Some current_color
  /\ forall label, label ∈ push_color history current_color ->
                   label ∈ history \/ label = current_color.
Proof.
  rewrite ColorProps.push_color_last_n. unfold last_n. split; [|split].
  - rewrite length_drop, length_app. simpl. lia.
  - rewrite drop_app_le by (rewrite length_app; simpl; lia). apply last_snoc.
  - intros label Hin.
    assert (label ∈ history ++ [current_color]) as Hall.
    { rewrite <- (take_drop (length (history ++ [current_color]) - 10)
                   (history ++ [current_color])).
      apply elem_of_app. by right. }
    apply elem_of_app in Hall as [Hall| ->%list_elem_of_singleton]; auto.
Qed.

Lemma smooth_Ok (color_history : gmap Z (list string)) (track_id : Z)
    (current_color : string) :
  let window :=
    push_color (default [] (color_history !! track_id)) current_color in
  exists label,
    smooth color_history track_id current_color
    = Ok (<[track_id := window]> color_history, label)
    /\ most_common window = Ok label
    /\ label ∈ window.
Proof.
  intros window. unfold smooth. fold window.
  destruct (ColorProps.most_common_spec window) as (label & Hmc & Hin & _).
  { intros Hnil.
    destruct (push_color_bounds (default [] (color_history !! track_id))
                current_color) as [Hlen _].
    fold window in Hlen. rewrite Hnil in Hlen. simpl in Hlen. lia. }
  exists label. by rewrite Hmc.
Qed.

Section WithOpenCV.

Variable bgr2hsv : Z * Z * Z -> Z * Z * Z.

Lemma predominant_vocabulary (hsv : list (Z * Z * Z)) (total_pixels : Z) :
  predominant hsv total_pixels ∈ vocabulary.
Proof.
  destruct (ColorProps.predominant_spec hsv total_pixels)
    as (best & ranges & Hin & _ & ->).
  unfold vocabulary. apply elem_of_app.
  destruct (_ <? _)%float.
  - left. by apply (list_elem_of_fmap_2 fst) in Hin.
  - right. by apply list_elem_of_singleton.
Qed.

Lemma indefinido_vocabulary : "indefinido" ∈ vocabulary.
Proof. apply elem_of_app. right. by apply list_elem_of_singleton. Qed.

Lemma classify_vocabulary (frame : Frame)
    (bbox : float * float * float * float) (label : string) :
  classify bgr2hsv frame bbox = Ok label -> label ∈ vocabulary.
Proof.
  destruct bbox as [[[b0 b1] b2] b3]. unfold classify.
  intros (x1 & _ & (y1 & _ & (x2 & _ & (y2 & _ & H)%bind_Ok)%bind_Ok)%bind_Ok)%bind_Ok.
  revert H. unfold clip_bbox.
  destruct (_ || _); [intros [= <-]; apply indefinido_vocabulary|].
  destruct (_ =? 0); [intros [= <-]; apply indefinido_vocabulary|].
  intros (margin_h & _ & (margin_w & _ & [= <-])%bind_Ok)%bind_Ok.
  apply predominant_vocabulary.
Qed.

(** X16. [classify] returns a label of [COLOR_RANGES] or [indefinido],
    whatever the frame, the box and the colour conversion. *)
Theorem classify_returns_known_label (frame : Frame)
    (bbox : float * float * float * float) (label : string) :
  classify bgr2hsv frame bbox = Ok label -> label ∈ vocabulary.
Proof. apply classify_vocabulary. Qed.

(** X17. [classify_with_smoothing] raises exactly when [classify] does,
    never for an empty window.  When [classify] returns a label, the label
    is appended to the window of the track, which is cut to its last 10
    labels; the windows of the other tracks are left alone; the label
    returned is one of the window.  If every window held between 1 and 10
    known labels before the call, so it is after, and the label returned is
    a known one. *)
Theorem smoothing_keeps_windows (color_history : gmap Z (list string))
    (track_id : Z) (frame : Frame) (bbox : float * float * float * float) :
  (forall e, classify bgr2hsv frame bbox = Raise e ->
             classify_with_smoothing bgr2hsv color_history track_id frame bbox
             = Raise e)
  /\ forall current_color,
       classify bgr2hsv frame bbox = Ok current_color ->
       exists after label window,
         classify_with_smoothing bgr2hsv color_history track_id frame bbox
         = Ok (after, label)
         /\ window
            = last_n 10
                (default [] (color_history !! track_id) ++ [current_color])
         /\ after !! track_id = Some window
         /\ (forall other, other ≠ track_id ->
                           after !! other = color_history !! other)
         /\ label ∈ window
         /\ (bounded_windows color_history ->
             bounded_windows after /\ label ∈ vocabulary).
Proof.
  unfold classify_with_smoothing. split.
  { by intros e ->. }
  intros current_color Hclassify. rewrite Hclassify. cbn [mbind result_bind].
  destruct (smooth_Ok color_history track_id current_color)
    as (label & -> & _ & Hin).
  destruct (push_color_bounds (default [] (color_history !! track_id))
              current_color) as (Hlen & _ & Hfrom).
  set (window := push_color _ current_color) in *.
  exists (<[track_id := window]> color_history), label, window.
  split_and!; try done.
  - apply ColorProps.push_color_last_n.
  - by rewrite lookup_insert_eq.
  - intros other Hne. by rewrite lookup_insert_ne.
  - intros Hbounded.
    assert (forall l, l ∈ window -> l ∈ vocabulary) as Hknown.
    { intros l [Hl| ->]%Hfrom; [|by apply (classify_vocabulary frame bbox)].
      destruct (color_history !! track_id) as [history|] eqn:Hlook.
      - by apply (Hbounded track_id history).
      - by apply elem_of_nil in Hl. }
    split; [|by apply Hknown].
    intros other history. destruct (decide (other = track_id)) as [->|Hne].
    + rewrite lookup_insert_eq. by intros [= <-].
    + rewrite lookup_insert_ne by done. apply Hbounded.
Qed.

(** X18. Two smoothed classifications for different tracks can be made in
    either order: when both return, the labels and the final histories are
    the same. *)
Theorem smoothing_of_two_tracks_commutes (color_history : gmap Z (list string))
    (track1 track2 : Z) (frame1 frame2 : Frame)
    (bbox1 bbox2 : float * float * float * float)
    (after1 after12 : gmap Z (list string)) (label1 label2 : string) :
  track1 ≠ track2 ->
  classify_with_smoothing bgr2hsv color_history track1 frame1 bbox1
  = Ok (after1, label1) ->
  classify_with_smoothing bgr2hsv after1 track2 frame2 bbox2
  = Ok (after12, label2) ->
  exists after2,
    classify_with_smoothing bgr2hsv color_history track2 frame2 bbox2
    = Ok (after2, label2)
    /\ classify_with_smoothing bgr2hsv after2 track1 frame1 bbox1
       = Ok (after12, label1).
Proof.
  intros Hne. unfold classify_with_smoothing.
  intros (color1 & Hc1 & Hs1)%bind_Ok (color2 & Hc2 & Hs2)%bind_Ok.
  rewrite Hc1, Hc2. cbn [mbind result_bind].
  destruct (smooth_Ok color_history track1 color1) as (l1 & Hl1 & _).
  rewrite Hl1 in Hs1. injection Hs1 as <- ->.
  destruct (smooth_Ok (<[track1 := push_color
                            (default [] (color_history !! track1)) color1]>
                         color_history) track2 color2) as (l2 & Hl2 & Hm2 & _).
  rewrite Hl2 in Hs2. injection Hs2 as <- ->.
  rewrite lookup_insert_ne in Hm2 by done.
  eexists. split.
  - unfold smooth. rewrite Hm2. cbn [mbind result_bind]. done.
  - unfold smooth in Hl1 |- *. rewrite lookup_insert_ne by done.
    destruct (most_common (push_color (default [] (color_history !! track1))
                             color1)) as [m|e]; [|done].
    cbn [mbind result_bind] in Hl1 |- *. injection Hl1 as ->.
    rewrite lookup_insert_ne by done. by rewrite insert_insert_ne.
Qed.

(** X19. [classify] reads the frame only inside the box clipped to the
    frame: on two frames of the same shape whose pixels agree there it gives
    the same result. *)
Theorem classify_reads_only_the_box (frame1 frame2 : Frame)
    (b0 b1 b2 b3 : float) :
  shape0 frame1 = shape0 frame2 -> shape1 frame1 = shape1 frame2 ->
  (forall x1 y1 x2 y2 r c,
      py_int b0 = Ok x1 -> py_int b1 = Ok y1 ->
      py_int b2 = Ok x2 -> py_int b3 = Ok y2 ->
      Z.max 0 y1 <= r < Z.min (Z.of_nat (shape0 frame1)) y2 ->
      Z.max 0 x1 <= c < Z.min (Z.of_nat (shape1 frame1)) x2 ->
      bgr frame1 r c = bgr frame2 r c) ->
  classify bgr2hsv frame1 (b0, b1, b2, b3)
  = classify bgr2hsv frame2 (b0, b1, b2, b3).
Proof.
  intros Hrows Hcols Hagree. unfold classify.
  destruct (py_int b0) as [x1|]; [|done].
  destruct (py_int b1) as [y1|]; [|done].
  destruct (py_int b2) as [x2|]; [|done].
  destruct (py_int b3) as [y2|]; [|done].
  specialize (Hagree x1 y1 x2 y2).
  cbn [mbind result_bind]. unfold clip_bbox. rewrite <- Hrows, <- Hcols.
  set (left := Z.max 0 x1) in *. set (top := Z.max 0 y1) in *.
  set (right := Z.min (Z.of_nat (shape1 frame1)) x2) in *.
  set (bottom := Z.min (Z.of_nat (shape0 frame1)) y2) in *.
  destruct (Z.leb_spec right left) as [Hw|Hw]; cbn [orb]; [done|].
  destruct (Z.leb_spec bottom top) as [Hh|Hh]; [done|].
  rewrite !ColorProps.slice_inside by (unfold left, top, right, bottom; lia).
  set (vehicle_roi := ((top, bottom), (left, right)) : View).
  destruct (view_size vehicle_roi =? 0); [done|].
  destruct (py_int (float_of_Z (view_rows vehicle_roi) * 0.2)%float)
    as [margin_h|]; [|done].
  destruct (py_int (float_of_Z (view_cols vehicle_roi) * 0.15)%float)
    as [margin_w|]; [|done].
  cbn [mbind result_bind]. do 3 f_equal.
  destruct (ColorProps.center_of_inside vehicle_roi margin_h margin_w)
    as (_ & _ & H1 & H2 & H3 & H4).
  { unfold view_rows, slice_len. simpl. lia. }
  { unfold view_cols, slice_len. simpl. lia. }
  apply view_pixels_ext. intros r c Hr Hc.
  simpl in H1, H2, H3, H4. apply Hagree; try done; lia.
Qed.

End WithOpenCV.

Lemma classify_returns_known_label_witness : "azul" ∈ vocabulary.
Proof.
  apply (classify_returns_known_label blue_to_hsv blue_frame
           (0, 0, 10, 10)%float).
  by vm_compute.
Defined.

Lemma smoothing_keeps_windows_witness :
  let color_history : gmap Z (list string) := {[ 7 := ["preto"] ]} in
  exists after label window,
    classify_with_smoothing blue_to_hsv color_history 7 blue_frame
      (0, 0, 10, 10)%float
    = Ok (after, label)
    /\ window = last_n 10 (default [] (color_history !! 7) ++ ["azul"])
    /\ after !! 7 = Some window
    /\ (forall other, other ≠ 7 -> after !! other = color_history !! other)
    /\ label ∈ window
    /\ (bounded_windows color_history ->
        bounded_windows after /\ label ∈ vocabulary).
Proof.
  intros color_history.
  apply (proj2 (smoothing_keeps_windows blue_to_hsv color_history
                  7 blue_frame (0, 0, 10, 10)%float) "azul").
  by vm_compute.
Defined.

Lemma smoothing_of_two_tracks_commutes_witness :
  exists after2,
    classify_with_smoothing blue_to_hsv ∅ 8 blue_frame (20, 20, 30, 30)%float
    = Ok (after2, "indefinido")
    /\ classify_with_smoothing blue_to_hsv after2 7 blue_frame
         (0, 0, 10, 10)%float
       = Ok ({[ 7 := ["azul"]; 8 := ["indefinido"] ]}, "azul").
Proof.
  apply (smoothing_of_two_tracks_commutes blue_to_hsv ∅ 7 8 blue_frame
           blue_frame (0, 0, 10, 10)%float (20, 20, 30, 30)%float
           {[ 7 := ["azul"] ]}).
  - done.
  - by vm_compute.
  - by vm_compute.
Defined.

Lemma classify_reads_only_the_box_witness :
  classify blue_to_hsv blue_frame (2, 2, 8, 8)%float
  = classify blue_to_hsv blue_frame_marked (2, 2, 8, 8)%float.
Proof.
  apply (classify_reads_only_the_box blue_to_hsv blue_frame blue_frame_marked);
    [done|done|].
  intros x1 y1 x2 y2 r c H0 H1 H2 H3.
  vm_compute in H0, H1, H2, H3.
  injection H0 as <-. injection H1 as <-. injection H2 as <-. injection H3 as <-.
  intros Hr Hc. simpl in Hr. simpl.
  destruct (Z.eqb_spec r 0); [lia|done].
Defined.

End ColorMore.

(** ** The vehicle tracker *)

Module TrackerProps.
Import Tracker.

(** X20. [set_vehicle_color] followed by [get_vehicle_color]: for a
    tracked id the colour set is the colour read; for an id that is not
    tracked the call changes nothing and no colour is read; the colours of
    the other ids are not changed. *)
Theorem vehicle_color_round_trip (position : Type)
    (tracked_vehicles : gmap Z (TrackInfo position)) (track_id : Z)
    (color : string) :
  let after := set_vehicle_color tracked_vehicles track_id color in
  (is_Some (tracked_vehicles !! track_id) ->
   get_vehicle_color after track_id = Some color)
  /\ (tracked_vehicles !! track_id = None ->
      after = tracked_vehicles /\ get_vehicle_color after track_id = None)
  /\ dom after = dom tracked_vehicles
  /\ forall other, other ≠ track_id ->
       get_vehicle_color after other = get_vehicle_color tracked_vehicles other.
Proof.
  intros after. unfold after, set_vehicle_color, get_vehicle_color.
  destruct (tracked_vehicles !! track_id) as [info|] eqn:Hlook.
  - split_and!.
    + intros _. by rewrite lookup_insert_eq.
    + done.
    + apply dom_insert_lookup_L. by rewrite Hlook.
    + intros other Hne. by rewrite lookup_insert_ne.
  - split_and!; try done. intros _. by rewrite Hlook.
Qed.

Lemma vehicle_color_round_trip_witness :
  get_vehicle_color
    (set_vehicle_color
       ({[ 7 := {| first_seen := true; positions := [1%float]; color := None |} ]})
       7 "azul") 7
  = Some "azul"
  /\ get_vehicle_color
       (set_vehicle_color
          ({[ 7 := {| first_seen := true; positions := [1%float];
                      color := None |} ]})
          8 "azul") 8
     = None.
Proof.
  split.
  - apply (proj1 (vehicle_color_round_trip float
                    ({[ 7 := {| first_seen := true; positions := [1%float];
                                color := None |} ]}) 7 "azul")).
    eexists. by vm_compute.
  - apply (proj1 (proj2 (vehicle_color_round_trip float
                    ({[ 7 := {| first_seen := true; positions := [1%float];
                                color := None |} ]}) 8 "azul"))).
    by vm_compute.
Defined.

End TrackerProps.

(** ** The frame loop *)

Module PipelineProps.
Import Pipeline.

Section WithLibraries.

Variable bgr2hsv : Z * Z * Z -> Z * Z * Z.
Variable py_sum : list float -> float.

(** The colour loop writes an entry for every vehicle with a valid id and
    removes none. *)
Lemma classify_vehicles_keys (frame : Color.Frame)
    (tracked_vehicles : list Counter.Vehicle)
    (st after : gmap Z (list string) * gmap Z string) :
  classify_vehicles bgr2hsv frame st tracked_vehicles = Ok after ->
  (forall track_id, is_Some (st.2 !! track_id) ->
                    is_Some (after.2 !! track_id))
  /\ forall vehicle track_id,
       vehicle ∈ tracked_vehicles ->
       Counter.v_track_id vehicle = Some track_id -> 0 <= track_id ->
       is_Some (after.2 !! track_id).
Proof.
  revert st.
  induction tracked_vehicles as [|vehicle rest IH]; intros st.
  { intros [= <-]. split; [done|]. by intros ? ? ?%elem_of_nil. }
  cbn [classify_vehicles]. intros (st1 & Hone & Hrest)%bind_Ok.
  destruct (IH st1 Hrest) as [Hkeep Hnew].
  assert (forall track_id, is_Some (st.2 !! track_id) ->
                           is_Some (st1.2 !! track_id)) as Hkeep1.
  { intros track_id Hsome. revert Hone. unfold classify_vehicle.
    destruct st as [color_history colors].
    destruct (0 <=? _); [|by intros [= <-]].
    intros (r & _ & [= <-])%bind_Ok. cbn [snd] in *.
    destruct (decide (track_id = default (-1) (Counter.v_track_id vehicle)))
      as [->|Hne].
    - rewrite lookup_insert_eq. by eexists.
    - by rewrite lookup_insert_ne. }
  split; [by intros track_id ?%Hkeep1%Hkeep|].
  intros v track_id [->|Hin]%elem_of_cons Hid Hpos; [|by eapply Hnew].
  apply Hkeep. revert Hone. unfold classify_vehicle.
  destruct st as [color_history colors]. rewrite Hid. cbn [default from_option id].
  destruct (Z.leb_spec 0 track_id); [|lia].
  intros (r & _ & [= <-])%bind_Ok. cbn [snd].
  rewrite lookup_insert_eq. by eexists.
Qed.

(** X21. One frame of the loop only appends records to the counter, one
    for each pair returned.  The colour of each appended record is the
    entry that the dictionary [vehicle_colors] has for its track after the
    colour loop of that frame: the entry always exists, so the default
    [indefinido] of [update] for a missing colour is never used. *)
Theorem frame_records_use_known_colors (st : State) (frame : Color.Frame)
    (tracked_vehicles : list Counter.Vehicle) (timestamp : float)
    (after : State) (newly_counted : list (Z * string)) :
  process_frame bgr2hsv py_sum st frame tracked_vehicles timestamp
  = Ok (after, newly_counted) ->
  exists new,
    Counter.registros (Counter.stats (counter after))
    = Counter.registros (Counter.stats (counter st)) ++ new
    /\ newly_counted = Counter.pair_of_record <$> new
    /\ forall r, r ∈ new ->
         vehicle_colors after !! Counter.track_id r = Some (Counter.color r).
Proof.
  unfold process_frame. intros (colors & Hcolors & [= <- <-])%bind_Ok.
  cbn [counter vehicle_colors].
  destruct (CounterMore.update_loop_appends py_sum colors.2 timestamp
              (counter st) tracked_vehicles tracked_vehicles (counter st) [])
    as (_ & _ & _ & new & Hreg & Hnew & Hfor); try done.
  exists new. split_and!; try done.
  intros r Hr. rewrite Forall_forall in Hfor.
  destruct (Hfor r Hr) as (Hid & _ & _ & Hcolor & _ & vehicle & Hin & Hv & _).
  apply classify_vehicles_keys in Hcolors as [_ Hkeys].
  destruct (Hkeys vehicle (Counter.track_id r) Hin Hv Hid) as [c Hc].
  rewrite Hcolor, Hc. done.
Qed.

Lemma classify_vehicles_untracked (frame : Color.Frame)
    (tracked_vehicles : list Counter.Vehicle)
    (st : gmap Z (list string) * gmap Z string) :
  classify_vehicles bgr2hsv frame st tracked_vehicles
  = classify_vehicles bgr2hsv frame st
      (List.filter
         (fun vehicle => 0 <=? default (-1) (Counter.v_track_id vehicle))
         tracked_vehicles).
Proof.
  revert st. induction tracked_vehicles as [|vehicle rest IH]; intros st; [done|].
  cbn [classify_vehicles List.filter].
  destruct (0 <=? default (-1) (Counter.v_track_id vehicle)) eqn:Hid.
  - cbn [classify_vehicles].
    destruct (classify_vehicle bgr2hsv frame st vehicle) as [st1|e]; [|done].
    cbn [mbind result_bind]. apply IH.
  - unfold classify_vehicle at 1. destruct st as [color_history colors].
    rewrite Hid. cbn [mbind result_bind]. apply IH.
Qed.

Lemma update_untracked (self : Counter.VehicleCounter)
    (tracked_vehicles : list Counter.Vehicle) (colors : gmap Z string)
    (timestamp : float) :
  Counter.update py_sum self tracked_vehicles colors timestamp
  = Counter.update py_sum self
      (List.filter
         (fun vehicle => 0 <=? default (-1) (Counter.v_track_id vehicle))
         tracked_vehicles)
      colors timestamp.
Proof.
  unfold Counter.update. generalize (self, @nil (Z * string)).
  induction tracked_vehicles as [|vehicle rest IH]; intros st; [done|].
  cbn [fold_left List.filter].
  destruct (Z.leb_spec 0 (default (-1) (Counter.v_track_id vehicle)))
    as [Hid|Hid].
  - cbn [fold_left]. apply IH.
  - rewrite <- IH. f_equal. unfold Counter.update_body.
    destruct st as [c newly].
    destruct (Z.ltb_spec (default (-1) (Counter.v_track_id vehicle)) 0);
      [done|lia].
Qed.

(** X22. A frame of the loop ignores the vehicles without a track id or
    with a negative one: they are neither classified, so a box of theirs
    that [classify] would reject raises nothing, nor counted.  The frame
    gives the same result as on the other vehicles alone. *)
Theorem frame_ignores_untracked (st : State) (frame : Color.Frame)
    (tracked_vehicles : list Counter.Vehicle) (timestamp : float) :
  process_frame bgr2hsv py_sum st frame tracked_vehicles timestamp
  = process_frame bgr2hsv py_sum st frame
      (List.filter
         (fun vehicle => 0 <=? default (-1) (Counter.v_track_id vehicle))
         tracked_vehicles)
      timestamp.
Proof.
  unfold process_frame. rewrite <- classify_vehicles_untracked.
  destruct (classify_vehicles bgr2hsv frame _ tracked_vehicles) as [colors|e];
    [|done].
  cbn [mbind result_bind]. by rewrite <- update_untracked.
Qed.

End WithLibraries.

Lemma frame_records_use_known_colors_witness :
  exists after newly_counted new,
    process_frame Color.blue_to_hsv sum_left scenario_state blue_road
      [Counter.scenario_vehicle 310] (5 / 30)%float
    = Ok (after, newly_counted)
    /\ Counter.registros (Counter.stats (counter after))
       = Counter.registros (Counter.stats (counter scenario_state)) ++ new
    /\ newly_counted = Counter.pair_of_record <$> new
    /\ forall r, r ∈ new ->
         vehicle_colors after !! Counter.track_id r = Some (Counter.color r).
Proof.
  pose (out :=
          match process_frame Color.blue_to_hsv sum_left scenario_state blue_road
                  [Counter.scenario_vehicle 310] (5 / 30)%float with
          | Ok out => out
          | Raise _ => (scenario_state, [])
          end).
  assert (process_frame Color.blue_to_hsv sum_left scenario_state blue_road
            [Counter.scenario_vehicle 310] (5 / 30)%float
          = Ok (out.1, out.2)) as Hout by (vm_compute; reflexivity).
  exists out.1, out.2.
  destruct (frame_records_use_known_colors Color.blue_to_hsv sum_left scenario_state
              blue_road [Counter.scenario_vehicle 310] (5 / 30)%float
              out.1 out.2 Hout) as (new & Hreg & Hnew & Hcolors).
  exists new. split; [exact Hout|]. split; [exact Hreg|].
  split; [exact Hnew|exact Hcolors].
Defined.

(** On the scenario the fifth frame counts track 7, with the colour that
    the classifier gave it in that frame. *)
Example scenario_frame :
  exists after,
    process_frame Color.blue_to_hsv sum_left scenario_state blue_road
      [Counter.scenario_vehicle 310] (5 / 30)%float
    = Ok (after, [(7, "entrada")])
    /\ vehicle_colors after !! 7 = Some "azul"
    /\ Counter.color <$> Counter.registros (Counter.stats (counter after))
       = ["azul"].
Proof. eexists. split; [vm_compute; reflexivity|]. by vm_compute. Qed.

End PipelineProps.
